(** * rpa-challenge: the Al Jazeera news crawler

    A shallow embedding of [libraries/AlJazeeraCrawler.py] and
    [libraries/CustomSelenium.py].

    - Python text is modelled as Rocq [string], read as a sequence of
      code points below 256 (Latin-1); [str.lower], [str.strip],
      [str.count] and the [re] classes [\d] and [\s] are written out on
      that range.
    - The page is a finite chain of DOM snapshots: the article cards that
      are visible, and what the "show more" button leads to.
    - Effects (logging, scrolling, clicking, sleeping, downloads, the
      spreadsheet export) are recorded as a trace of events; a Python
      exception that nothing catches ends the computation with [Raise]. *)

From Stdlib Require Import ZArith List String Ascii Bool Lia DecimalString.
Import ListNotations.

Local Open Scope string_scope.

(* ================================================================== *)
(** ** Python text primitives *)

Module Text.

Definition code (c : ascii) : N := N_of_ascii c.

Definition between (lo hi : N) (c : ascii) : bool :=
  (lo <=? code c)%N && (code c <=? hi)%N.

(** [re]'s [\d] on a [str] pattern: the decimal digits of the range. *)
Definition isdigit (c : ascii) : bool := between 48 57 c.

(** [str.isspace] for one character, which is also [re]'s [\s]. *)
Definition isspace (c : ascii) : bool :=
  between 9 13 c || between 28 32 c
  || (code c =? 133)%N || (code c =? 160)%N.

(** Characters that [str.lower] changes: A-Z, and the accented capitals
    192..222 without the multiplication sign 215. *)
Definition isupper (c : ascii) : bool :=
  between 65 90 c || (between 192 222 c && negb (code c =? 215)%N).

Definition lower_char (c : ascii) : ascii :=
  if isupper c then ascii_of_N (code c + 32) else c.

(** [str.lower()] *)
Fixpoint lower (s : string) : string :=
  match s with
  | EmptyString => EmptyString
  | String c s' => String (lower_char c) (lower s')
  end.

Fixpoint skip (n : nat) (s : string) : string :=
  match n, s with
  | O, _ => s
  | S _, EmptyString => EmptyString
  | S k, String _ s' => skip k s'
  end.

(** [s.removeprefix(p)] *)
Definition removeprefix (p s : string) : string :=
  if prefix p s then skip (length p) s else s.

Fixpoint lstrip (s : string) : string :=
  match s with
  | EmptyString => EmptyString
  | String c s' => if isspace c then lstrip s' else s
  end.

Fixpoint rstrip (s : string) : string :=
  match s with
  | EmptyString => EmptyString
  | String c s' =>
      match rstrip s' with
      | EmptyString => if isspace c then EmptyString else String c EmptyString
      | r => String c r
      end
  end.

(** [s.strip()] *)
Definition strip (s : string) : string := rstrip (lstrip s).

(** The scan of [str.count] for a non-empty [sub]: at a position where
    [sub] occurs the count goes up and the scan resumes after the
    occurrence ([pending] characters are still to be stepped over);
    elsewhere it moves on by one character. *)
Fixpoint count_scan (sub : string) (pending : nat) (s : string) : nat :=
  match s with
  | EmptyString => 0
  | String _ s' =>
      match pending with
      | S k => count_scan sub k s'
      | O =>
          if prefix sub s
          then S (count_scan sub (length sub - 1) s')
          else count_scan sub 0 s'
      end
  end.

(** [s.count(sub)]: for the empty [sub] Python answers [len(s) + 1]. *)
Definition count (s sub : string) : nat :=
  match sub with
  | EmptyString => length s + 1
  | _ => count_scan sub 0 s
  end.

(** Number of positions of [s] at which [sub] occurs, occurrences that
    overlap included. *)
Fixpoint count_overlapping (s sub : string) : nat :=
  match s with
  | EmptyString => if prefix sub EmptyString then 1 else 0
  | String _ s' =>
      (if prefix sub s then 1 else 0) + count_overlapping s' sub
  end.

Fixpoint forallb_str (p : ascii -> bool) (s : string) : bool :=
  match s with
  | EmptyString => true
  | String c s' => p c && forallb_str p s'
  end.

Fixpoint existsb_str (p : ascii -> bool) (s : string) : bool :=
  match s with
  | EmptyString => false
  | String c s' => p c || existsb_str p s'
  end.

(** [str(n)] for an [int] *)
Definition str_of_Z (n : Z) : string := NilZero.string_of_int (Z.to_int n).

(** Python truthiness of an optional string: [None] and [""] are false. *)
Definition truthy (o : option string) : bool :=
  match o with
  | Some (String _ _) => true
  | _ => false
  end.

End Text.

(* ================================================================== *)
(** ** Exceptions *)

(** The exceptions the two classes can let escape. *)
Inductive exn : Type :=
| ValueError (msg : string)
| TypeError (msg : string)
| OutOfBoundsDatetime
| NoSuchElementException (what : string)
| URLError (url : string)
| WebDriverException (msg : string)
| IllegalCharacterError.

Inductive outcome (A : Type) : Type :=
| Ok (a : A)
| Raise (e : exn).
Arguments Ok {A} a.
Arguments Raise {A} e.

(* ================================================================== *)
(** ** Dates: [datetime], [relativedelta], [DateOffset] *)

Module Calendar.

Local Open Scope Z_scope.

Record date : Type := mkdate { year : Z; month : Z; day : Z }.

Definition isleap (y : Z) : bool :=
  (y mod 4 =? 0) && (negb (y mod 100 =? 0) || (y mod 400 =? 0)).

(** [calendar.monthrange(y, m)[1]] *)
Definition days_in_month (y m : Z) : Z :=
  if m =? 2 then (if isleap y then 29 else 28)
  else if (m =? 4) || (m =? 6) || (m =? 9) || (m =? 11) then 30
  else 31.

Definition MINYEAR : Z := 1.
Definition MAXYEAR : Z := 9999.

(** The dates a [datetime] can hold. *)
Definition validb (d : date) : bool :=
  (MINYEAR <=? year d) && (year d <=? MAXYEAR)
  && (1 <=? month d) && (month d <=? 12)
  && (1 <=? day d) && (day d <=? days_in_month (year d) (month d)).

Definition valid (d : date) : Prop := validb d = true.

(** [a.date() < b.date()] *)
Definition ltb (a b : date) : bool :=
  (year a <? year b)
  || ((year a =? year b)
      && ((month a <? month b)
          || ((month a =? month b) && (day a <? day b)))).

(** [datetime(y, m, d)] and [dt.replace(year=y, month=m, day=d)]: the
    constructor checks the fields. *)
Definition make (y m d : Z) : outcome date :=
  let r := mkdate y m d in
  if validb r then Ok r else Raise (ValueError "date value out of range").

(** [dt.replace(day=1)] *)
Definition replace_day (dt : date) (d : Z) : outcome date :=
  make (year dt) (month dt) d.

(** [relativedelta]: the two fields that [months=] reaches. *)
Record relativedelta : Type := mkdelta { years : Z; months : Z }.

(** [relativedelta(years=y, months=m)]: [_fix] carries whole years out
    of the months. *)
Definition delta (y m : Z) : relativedelta :=
  if 11 <? Z.abs m
  then let s := Z.sgn m in
       mkdelta (y + (m * s / 12) * s) ((m * s mod 12) * s)
  else mkdelta y m.

(** [relativedelta.__neg__] *)
Definition delta_neg (r : relativedelta) : relativedelta :=
  delta (- years r) (- months r).

(** [relativedelta.__radd__]: [dt + r]. *)
Definition delta_add (r : relativedelta) (dt : date) : outcome date :=
  let y := year dt + years r in
  let m := month dt in
  let '(y, m) :=
    if months r =? 0 then (y, m)
    else let m := m + months r in
         if 12 <? m then (y + 1, m - 12)
         else if m <? 1 then (y - 1, m + 12)
         else (y, m) in
  let d := Z.min (days_in_month y m) (day dt) in
  make y m d.

(** [dt - DateOffset(months=k)]: the offset holds [relativedelta(months=k)]
    and subtracting adds its negation; pandas turns both the operand and
    the result into a [Timestamp], whose range [in_bounds] is narrower
    than [datetime]'s. *)
Definition sub_months (in_bounds : date -> bool) (dt : date) (k : Z)
  : outcome date :=
  if in_bounds dt then
    match delta_add (delta_neg (delta 0 k)) dt with
    | Ok r => if in_bounds r then Ok r else Raise OutOfBoundsDatetime
    | Raise e => Raise e
    end
  else Raise OutOfBoundsDatetime.

(** Months counted from year 0: the month [k] months before [dt] is the
    one whose index is [k] less. *)
Definition month_index (dt : date) : Z := 12 * year dt + (month dt - 1).

Definition first_of_month_index (i : Z) : date := mkdate (i / 12) (i mod 12 + 1) 1.

(** *** [datetime.strptime(s, "%d %b %Y")] *)

Definition digit_val (c : ascii) : Z := Z.of_N (Text.code c) - 48.

Definition month_abbr : list string :=
  ["jan"; "feb"; "mar"; "apr"; "may"; "jun";
   "jul"; "aug"; "sep"; "oct"; "nov"; "dec"]%string.

Fixpoint index_of (x : string) (l : list string) (i : Z) : option Z :=
  match l with
  | [] => None
  | y :: l' => if String.eqb x y then Some i else index_of x l' (i + 1)
  end.

(** [%d]: the alternatives [3[0-1]], [[1-2]\d], [0[1-9]], [[1-9]] and
    [ [1-9]]; what follows in the format is [\s+], so at most one of
    them can lead to a match. Returns the day and the rest. *)
Definition parse_day (s : string) : option (Z * string) :=
  match s with
  | String a (String b rest) =>
      if Text.isdigit a && Text.isdigit b then
        let v := 10 * digit_val a + digit_val b in
        if (1 <=? v) && (v <=? 31) then Some (v, rest) else None
      else if Text.between 49 57 a then Some (digit_val a, String b rest)
      else if (Text.code a =? 32)%N && Text.between 49 57 b
           then Some (digit_val b, rest)
      else None
  | String a EmptyString =>
      if Text.between 49 57 a then Some (digit_val a, EmptyString) else None
  | EmptyString => None
  end.

(** [\s+] *)
Definition parse_spaces (s : string) : option string :=
  match s with
  | String c s' => if Text.isspace c then Some (Text.lstrip s') else None
  | EmptyString => None
  end.

(** [%b], matched without regard to case; the abbreviations are those of
    the C and English locales. *)
Definition parse_month (s : string) : option (Z * string) :=
  match s with
  | String a (String b (String c rest)) =>
      match index_of (Text.lower (String a (String b (String c EmptyString))))
                     month_abbr 1 with
      | Some m => Some (m, rest)
      | None => None
      end
  | _ => None
  end.

(** [%Y]: exactly four digits, and nothing after them. *)
Definition parse_year (s : string) : option Z :=
  match s with
  | String a (String b (String c (String d EmptyString))) =>
      if Text.isdigit a && Text.isdigit b && Text.isdigit c && Text.isdigit d
      then Some (1000 * digit_val a + 100 * digit_val b
                 + 10 * digit_val c + digit_val d)
      else None
  | _ => None
  end.

Definition strptime (s : string) : outcome date :=
  let mismatch := Raise (ValueError "time data does not match format") in
  match parse_day s with
  | None => mismatch
  | Some (d, s1) =>
      match parse_spaces s1 with
      | None => mismatch
      | Some s2 =>
          match parse_month s2 with
          | None => mismatch
          | Some (m, s3) =>
              match parse_spaces s3 with
              | None => mismatch
              | Some s4 =>
                  match parse_year s4 with
                  | None => mismatch
                  | Some y => make y m d
                  end
              end
          end
      end
  end.

End Calendar.

(* ================================================================== *)
(** ** The built-in [hash] of a [str]

    CPython hashes the bytes of the string with SipHash, keyed by a
    secret of two 64-bit words that is drawn when the interpreter starts
    (or derived from [PYTHONHASHSEED]). A string of code points below 256
    is stored one byte per character. *)

Module PyHash.

Local Open Scope Z_scope.

Definition u64 (x : Z) : Z := x mod 2 ^ 64.

Definition ROTATE (x b : Z) : Z :=
  u64 (Z.lor (Z.shiftl x b) (Z.shiftr x (64 - b))).

Record lanes : Type := mklanes { v0 : Z; v1 : Z; v2 : Z; v3 : Z }.

(** [HALF_ROUND(a,b,c,d,s,t)] *)
Definition HALF_ROUND (a b c d s t : Z) : Z * Z * Z * Z :=
  let a := u64 (a + b) in
  let c := u64 (c + d) in
  let b := Z.lxor (ROTATE b s) a in
  let d := Z.lxor (ROTATE d t) c in
  let a := ROTATE a 32 in
  (a, b, c, d).

(** [SINGLE_ROUND(v0,v1,v2,v3)] *)
Definition SINGLE_ROUND (v : lanes) : lanes :=
  let '(a, b, c, d) := HALF_ROUND (v0 v) (v1 v) (v2 v) (v3 v) 13 16 in
  let '(c, b, a, d) := HALF_ROUND c b a d 17 21 in
  mklanes a b c d.

Fixpoint rounds (n : nat) (v : lanes) : lanes :=
  match n with
  | O => v
  | S k => rounds k (SINGLE_ROUND v)
  end.

(** Little-endian word of at most eight bytes. *)
Fixpoint le_word (bs : list Z) : Z :=
  match bs with
  | [] => 0
  | b :: r => b + 256 * le_word r
  end.

(** One message word: [v3 ^= mi; rounds; v0 ^= mi]. *)
Definition absorb (c : nat) (mi : Z) (v : lanes) : lanes :=
  let v := mklanes (v0 v) (v1 v) (v2 v) (Z.lxor (v3 v) mi) in
  let v := rounds c v in
  mklanes (Z.lxor (v0 v) mi) (v1 v) (v2 v) (v3 v).

(** The loop [while (src_sz >= 8)] and then the tail, which carries the
    length in its top byte. [fuel] bounds the number of whole words. *)
Fixpoint compress (fuel : nat) (c : nat) (b : Z) (src : list Z) (v : lanes)
  : lanes :=
  match fuel with
  | S k =>
      if (8 <=? List.length src)%nat
      then compress k c b (skipn 8 src) (absorb c (le_word (firstn 8 src)) v)
      else absorb c (Z.lor b (le_word src)) v
  | O => absorb c (Z.lor b (le_word src)) v
  end.

(** SipHash with [c] compression and [d] finalisation rounds: [siphash13]
    is [siphash 1 3] (CPython 3.11 and later), [siphash24] is
    [siphash 2 4]. *)
Definition siphash (c d : nat) (k0 k1 : Z) (src : list Z) : Z :=
  let b := u64 (Z.shiftl (Z.of_nat (List.length src)) 56) in
  let v := mklanes (Z.lxor k0 0x736f6d6570736575)
                   (Z.lxor k1 0x646f72616e646f6d)
                   (Z.lxor k0 0x6c7967656e657261)
                   (Z.lxor k1 0x7465646279746573) in
  let v := compress (List.length src) c b src v in
  let v := mklanes (v0 v) (v1 v) (Z.lxor (v2 v) 0xff) (v3 v) in
  let v := rounds d v in
  Z.lxor (Z.lxor (v0 v) (v1 v)) (Z.lxor (v2 v) (v3 v)).

Fixpoint bytes_of (s : string) : list Z :=
  match s with
  | EmptyString => []
  | String ch s' => Z.of_N (Text.code ch) :: bytes_of s'
  end.

(** What the interpreter fixes at start-up. *)
Record secret : Type := mksecret { k0 : Z; k1 : Z }.

(** [hash(s)]: the empty string hashes to 0, the result is read as a
    signed 64-bit integer, and -1 is replaced by -2. *)
Definition hash (c d : nat) (key : secret) (s : string) : Z :=
  match s with
  | EmptyString => 0
  | _ =>
      let x := siphash c d (k0 key) (k1 key) (bytes_of s) in
      let x := if x <? 2 ^ 63 then x else x - 2 ^ 64 in
      if x =? -1 then -2 else x
  end.

End PyHash.

(* ================================================================== *)
(** ** Regular expressions: what [re.Pattern.findall] is asked here

    The crawler only tests whether [findall] returned anything, which is
    whether some substring of the text belongs to the language of the
    pattern. The matcher below decides that with derivatives. *)

Module Re.

Inductive regex : Type :=
| Void
| Eps
| Sym (p : ascii -> bool)
| Cat (r1 r2 : regex)
| Alt (r1 r2 : regex)
| Star (r : regex).

(** [r+], [r?], one given character, a literal word *)
Definition Plus (r : regex) : regex := Cat r (Star r).
Definition Opt (r : regex) : regex := Alt r Eps.
Definition Chr (c : ascii) : regex := Sym (Ascii.eqb c).
Fixpoint Lit (w : string) : regex :=
  match w with
  | EmptyString => Eps
  | String c w' => Cat (Chr c) (Lit w')
  end.

(** The words of a pattern. *)
Inductive lang : regex -> string -> Prop :=
| lang_eps : lang Eps EmptyString
| lang_sym p c : p c = true -> lang (Sym p) (String c EmptyString)
| lang_cat r1 r2 w1 w2 : lang r1 w1 -> lang r2 w2 -> lang (Cat r1 r2) (w1 ++ w2)
| lang_alt_l r1 r2 w : lang r1 w -> lang (Alt r1 r2) w
| lang_alt_r r1 r2 w : lang r2 w -> lang (Alt r1 r2) w
| lang_star_nil r : lang (Star r) EmptyString
| lang_star_cons r w1 w2 :
    lang r w1 -> lang (Star r) w2 -> lang (Star r) (w1 ++ w2).

Fixpoint nullable (r : regex) : bool :=
  match r with
  | Void => false
  | Eps => true
  | Sym _ => false
  | Cat r1 r2 => nullable r1 && nullable r2
  | Alt r1 r2 => nullable r1 || nullable r2
  | Star _ => true
  end.

Fixpoint deriv (c : ascii) (r : regex) : regex :=
  match r with
  | Void => Void
  | Eps => Void
  | Sym p => if p c then Eps else Void
  | Cat r1 r2 =>
      if nullable r1
      then Alt (Cat (deriv c r1) r2) (deriv c r2)
      else Cat (deriv c r1) r2
  | Alt r1 r2 => Alt (deriv c r1) (deriv c r2)
  | Star r0 => Cat (deriv c r0) (Star r0)
  end.

(** [re.fullmatch] *)
Fixpoint fullmatch (r : regex) (s : string) : bool :=
  match s with
  | EmptyString => nullable r
  | String c s' => fullmatch (deriv c r) s'
  end.

(** [re.match]: does a word of [r] start [s]? *)
Fixpoint match_ (r : regex) (s : string) : bool :=
  nullable r
  || match s with
     | EmptyString => false
     | String c s' => match_ (deriv c r) s'
     end.

(** [re.search]: does a word of [r] occur in [s]? This is the truth value
    of [r.findall(s)]. *)
Fixpoint search (r : regex) (s : string) : bool :=
  match_ r s
  || match s with
     | EmptyString => false
     | String _ s' => search r s'
     end.

Definition digit : regex := Sym Text.isdigit.

End Re.

(* ================================================================== *)
(** ** The data the crawler works on *)

(** One [<article>] card of the result list, as the four lookups of
    [_scrape_news_item] see it: [None] where [find_element] raises
    [NoSuchElementException], else the [.text] of the element (for the
    image, its [src] attribute, [None] when the attribute is absent). *)
Record news_item : Type := mkitem {
  title_link : option string;
  date_span : option string;
  excerpt : option string;
  img : option (option string)
}.

(** The result list [search-result__list]: the cards now in it, and,
    when the "show more" button is there, the list as it is once the
    button has been clicked. A site holds finitely many articles, so the
    chain of snapshots is finite. *)
Inductive dom : Type :=
| Final (cards : list news_item)
| More (cards : list news_item) (after_click : dom).

(** [.//article] under the container, [multiple=True]. *)
Definition articles (d : dom) : list news_item :=
  match d with Final a | More a _ => a end.

(** The "show more" button, standing for what a click on it reveals. *)
Definition show_more (d : dom) : option dom :=
  match d with Final _ => None | More _ n => Some n end.

(** A row of [news_df]: the dict [_scrape_news_item] returns. *)
Record row : Type := mkrow {
  title : string;
  date : option Calendar.date;
  description : option string;
  picture_filename : option string;
  search_phrase_count : nat;
  has_money : bool
}.

(** The XPath expressions of the single-element lookups. *)
Inductive xpath : Type :=
| title_xpath
| date_xpath
| description_xpath
| picture_xpath
| show_more_xpath.

Inductive target : Type :=
| Article (item : news_item)
| ShowMoreButton.

(** The options object handed to the driver: command-line arguments in
    order, and the experimental options, a dict. *)
Inductive option_value : Type :=
| Switches (l : list string)
| Flag (b : bool).

Inductive family : Type := Chromium | Gecko.

Record Options : Type := mkoptions {
  kind : family;
  arguments : list string;
  experimental : list (string * option_value)
}.

(** What the crawler does to the outside world, in order. *)
Inductive event : Type :=
| LogError (not_found : xpath)
| LogInfo (msg : string)
| ScrollIntoView (t : target)
| Click (t : target)
| Sleep (seconds : Z)
| UrlRetrieve (src path : string)
| ToExcel (path : string) (news_df : list row)
| Start (browser : string) (options : Options)
| ImplicitlyWait (seconds : Z)
| ExecuteScript (script : string).

(** A computation: the events it emitted and how it ended. *)
Definition M (A : Type) : Type := (list event * outcome A)%type.

Definition ret {A} (a : A) : M A := ([], Ok a).
Definition raise {A} (e : exn) : M A := ([], Raise e).
Definition emit (ev : event) : M unit := ([ev], Ok tt).

Definition bind {A B} (m : M A) (k : A -> M B) : M B :=
  match m with
  | (tr, Ok a) => let '(tr', r) := k a in ((tr ++ tr')%list, r)
  | (tr, Raise e) => (tr, Raise e)
  end.

Declare Scope crawl_scope.
Delimit Scope crawl_scope with crawl.
Notation "x <- m ;; k" := (bind m (fun x => k))
  (at level 61, m at next level, right associativity) : crawl_scope.
Notation "m ;;; k" := (bind m (fun _ => k))
  (at level 61, right associativity) : crawl_scope.

Definition trace {A} (m : M A) : list event := fst m.
Definition result {A} (m : M A) : outcome A := snd m.

(** A pure step that may raise, run inside [M]. *)
Definition lift {A} (o : outcome A) : M A := ([], o).

(* ================================================================== *)
(** ** [AlJazeeraCrawler] *)

(** What a run reads from its surroundings. *)
Record env : Type := mkenv {
  today : Calendar.date;                (* datetime.today() *)
  in_bounds : Calendar.date -> bool;    (* the range of pandas' Timestamp *)
  hash_rounds : nat * nat;              (* (1, 3) from CPython 3.11 on, (2, 4) before *)
  hash_secret : PyHash.secret;          (* drawn once per interpreter process *)
  fetch_ok : string -> bool             (* does urlretrieve get this URL? *)
}.

Module AlJazeeraCrawler.

Local Open Scope crawl_scope.

(** [Path(f"output/{self}")] *)
Definition output_path : string := "output/AlJazeeraCrawler".

(** [dir / name] *)
Definition joinpath (dir name : string) : string := dir ++ "/" ++ name.

(** The class [[\d,]] *)
Definition digit_or_comma (c : ascii) : bool :=
  Text.isdigit c || Ascii.eqb c ",".

(** [money_pattern]: [(\$[\d,]+(\.\d+)?|\d+ dollars|\d+ USD)] *)
Definition money_pattern : Re.regex :=
  Re.Alt
    (Re.Cat (Re.Chr "$")
       (Re.Cat (Re.Plus (Re.Sym digit_or_comma))
               (Re.Opt (Re.Cat (Re.Chr ".") (Re.Plus Re.digit)))))
    (Re.Alt (Re.Cat (Re.Plus Re.digit) (Re.Lit " dollars"))
            (Re.Cat (Re.Plus Re.digit) (Re.Lit " USD"))).

(** The truth value of [money_pattern.findall(text)]; [findall(None)]
    raises [TypeError]. *)
Definition findall_any (text : option string) : outcome bool :=
  match text with
  | Some s => Ok (Re.search money_pattern s)
  | None => Raise (TypeError "expected string or bytes-like object")
  end.

(** [news_df.to_excel(path, index=False)]. Two things in the frame make
    it raise: pandas refuses a sheet of more than [2^20] rows with a
    [ValueError], and openpyxl refuses with [IllegalCharacterError] a cell
    whose text holds, within the 32767 characters it keeps, a control
    character other than tab, line feed and carriage return
    ([[\000-\010]|[\013-\014]|[\016-\037]]). The output directory is
    the one the set-up made. *)
Definition illegal_character (c : ascii) : bool :=
  let n := N_of_ascii c in
  (n <=? 8)%N || ((11 <=? n)%N && (n <=? 12)%N) || ((14 <=? n)%N && (n <=? 31)%N).

Definition check_string (value : option string) : bool :=
  match value with
  | Some s =>
      negb (Text.existsb_str illegal_character
              (substring 0 (N.to_nat 32767) s))
  | None => true
  end.

(** The text cells of a row. *)
Definition check_row (r : row) : bool :=
  check_string (Some (title r)) && check_string (description r)
  && check_string (picture_filename r).

Definition max_rows : Z := 1048576.

Definition sheet_too_large (num_rows : Z) : exn :=
  ValueError ("This sheet is too large! Your sheet size is: "
              ++ Text.str_of_Z num_rows ++ ", 6 Max sheet size is: "
              ++ Text.str_of_Z max_rows ++ ", 16384").

(** What [to_excel] raises on a frame, if anything. *)
Definition to_excel_error (news_df : list row) : option exn :=
  let num_rows := Z.of_nat (List.length news_df) in
  if (max_rows <? num_rows)%Z then Some (sheet_too_large num_rows)
  else if forallb check_row news_df then None
  else Some IllegalCharacterError.

Definition to_excel (path : string) (news_df : list row) : M unit :=
  emit (ToExcel path news_df) ;;;
  match to_excel_error news_df with
  | Some x => raise x
  | None => ret tt
  end.

Section Run.

Variable e : env.

Definition hash (s : string) : Z :=
  PyHash.hash (fst (hash_rounds e)) (snd (hash_rounds e)) (hash_secret e) s.

(** [urllib.request.urlretrieve(src, path)] *)
Definition urlretrieve (src path : string) : M unit :=
  if fetch_ok e src then emit (UrlRetrieve src path) else raise (URLError src).

(** [_find_element_by_xpath], single element: [found] is what the DOM
    holds at [x]; absence is logged and becomes [None]. *)
Definition _find_element_by_xpath {A} (x : xpath) (found : option A)
  : M (option A) :=
  match found with
  | Some el => ret (Some el)
  | None => emit (LogError x) ;;; ret None
  end.

Definition _scrape_news_item (item : news_item) (search_term : string)
  : M (option row) :=
  title_element <- _find_element_by_xpath title_xpath (title_link item) ;;
  let title := title_element in
  match title with
  | None | Some EmptyString => ret None
  | Some title =>
      date_element <- _find_element_by_xpath date_xpath (date_span item) ;;
      date <- match date_element with
              | Some text =>
                  d <- lift (Calendar.strptime
                               (Text.strip (Text.removeprefix "Last update " text))) ;;
                  ret (Some d)
              | None => ret None
              end ;;
      description_element <-
        _find_element_by_xpath description_xpath (excerpt item) ;;
      let description := description_element in
      picture_element <- _find_element_by_xpath picture_xpath (img item) ;;
      let title_hash := if Text.truthy (Some title) then hash title else 0%Z in
      let name := Text.str_of_Z title_hash ++ ".png" in
      let picture_filepath := joinpath output_path name in
      match picture_element with
      | Some src =>
          match src with
          | Some (String _ _ as url) => urlretrieve url picture_filepath
          | _ => ret tt
          end
      | None => ret tt
      end ;;;
      let picture_filename :=
        match picture_element with Some _ => Some name | None => None end in
      let search_phrase_count :=
        Text.count (Text.lower title) (Text.lower search_term) in
      let search_phrase_count :=
        search_phrase_count
        + match description with
          | Some (String _ _ as d) =>
              Text.count (Text.lower d) (Text.lower search_term)
          | _ => 0
          end in
      in_title <- lift (findall_any (Some title)) ;;
      money_matches <- (if in_title then ret true
                        else lift (findall_any description)) ;;
      let has_money := if money_matches then true else false in
      ret (Some (mkrow title date description picture_filename
                       search_phrase_count has_money))
  end.

(** The cutoff [min_date] of [_save_news_to_excel]. After the offset has
    been subtracted the value is a [Timestamp], and so is what
    [replace(day=1)] makes of it. *)
Definition min_date_of (number_of_months : Z) : outcome Calendar.date :=
  if (0 <? number_of_months)%Z then
    match Calendar.sub_months (in_bounds e) (today e) (number_of_months - 1) with
    | Ok min_date =>
        match Calendar.replace_day min_date 1 with
        | Ok r => if in_bounds e r then Ok r else Raise OutOfBoundsDatetime
        | Raise x => Raise x
        end
    | Raise x => Raise x
    end
  else Calendar.replace_day (today e) 1.

(** [new_row["date"] and new_row["date"].date() < min_date.date()] *)
Definition too_old (min_date : Calendar.date) (new_row : row) : bool :=
  match date new_row with
  | Some d => Calendar.ltb d min_date
  | None => false
  end.

(** The [while news_items:] loop. The outer recursion follows the clicks
    on "show more", the inner one the cards of the list in hand. *)
Fixpoint scan (min_date : Calendar.date) (search_term : string)
    (article_container : dom) {struct article_container}
  : list news_item -> nat -> list row -> M (list row) :=
  fix items (news_items : list news_item) (curr_item : nat)
      (news_df : list row) {struct news_items} : M (list row) :=
    match news_items with
    | [] => ret news_df
    | news_item :: news_items =>
        emit (ScrollIntoView (Article news_item)) ;;;
        new_row <- _scrape_news_item news_item search_term ;;
        let next news_df :=
          let curr_item := S curr_item in
          match news_items with
          | _ :: _ => items news_items curr_item news_df
          | [] =>
              _find_element_by_xpath show_more_xpath (show_more article_container) ;;;
              match article_container with
              | More _ after_click =>
                  emit (ScrollIntoView ShowMoreButton) ;;;
                  emit (Click ShowMoreButton) ;;;
                  emit (LogInfo "Loading more news items...") ;;;
                  emit (Sleep 5) ;;;
                  scan min_date search_term after_click
                       (skipn curr_item (articles after_click))
                       curr_item news_df
              | Final _ => ret news_df
              end
          end in
        match new_row with
        | Some r =>
            if too_old min_date r
            then emit (LogInfo "Reached the minimum date.") ;;; ret news_df
            else next (news_df ++ [r])%list
        | None => next news_df
        end
    end.

Definition _save_news_to_excel (page : option dom) (search_term : string)
    (number_of_months : Z) : M unit :=
  min_date <- lift (min_date_of number_of_months) ;;
  article_container <-
    match page with
    | Some d => ret d
    | None => raise (NoSuchElementException "search-result__list")
    end ;;
  news_df <- scan min_date search_term article_container
                  (articles article_container) 0 [] ;;
  to_excel (joinpath output_path "news.xlsx") news_df ;;;
  emit (LogInfo "News saved to Excel successfully.").

End Run.

End AlJazeeraCrawler.

(* ================================================================== *)
(** ** [CustomSelenium] *)

Module CustomSelenium.

Local Open Scope crawl_scope.

Definition user_agent : string :=
  "Mozilla/5.0 (X11; Linux x86_64) AppleWebKit/537.36 (KHTML, like Gecko) Chrome/60.0.3112.50 Safari/537.36".

(** [options.add_argument] *)
Definition add_argument (a : string) (o : Options) : Options :=
  mkoptions (kind o) (arguments o ++ [a]) (experimental o).

(** [options.add_experimental_option]: a dict assignment. *)
Fixpoint set_key (k : string) (v : option_value)
    (d : list (string * option_value)) : list (string * option_value) :=
  match d with
  | [] => [(k, v)]
  | (k', v') :: d' =>
      if String.eqb k k' then (k, v) :: d' else (k', v') :: set_key k v d'
  end.

Definition add_experimental_option (k : string) (v : option_value)
    (o : Options) : Options :=
  mkoptions (kind o) (arguments o) (set_key k v (experimental o)).

Definition _set_chrome_options : Options :=
  let options := mkoptions Chromium [] [] in
  let options := add_argument "--headless" options in
  let options := add_argument "--no-sandbox" options in
  let options := add_argument "--disable-extensions" options in
  let options := add_argument "--disable-web-security" options in
  let options := add_argument "--start-maximized" options in
  let options := add_argument "--disable-gpu" options in
  let options := add_argument "--disable-dev-shm-usage" options in
  let options := add_argument "--ignore-certificate-errors" options in
  let options := add_argument "--allow-running-insecure-content" options in
  let options := add_argument ("--user-agent=" ++ user_agent) options in
  let options :=
    add_experimental_option "excludeSwitches" (Switches ["enable-automation"]) options in
  let options :=
    add_experimental_option "excludeSwitches" (Switches ["enable-logging"]) options in
  let options :=
    add_experimental_option "useAutomationExtension" (Flag false) options in
  options.

Definition _set_firefox_options : Options :=
  let options := mkoptions Gecko [] [] in
  let options := add_argument "--headless" options in
  let options := add_argument "--no-sandbox" options in
  let options := add_argument "--disable-extensions" options in
  let options := add_argument "--disable-web-security" options in
  let options := add_argument "--start-maximized" options in
  let options := add_argument "--disable-gpu" options in
  let options := add_argument "--ignore-certificate-errors" options in
  let options := add_argument "--allow-running-insecure-content" options in
  let options := add_argument ("--user-agent=" ++ user_agent) options in
  options.

Definition not_supported (browser : string) : exn :=
  ValueError ("Browser '" ++ browser ++ "' is not supported").

Definition hide_webdriver : string :=
  "Object.defineProperty(navigator, 'webdriver', {get: () => undefined})".

Section Driver.

(** The driver library: [RPA.core.webdriver.start] and the two commands
    [set_webdriver] sends to the session it gets. How they end is theirs
    to decide. *)
Variable WebDriver : Type.
Variable start : string -> Options -> outcome WebDriver.
Variable implicitly_wait : WebDriver -> Z -> outcome unit.
Variable execute_script : WebDriver -> string -> outcome unit.

(** [self.driver] *)
Definition state : Type := option WebDriver.

Definition set_webdriver (self : state) (browser : string) : M state :=
  options <-
    (if String.eqb (Text.lower browser) "chrome" then ret _set_chrome_options
     else if String.eqb (Text.lower browser) "firefox" then ret _set_firefox_options
     else raise (not_supported browser)) ;;
  emit (Start browser options) ;;;
  driver <- lift (start browser options) ;;
  emit (ImplicitlyWait 20) ;;;
  lift (implicitly_wait driver 20) ;;;
  emit (ExecuteScript hide_webdriver) ;;;
  lift (execute_script driver hide_webdriver) ;;;
  ret (Some driver).

End Driver.

End CustomSelenium.

(* ================================================================== *)
(** ** Vocabulary of the properties *)

Import AlJazeeraCrawler.

(** Events put in front of a computation. *)
Definition after {A} (tr : list event) (m : M A) : M A :=
  ((tr ++ trace m)%list, result m).

(** What the loop body does once the card in hand is dealt with and
    [curr_item] is incremented: go on with the cards left, or, when none
    is left, look for the "show more" button. *)
Definition after_item (e : env) (min_date : Calendar.date) (search_term : string)
    (article_container : dom) (news_items : list news_item) (curr_item : nat)
    (news_df : list row) : M (list row) :=
  match news_items with
  | _ :: _ => scan e min_date search_term article_container news_items curr_item news_df
  | [] =>
      match article_container with
      | More _ after_click =>
          after [ScrollIntoView ShowMoreButton; Click ShowMoreButton;
                 LogInfo "Loading more news items..."; Sleep 5]
                (scan e min_date search_term after_click
                      (skipn curr_item (articles after_click)) curr_item news_df)
      | Final _ => ([LogError show_more_xpath], Ok news_df)
      end
  end.

(** How a pass over the cards in hand ends: at the cutoff, or with every
    card dealt with. *)
Inductive pass : Type :=
| Cutoff (news_df : list row)
| Exhausted (news_df : list row).

(** The turns of the loop up to the point where [news_items] is empty
    or the cutoff is reached. *)
Fixpoint visit (e : env) (min_date : Calendar.date) (search_term : string)
    (news_items : list news_item) (news_df : list row) : M pass :=
  match news_items with
  | [] => ([], Ok (Exhausted news_df))
  | item :: rest =>
      match _scrape_news_item e item search_term with
      | (tr, Ok (Some r)) =>
          if too_old min_date r
          then ((ScrollIntoView (Article item) :: tr
                   ++ [LogInfo "Reached the minimum date."])%list,
                Ok (Cutoff news_df))
          else after (ScrollIntoView (Article item) :: tr)
                     (visit e min_date search_term rest (news_df ++ [r]))
      | (tr, Ok None) =>
          after (ScrollIntoView (Article item) :: tr)
                (visit e min_date search_term rest news_df)
      | (tr, Raise x) => (ScrollIntoView (Article item) :: tr, Raise x)
      end
  end.

(** The file name the card's picture gets. *)
Definition picture_name (e : env) (t : string) : string :=
  Text.str_of_Z (hash e t) ++ ".png".

Definition occurrences (text : option string) (search_term : string) : nat :=
  match text with
  | Some (String _ _ as d) => Text.count (Text.lower d) (Text.lower search_term)
  | _ => 0
  end.

(** What a text must hold for [money_pattern] to find something: a
    dollar sign with a digit or a comma right after it, or a digit with
    [" dollars"] or [" USD"] right after it. *)
Definition money_mark (s : string) : Prop :=
  (exists pre c post,
      s = pre ++ String "$" (String c post) /\ digit_or_comma c = true)
  \/ (exists pre c post,
         s = pre ++ String c (" dollars" ++ post) /\ Text.isdigit c = true)
  \/ (exists pre c post,
         s = pre ++ String c (" USD" ++ post) /\ Text.isdigit c = true).

(** [sub] occurs in [s] at position [p]. *)
Definition occurs_at (sub s : string) (p : nat) : Prop :=
  prefix sub (Text.skip p s) = true.

(** Occurrences of [sub] in [s] that do not overlap: positions in
    increasing order, none before [from], each at least [length sub]
    after the one before. *)
Fixpoint placement (sub s : string) (from : nat) (ps : list nat) : Prop :=
  match ps with
  | [] => True
  | p :: ps' =>
      from <= p /\ occurs_at sub s p /\ placement sub s (p + length sub) ps'
  end.

(** [n] is the greatest number of occurrences of [sub] in [s] that can be
    taken without overlap. *)
Definition max_disjoint (sub s : string) (n : nat) : Prop :=
  (exists ps, placement sub s 0 ps /\ List.length ps = n)
  /\ forall ps, placement sub s 0 ps -> List.length ps <= n.

(** The day a date keeps when it is moved to the month of index [i]. *)
Definition shifted (dt : Calendar.date) (i : Z) : Calendar.date :=
  Calendar.mkdate (i / 12) (i mod 12 + 1)
    (Z.min (Calendar.days_in_month (i / 12) (i mod 12 + 1)) (Calendar.day dt))%Z.

(** Two rows that differ at most in the name given to the picture. *)
Definition same_but_picture (r1 r2 : row) : Prop :=
  title r1 = title r2 /\ date r1 = date r2 /\ description r1 = description r2
  /\ search_phrase_count r1 = search_phrase_count r2
  /\ has_money r1 = has_money r2
  /\ (picture_filename r1 = None <-> picture_filename r2 = None).

Definition option_rel {A} (R : A -> A -> Prop) (o1 o2 : option A) : Prop :=
  match o1, o2 with
  | Some a, Some b => R a b
  | None, None => True
  | _, _ => False
  end.

(** Two runs end alike: with the same exception, or with values that
    [R] relates. *)
Definition outcome_rel {A} (R : A -> A -> Prop) (o1 o2 : outcome A) : Prop :=
  match o1, o2 with
  | Ok a, Ok b => R a b
  | Raise x, Raise y => x = y
  | _, _ => False
  end.

(** The two runs are in one interpreter process: [hash] is the same
    function in both. *)
Definition same_process (e1 e2 : env) : Prop :=
  hash_rounds e1 = hash_rounds e2 /\ hash_secret e1 = hash_secret e2.

(** The same downloads succeed in both runs. *)
Definition same_network (e1 e2 : env) : Prop :=
  forall url, fetch_ok e1 url = fetch_ok e2 url.

(** The browser kinds [set_webdriver] accepts. *)
Definition supported (browser : string) : Prop :=
  Text.lower browser = "chrome" \/ Text.lower browser = "firefox".

(** The options [set_webdriver] builds for an accepted kind. *)
Definition options_for (browser : string) : Options :=
  if String.eqb (Text.lower browser) "chrome"
  then CustomSelenium._set_chrome_options
  else CustomSelenium._set_firefox_options.

(** The money forms as the specification words them: a dollar sign and
    digits, with optional thousands separators and an optional decimal
    part; digits and [" dollars"]; digits and [" USD"]. *)
Definition spec_money_pattern : Re.regex :=
  Re.Alt
    (Re.Cat (Re.Chr "$")
       (Re.Cat (Re.Plus Re.digit)
          (Re.Cat (Re.Star (Re.Cat (Re.Chr ",") (Re.Plus Re.digit)))
                  (Re.Opt (Re.Cat (Re.Chr ".") (Re.Plus Re.digit))))))
    (Re.Alt (Re.Cat (Re.Plus Re.digit) (Re.Lit " dollars"))
            (Re.Cat (Re.Plus Re.digit) (Re.Lit " USD"))).

(** The count the specification describes: occurrences of the term in the
    title and in the description, without regard to case, overlapping ones
    included, 0 for a missing description. *)
Definition spec_search_phrase_count
    (title : string) (description : option string) (search_term : string) : nat :=
  Text.count_overlapping (Text.lower title) (Text.lower search_term)
  + match description with
    | Some d => Text.count_overlapping (Text.lower d) (Text.lower search_term)
    | None => 0
    end.

Module Sample.

(** A run on 31 March 2024 under CPython 3.11 with the hash secret zeroed
    ([PYTHONHASHSEED=0]), a nanosecond [Timestamp], every download
    succeeding. *)
Definition env0 : env :=
  mkenv (Calendar.mkdate 2024 3 31)
        (fun d => (1678 <=? Calendar.year d)%Z && (Calendar.year d <=? 2261)%Z)
        (1%nat, 3%nat) (PyHash.mksecret 0 0) (fun _ => true).

(** The same run in another interpreter process. *)
Definition env1 : env :=
  mkenv (today env0) (in_bounds env0) (hash_rounds env0)
        (PyHash.mksecret 1 0) (fetch_ok env0).

(** A promotional tile: no title link. *)
Definition promo : news_item :=
  mkitem None None (Some "Subscribe to our newsletter") (Some (Some "https://cdn.example/promo.png")).

Definition opening : news_item :=
  mkitem (Some "Olympics and olympics") (Some "Last update 1 Mar 2024")
         (Some "Tickets from 50 dollars") (Some (Some "https://cdn.example/a.jpg")).

(** A card whose picture has no [src]. *)
Definition lazy_image : news_item :=
  mkitem (Some "Olympics") (Some "28 Mar 2024") (Some "The flame arrives") (Some None).

(** A card without date. *)
Definition undated : news_item :=
  mkitem (Some "Live: Olympics") None (Some "Follow the $1,200 race") None.

(** A card from the month before. *)
Definition february : news_item :=
  mkitem (Some "Olympics budget") (Some "29 Feb 2024") (Some "Costs 3 USD more") None.

(** A card without excerpt whose title names no money. *)
Definition bare : news_item :=
  mkitem (Some "Budget talks resume") (Some "5 Mar 2024") None None.

End Sample.

(** A card whose title holds a dollar sign and a comma, and no digit. *)
Definition no_figure : news_item :=
  mkitem (Some "Fees: $, still pending") None (Some "No figure was given") None.

(** A card whose title holds the term twice, the two overlapping. *)
Definition banana : news_item :=
  mkitem (Some "Banana exports rise") None (Some "A record harvest") None.

(** A driver library that knows the browsers by the names ["Chrome"] and
    ["Firefox"], and sessions that take every command. *)
Definition sample_start (browser : string) (o : Options) : outcome string :=
  if String.eqb browser "Chrome" || String.eqb browser "Firefox"
  then Ok ("session of " ++ browser)
  else Raise (WebDriverException "no such browser").

Definition sample_command {A} (session : string) (a : A) : outcome unit := Ok tt.

(** *** More vocabulary: one card *)

(** The downloads in a trace, source and destination, in order. *)
Fixpoint downloads (tr : list event) : list (string * string) :=
  match tr with
  | [] => []
  | UrlRetrieve src path :: tr' => (src, path) :: downloads tr'
  | _ :: tr' => downloads tr'
  end.

(** The card with another text in its date element. *)
Definition with_date_text (item : news_item) (text : option string) : news_item :=
  mkitem (title_link item) text (excerpt item) (img item).

(** The text of the date element, if there is one, is a date. *)
Definition date_readable (item : news_item) : Prop :=
  match date_span item with
  | Some text =>
      exists d, Calendar.strptime
                  (Text.strip (Text.removeprefix "Last update " text)) = Ok d
  | None => True
  end.

(** The picture, if there is one with a [src], can be downloaded. *)
Definition picture_fetchable (e : env) (item : news_item) : Prop :=
  match img item with
  | Some (Some (String c u)) => fetch_ok e (String c u) = true
  | _ => True
  end.

(** *** More vocabulary: the loop and the run *)

(** The frames handed to [to_excel] in a trace: path and rows, in
    order. *)
Fixpoint exports (tr : list event) : list (string * list row) :=
  match tr with
  | [] => []
  | ToExcel path news_df :: tr' => (path, news_df) :: exports tr'
  | _ :: tr' => exports tr'
  end.

(** The last two lines of [_save_news_to_excel]: the frame is handed to
    [to_excel], and when that returns the success is logged. *)
Definition hand_over (news_df : list row) : M unit :=
  bind (to_excel (joinpath output_path "news.xlsx") news_df)
       (fun _ => emit (LogInfo "News saved to Excel successfully.")).

(** A card whose title holds a vertical tab. *)
Definition tabbed : news_item :=
  mkitem (Some ("Olympics" ++ String (ascii_of_N 11) "results"))
         None (Some "The medal table") None.

(** The cards the loop gets in hand, in order, when it starts with
    [news_items] at count [curr_item] and no cutoff or exception stops
    it: the cards in hand, then after each click the cards of the new
    list beyond those counted; nothing more once no card is in hand. *)
Fixpoint feed (d : dom) (curr_item : nat) (news_items : list news_item)
    {struct d} : list news_item :=
  match news_items with
  | [] => []
  | _ :: _ =>
      (news_items
         ++ match d with
            | Final _ => []
            | More _ next =>
                feed next (curr_item + List.length news_items)
                     (skipn (curr_item + List.length news_items) (articles next))
            end)%list
  end.

(** The rows a pass ends with. *)
Definition pass_rows (o : outcome pass) : outcome (list row) :=
  match o with
  | Ok (Cutoff news_df) => Ok news_df
  | Ok (Exhausted news_df) => Ok news_df
  | Raise x => Raise x
  end.

(** Every card of every snapshot of the list. *)
Fixpoint all_cards (d : dom) : list news_item :=
  match d with
  | Final a => a
  | More a next => (a ++ all_cards next)%list
  end.

(** The list once every "show more" has been clicked. *)
Fixpoint last_cards (d : dom) : list news_item :=
  match d with
  | Final a => a
  | More _ next => last_cards next
  end.

(** Each click leaves the cards that were there and adds cards behind
    them. *)
Fixpoint grows (d : dom) : Prop :=
  match d with
  | Final _ => True
  | More a next => (exists more, articles next = (a ++ more)%list) /\ grows next
  end.

(** The same, each click adding at least one card. *)
Fixpoint grows_strictly (d : dom) : Prop :=
  match d with
  | Final _ => True
  | More a next =>
      (exists c more, articles next = (a ++ c :: more)%list)
      /\ grows_strictly next
  end.

(** *** More vocabulary: the driver options *)

(** [d.get(k)] on a dict of experimental options. *)
Fixpoint dict_get (k : string) (d : list (string * option_value))
  : option option_value :=
  match d with
  | [] => None
  | (k', v) :: d' => if String.eqb k k' then Some v else dict_get k d'
  end.

(** The experimental option [k] of an options object, if it is set. *)
Definition experimental_option (k : string) (o : Options) : option option_value :=
  dict_get k (experimental o).

(** The sessions a trace asks the driver library for: browser name and
    options, in order. *)
Fixpoint started (tr : list event) : list (string * Options) :=
  match tr with
  | [] => []
  | Start browser options :: tr' => (browser, options) :: started tr'
  | _ :: tr' => started tr'
  end.

(* ================================================================== *)
(** ** The search, the set-up and the task

    The steps around the scan of the result list act on the page through
    elements of their own, touch the file system, and can end in errors
    the scan does not raise. They run in a second monad that takes the
    computations of the first as they are. *)

Module Session.

(** The elements of the page the search looks up. *)
Inductive control : Type :=
| search_trigger        (* //div[@class="site-header__search-trigger"] *)
| search_input          (* //input[@class="search-bar__input" and @type="text"] *)
| search_bar_button     (* //div[@class="search-bar__button"] *)
| sort_by_container     (* By.ID, "search-sort-option" *)
| sort_by_element (value : string).
                        (* .//option[@value='...'] inside the container *)

(** The methods called on them. *)
Inductive command : Type :=
| click
| send_keys (text : string).

Definition method (cmd : command) : string :=
  match cmd with
  | click => "click"
  | send_keys _ => "send_keys"
  end.

Inductive failure : Type :=
| Crawl (x : exn)
| AttributeError (msg : string)
| OSError (msg : string).

Inductive ending (A : Type) : Type :=
| Done (a : A)
| Failed (f : failure).
Arguments Done {A} a.
Arguments Failed {A} f.

Inductive step : Type :=
| Crawled (ev : event)
| NotFound (c : control)      (* custom_logger.error(f"Element not found: {xpath}") *)
| Command (c : control) (cmd : command)
| Mkdir (path : string)
| AddFileHandler (path : string)
| Get (url : string)
| Screenshot (dir name : string)
| SetWindowRect (width height : Z)
| ZipOpen (path : string)
| ZipWrite (file arcname : string)
| Quit.

Definition P (A : Type) : Type := (list step * ending A)%type.

Definition retP {A} (a : A) : P A := ([], Done a).
Definition raiseP {A} (f : failure) : P A := ([], Failed f).
Definition emitP (s : step) : P unit := ([s], Done tt).

Definition bindP {A B} (m : P A) (k : A -> P B) : P B :=
  match m with
  | (tr, Done a) => let '(tr', r) := k a in ((tr ++ tr')%list, r)
  | (tr, Failed f) => (tr, Failed f)
  end.

Definition of_outcome {A} (o : outcome A) : ending A :=
  match o with
  | Ok a => Done a
  | Raise x => Failed (Crawl x)
  end.

(** A call that may raise, and a computation of the first monad. *)
Definition liftP {A} (o : outcome A) : P A := ([], of_outcome o).
Definition liftE {A} (o : ending A) : P A := ([], o).
Definition crawl {A} (m : M A) : P A :=
  (map Crawled (trace m), of_outcome (result m)).

Declare Scope session_scope.
Delimit Scope session_scope with session.
Notation "x <- m ;; k" := (bindP m (fun x => k))
  (at level 61, m at next level, right associativity) : session_scope.
Notation "m ;;; k" := (bindP m (fun _ => k))
  (at level 61, right associativity) : session_scope.

Local Open Scope session_scope.

(** The page as a call of [search_news] meets it: what each lookup finds,
    how each element takes what it is sent, and the list of results that
    is there once they are sorted. *)
Record page : Type := mkpage {
  has : control -> bool;
  takes : control -> command -> outcome unit;
  results : option dom
}.

(** [_find_element_by_xpath] on the driver or on the sort container:
    absence is logged and becomes [None]. *)
Definition _find_element_by_xpath (p : page) (c : control) : P (option control) :=
  if has p c then retP (Some c)
  else emitP (NotFound c) ;;; retP None.

(** [element.click()], [element.send_keys(text)]: [None] has no such
    attribute. *)
Definition call (p : page) (element : option control) (cmd : command) : P unit :=
  match element with
  | Some c => emitP (Command c cmd) ;;; liftP (takes p c cmd)
  | None =>
      raiseP (AttributeError
                ("'NoneType' object has no attribute '" ++ method cmd ++ "'"))
  end.

Definition _search_by_term (p : page) (search_term : string) : P unit :=
  search_button <- _find_element_by_xpath p search_trigger ;;
  call p search_button click ;;;
  search_input <- _find_element_by_xpath p search_input ;;
  call p search_input (send_keys search_term) ;;;
  search_button <- _find_element_by_xpath p search_bar_button ;;
  call p search_button click.

(** The first lookup is made on the driver itself, unguarded. *)
Definition _sort_results (p : page) (sort_by : string) : P unit :=
  sort_by_container <-
    (if has p sort_by_container then retP (Some sort_by_container)
     else raiseP (Crawl (NoSuchElementException "search-sort-option"))) ;;
  call p sort_by_container click ;;;
  sort_by_element <-
    _find_element_by_xpath p (sort_by_element (Text.lower sort_by)) ;;
  call p sort_by_element click.

Definition search_news (e : env) (p : page) (search_term : string)
    (number_of_months : Z) : P unit :=
  emitP (Crawled (LogInfo ("Searching news for term " ++ search_term
                           ++ " for the last " ++ Text.str_of_Z number_of_months
                           ++ " month(s)."))) ;;;
  _search_by_term p search_term ;;;
  _sort_results p "Date" ;;;
  crawl (_save_news_to_excel e (results p) search_term number_of_months).

(** The output directory when [zip_output] runs: how opening the archive
    ends, what [iterdir] lists (name, and whether it is a regular file),
    and how adding a file ends. *)
Record folder : Type := mkfolder {
  archive : ending unit;
  iterdir : ending (list (string * bool));
  write : string -> ending unit
}.

Fixpoint zip_files (f : folder) (files : list (string * bool)) : P unit :=
  match files with
  | [] => retP tt
  | (name, is_file) :: files =>
      (if is_file
       then emitP (ZipWrite (joinpath output_path name) name) ;;;
            liftE (write f name)
       else retP tt) ;;;
      zip_files f files
  end.

Definition zip_output (f : folder) : P unit :=
  emitP (ZipOpen (joinpath "output" "output_AlJazeeraCrawler.zip")) ;;;
  liftE (archive f) ;;;
  files <- liftE (iterdir f) ;;
  zip_files f files ;;;
  emitP (Crawled (LogInfo "Output files zipped successfully.")).

(** The driver library and the file system at set-up, as far as the
    crawler calls them; [find_html] is [find_element(By.TAG_NAME, "html")],
    [int] the built-in applied to what [get_attribute] returns, and
    [get_window_size] gives the width and the height. *)
Record library : Type := mklibrary {
  WebDriver : Type;
  Html : Type;
  start : string -> Options -> outcome WebDriver;
  implicitly_wait : WebDriver -> Z -> outcome unit;
  execute_script : WebDriver -> string -> outcome unit;
  get : WebDriver -> string -> outcome unit;
  get_screenshot_as_file : WebDriver -> string -> string -> outcome bool;
  get_window_size : WebDriver -> outcome (Z * Z);
  find_html : WebDriver -> outcome Html;
  get_attribute : Html -> string -> outcome (option string);
  int : option string -> outcome Z;
  set_window_rect : WebDriver -> Z -> Z -> outcome unit;
  quit : WebDriver -> outcome unit;
  mkdir : string -> ending unit;
  FileHandler : string -> ending unit
}.

Section Program.

Variable lib : library.

(** [self.driver] *)
Definition state : Type := CustomSelenium.state (WebDriver lib).

Definition _setup_custom_logger : P unit :=
  emitP (AddFileHandler (joinpath output_path "custom.log")) ;;;
  liftE (FileHandler lib (joinpath output_path "custom.log")).

Definition setup_crawler (self : state) (browser : string) : P state :=
  emitP (Mkdir output_path) ;;;
  liftE (mkdir lib output_path) ;;;
  self <- crawl (CustomSelenium.set_webdriver
                   (WebDriver lib) (start lib) (implicitly_wait lib)
                   (execute_script lib) self browser) ;;
  _setup_custom_logger ;;;
  retP self.

Definition open_url (self : state) (url : string) (screenshot : option string)
  : P unit :=
  match self with
  | None => raiseP (AttributeError "'NoneType' object has no attribute 'get'")
  | Some driver =>
      emitP (Get url) ;;;
      liftP (get lib driver url) ;;;
      match screenshot with
      | Some (String _ _ as name) =>
          emitP (Screenshot output_path name) ;;;
          liftP (get_screenshot_as_file lib driver output_path name) ;;;
          retP tt
      | _ => retP tt
      end
  end.

Definition set_page_size (self : state) (width height : Z) : P unit :=
  match self with
  | None =>
      raiseP (AttributeError
                "'NoneType' object has no attribute 'get_window_size'")
  | Some driver =>
      current_window_size <- liftP (get_window_size lib driver) ;;
      html <- liftP (find_html lib driver) ;;
      client_width <- liftP (get_attribute lib html "clientWidth") ;;
      inner_width <- liftP (int lib client_width) ;;
      client_height <- liftP (get_attribute lib html "clientHeight") ;;
      inner_height <- liftP (int lib client_height) ;;
      let target_width := (width + (fst current_window_size - inner_width))%Z in
      let target_height := (height + (snd current_window_size - inner_height))%Z in
      emitP (SetWindowRect target_width target_height) ;;;
      liftP (set_window_rect lib driver target_width target_height)
  end.

Definition driver_quit (self : state) : P unit :=
  match self with
  | Some driver => emitP Quit ;;; liftP (quit lib driver)
  | None => retP tt
  end.

Definition setup_home_page (self : state) (browser url : string)
    (screenshot : option string) : P state :=
  self <- setup_crawler self browser ;;
  open_url self url screenshot ;;;
  set_page_size self 1920 1080 ;;;
  emitP (Crawled (LogInfo "Al Jazeera News page opened successfully.")) ;;;
  retP self.

(** A work item's payload, as far as the task reads it. *)
Record payload : Type := mkpayload {
  search_term : option string;
  number_of_months : option Z
}.

(** [payload.get(key, default)] *)
Definition get_or {A} (value : option A) (default : A) : A :=
  match value with
  | Some v => v
  | None => default
  end.

(** A work item together with what its turn of the loop meets: the clock
    and the network, the page, the output directory. *)
Record input : Type := mkinput {
  item : payload;
  surroundings : env;
  site : page;
  output : folder
}.

(** The [for] loop of [task]. *)
Fixpoint for_inputs (inputs : list input) : P unit :=
  match inputs with
  | [] => retP tt
  | i :: inputs =>
      let search_term := get_or (search_term (item i)) "Olympics" in
      let number_of_months := get_or (number_of_months (item i)) 1%Z in
      search_news (surroundings i) (site i) search_term number_of_months ;;;
      zip_output (output i) ;;;
      for_inputs inputs
  end.

Definition task (inputs : list input) : P unit :=
  crawler <- setup_home_page None "Chrome" "https://www.aljazeera.com/" None ;;
  for_inputs inputs ;;;
  driver_quit crawler.

End Program.

End Session.

(** *** More vocabulary: the search and the task *)

(** The events of the scan among the steps of a session. *)
Fixpoint crawled (tr : list Session.step) : list event :=
  match tr with
  | [] => []
  | Session.Crawled ev :: tr' => ev :: crawled tr'
  | _ :: tr' => crawled tr'
  end.

(** [tr] first, then [m]. *)
Definition afterP {A} (tr : list Session.step) (m : Session.P A) : Session.P A :=
  ((tr ++ fst m)%list, snd m).

(** The elements [search_news] needs before it scans the results, in the
    order it looks them up, each with what it is sent. *)
Definition script (search_term : string)
  : list (Session.control * Session.command) :=
  [(Session.search_trigger, Session.click);
   (Session.search_input, Session.send_keys search_term);
   (Session.search_bar_button, Session.click);
   (Session.sort_by_container, Session.click);
   (Session.sort_by_element "date", Session.click)].

Definition commands (l : list (Session.control * Session.command))
  : list Session.step :=
  map (fun cc => Session.Command (fst cc) (snd cc)) l.

(** The element is on the page and takes what it is sent. *)
Definition answers (p : Session.page) (cc : Session.control * Session.command)
  : Prop :=
  Session.has p (fst cc) = true /\ Session.takes p (fst cc) (snd cc) = Ok tt.

(** The line [search_news] logs first. *)
Definition announcement (search_term : string) (number_of_months : Z)
  : Session.step :=
  Session.Crawled
    (LogInfo ("Searching news for term " ++ search_term ++ " for the last "
              ++ Text.str_of_Z number_of_months ++ " month(s).")).

(** A page with every element of the search, all taking what they are
    sent, and the given list of results. *)
Definition ready_page (results : option dom) : Session.page :=
  Session.mkpage (fun _ => true) (fun _ _ => Ok tt) results.

(** A page on which the search bar does not open: the trigger is there,
    the input field is not. *)
Definition no_input_page : Session.page :=
  Session.mkpage
    (fun c => match c with Session.search_input => false | _ => true end)
    (fun _ _ => Ok tt) None.

(** A page without the sort box. *)
Definition no_sort_page : Session.page :=
  Session.mkpage
    (fun c => match c with Session.sort_by_container => false | _ => true end)
    (fun _ _ => Ok tt) None.

(** The turn of the loop of [task] for one input: the search with the
    payload's values or their defaults, then the archive. *)
Definition turn (i : Session.input) : Session.P unit :=
  Session.bindP
    (Session.search_news (Session.surroundings i) (Session.site i)
       (Session.get_or (Session.search_term (Session.item i)) "Olympics")
       (Session.get_or (Session.number_of_months (Session.item i)) 1%Z))
    (fun _ => Session.zip_output (Session.output i)).

Definition completes (i : Session.input) : Prop := snd (turn i) = Session.Done tt.

(** The steps of the turns of a list of inputs, one after the other. *)
Definition steps_of (l : list Session.input) : list Session.step :=
  List.concat (map (fun i => fst (turn i)) l).

(** The set-up as [task] calls it, on a fresh crawler. *)
Definition home_page (lib : Session.library) : Session.P (Session.state lib) :=
  Session.setup_home_page lib None "Chrome" "https://www.aljazeera.com/" None.

(** A library in which everything works: the window is 1050 by 850 and
    its page area 1034 by 717, read as plain decimal numerals. *)
Definition sample_int (text : option string) : outcome Z :=
  match text with
  | None => Raise (TypeError "int() argument must be a string")
  | Some s =>
      match NilZero.int_of_string s with
      | Some i => Ok (Z.of_int i)
      | None => Raise (ValueError "invalid literal for int()")
      end
  end.

Definition sample_library : Session.library :=
  Session.mklibrary string unit sample_start sample_command sample_command
    (fun _ _ => Ok tt) (fun _ _ _ => Ok true) (fun _ => Ok (1050, 850)%Z)
    (fun _ => Ok tt)
    (fun _ name =>
       Ok (Some (if String.eqb name "clientWidth" then "1034" else "717")))
    sample_int (fun _ _ _ => Ok tt) (fun _ => Ok tt)
    (fun _ => Session.Done tt) (fun _ => Session.Done tt).

(** An output directory with a picture, the log, the sheet and a
    subdirectory, all archived without trouble. *)
Definition sample_folder : Session.folder :=
  Session.mkfolder (Session.Done tt)
    (Session.Done [("news.xlsx", true); ("cache", false); ("custom.log", true)])
    (fun _ => Session.Done tt).

(** Two work items: one without payload, met by a page with one undated
    card, and one for three months, met by a page whose search bar does
    not open. *)
Definition first_input : Session.input :=
  Session.mkinput (Session.mkpayload None None) Sample.env0
                  (ready_page (Some (Final [Sample.undated]))) sample_folder.

Definition second_input : Session.input :=
  Session.mkinput (Session.mkpayload (Some "Budget") (Some 3%Z)) Sample.env0
                  no_input_page sample_folder.

(* ================================================================== *)
(** * Properties *)

(** ** The library models on known values

    The values are those of CPython 3.11; the hashes are [hash(s)] under
    [PYTHONHASHSEED=0], which zeroes the secret. *)

Example lower_mixed_case :
  Text.lower ("Olympics AND " ++ String (ascii_of_N 201) "cole")
  = "olympics and " ++ String (ascii_of_N 233) "cole".
Proof. reflexivity. Qed.

Example count_steps_over_an_occurrence : Text.count "aaaa" "aa" = 2.
Proof. reflexivity. Qed.

Example count_of_empty_term : Text.count "abc" "" = 4.
Proof. reflexivity. Qed.

Example date_text_cleaned :
  Text.strip (Text.removeprefix "Last update " "Last update 5 Jan 2024 ")
  = "5 Jan 2024".
Proof. reflexivity. Qed.

Example strptime_plain :
  Calendar.strptime "5 Jan 2024" = Ok (Calendar.mkdate 2024 1 5).
Proof. reflexivity. Qed.

Example strptime_any_case :
  Calendar.strptime "05 jAN 2024" = Ok (Calendar.mkdate 2024 1 5).
Proof. reflexivity. Qed.

Example strptime_leap_day :
  Calendar.strptime "29 Feb 2024" = Ok (Calendar.mkdate 2024 2 29).
Proof. reflexivity. Qed.

Example strptime_no_such_day :
  Calendar.strptime "31 Feb 2024" = Raise (ValueError "date value out of range").
Proof. reflexivity. Qed.

Example strptime_day_35 :
  Calendar.strptime "35 Jan 2024"
  = Raise (ValueError "time data does not match format").
Proof. reflexivity. Qed.

Example strptime_five_digit_year :
  Calendar.strptime "5 Jan 02024"
  = Raise (ValueError "time data does not match format").
Proof. reflexivity. Qed.

Example offset_clamps_the_day :
  Calendar.sub_months (fun _ => true) (Calendar.mkdate 2024 3 31) 1
  = Ok (Calendar.mkdate 2024 2 29).
Proof. reflexivity. Qed.

Example offset_over_a_year :
  Calendar.sub_months (fun _ => true) (Calendar.mkdate 2024 3 31) 15
  = Ok (Calendar.mkdate 2022 12 31).
Proof. reflexivity. Qed.

Example offset_of_zero_months :
  Calendar.sub_months (fun _ => true) (Calendar.mkdate 2024 3 31) 0
  = Ok (Calendar.mkdate 2024 3 31).
Proof. reflexivity. Qed.

Example hash_one_byte :
  PyHash.hash 1 3 (PyHash.mksecret 0 0) "a" = 4644417185603328019%Z.
Proof. vm_compute. reflexivity. Qed.

Example hash_negative :
  PyHash.hash 1 3 (PyHash.mksecret 0 0) "abc" = (-4594863902769663758)%Z.
Proof. vm_compute. reflexivity. Qed.

Example hash_one_word :
  PyHash.hash 1 3 (PyHash.mksecret 0 0) "12345678" = 3785724242978802311%Z.
Proof. vm_compute. reflexivity. Qed.

Example hash_words_and_tail :
  PyHash.hash 1 3 (PyHash.mksecret 0 0) "Olympics Games in Paris: the opening"
  = (-7821769056243426769)%Z.
Proof. vm_compute. reflexivity. Qed.

(** ** Text *)

Lemma append_nil_r (s : string) : s ++ "" = s.
Proof. induction s as [|c s IH]; simpl; [reflexivity | now rewrite IH]. Qed.

Lemma append_assoc (a b c : string) : (a ++ b) ++ c = a ++ (b ++ c).
Proof. induction a as [|x a IH]; simpl; [reflexivity | now rewrite IH]. Qed.

Lemma append_eq_nil (a b : string) : a ++ b = "" -> a = "" /\ b = "".
Proof. destruct a; simpl; [auto | discriminate]. Qed.

(** ** The matcher decides the language *)

Module ReFacts.
Import Re.

Lemma cat_inv (r1 r2 : regex) (w : string) :
  lang (Cat r1 r2) w ->
  exists w1 w2, w = w1 ++ w2 /\ lang r1 w1 /\ lang r2 w2.
Proof. intros H. inversion H; subst. eauto. Qed.

Lemma alt_inv (r1 r2 : regex) (w : string) :
  lang (Alt r1 r2) w -> lang r1 w \/ lang r2 w.
Proof. intros H. inversion H; subst; auto. Qed.

Lemma sym_inv (p : ascii -> bool) (w : string) :
  lang (Sym p) w -> exists c, w = String c "" /\ p c = true.
Proof. intros H. inversion H; subst. eauto. Qed.

Lemma nullable_lang (r : regex) : nullable r = true <-> lang r "".
Proof.
  induction r as [| | p | r1 IH1 r2 IH2 | r1 IH1 r2 IH2 | r IH]; simpl.
  - split; [discriminate | intros H; inversion H].
  - split; [constructor | reflexivity].
  - split; [discriminate | intros H; inversion H].
  - rewrite andb_true_iff, IH1, IH2. split.
    + intros [H1 H2]. exact (lang_cat _ _ "" "" H1 H2).
    + intros H. apply cat_inv in H as (w1 & w2 & Hw & H1 & H2).
      symmetry in Hw. apply append_eq_nil in Hw as [-> ->]. now split.
  - rewrite orb_true_iff, IH1, IH2. split.
    + intros [H | H]; [now apply lang_alt_l | now apply lang_alt_r].
    + intros H. apply alt_inv in H. tauto.
  - split; [constructor | reflexivity].
Qed.

(** A word of [Star r] that starts with [c] starts with a word of [r]
    that starts with [c]. *)
Lemma star_cons_inv (r : regex) (c : ascii) (w : string) :
  lang (Star r) (String c w) ->
  exists w1 w2, w = w1 ++ w2 /\ lang r (String c w1) /\ lang (Star r) w2.
Proof.
  intros H. remember (Star r) as r' eqn:Er. remember (String c w) as s eqn:Es.
  revert c w Es.
  induction H as [ | | | | | r0 | r0 w1 w2 H1 _ H2 IH2]; try discriminate.
  intros c w Es. injection Er as ->.
  destruct w1 as [|c1 w1]; simpl in Es.
  - now apply IH2.
  - injection Es as -> <-. now exists w1, w2.
Qed.

Lemma deriv_lang (r : regex) (c : ascii) (w : string) :
  lang (deriv c r) w <-> lang r (String c w).
Proof.
  revert w.
  induction r as [| | p | r1 IH1 r2 IH2 | r1 IH1 r2 IH2 | r IH]; intros w; simpl.
  - split; intros H; inversion H.
  - split; intros H; inversion H.
  - destruct (p c) eqn:Hp.
    + split; intros H; inversion H; subst; [now constructor | constructor].
    + split; intros H; inversion H; subst; congruence.
  - assert (Hcat : lang (Cat (deriv c r1) r2) w ->
                   lang (Cat r1 r2) (String c w)).
    { intros H. apply cat_inv in H as (w1 & w2 & -> & H1 & H2).
      apply IH1 in H1. exact (lang_cat _ _ (String c w1) w2 H1 H2). }
    assert (Hinv : lang (Cat r1 r2) (String c w) ->
                   lang (Cat (deriv c r1) r2) w
                   \/ (lang r1 "" /\ lang r2 (String c w))).
    { intros H. apply cat_inv in H as (w1 & w2 & Hw & H1 & H2).
      destruct w1 as [|c1 w1]; simpl in Hw.
      - subst w2. now right.
      - injection Hw as <- ->. left. apply lang_cat; [now apply IH1 | assumption]. }
    destruct (nullable r1) eqn:Hn.
    + split.
      * intros H. apply alt_inv in H as [H | H]; [now apply Hcat |].
        apply nullable_lang in Hn.
        exact (lang_cat _ _ "" (String c w) Hn (proj1 (IH2 _) H)).
      * intros H. destruct (Hinv H) as [H' | [_ H']];
          [now apply lang_alt_l | apply lang_alt_r; now apply IH2].
    + split; [exact Hcat |].
      intros H. destruct (Hinv H) as [H' | [H' _]]; [assumption |].
      apply nullable_lang in H'. congruence.
  - split; intros H; apply alt_inv in H as [H | H];
      solve [apply lang_alt_l; now apply IH1 | apply lang_alt_r; now apply IH2].
  - split.
    + intros H. apply cat_inv in H as (w1 & w2 & -> & H1 & H2).
      apply IH in H1. exact (lang_star_cons _ (String c w1) w2 H1 H2).
    + intros H. apply star_cons_inv in H as (w1 & w2 & -> & H1 & H2).
      apply lang_cat; [now apply IH | assumption].
Qed.

Lemma fullmatch_lang (r : regex) (s : string) :
  fullmatch r s = true <-> lang r s.
Proof.
  revert r. induction s as [|c s IH]; intros r; simpl.
  - apply nullable_lang.
  - rewrite IH. apply deriv_lang.
Qed.

Lemma match_lang (r : regex) (s : string) :
  match_ r s = true <-> exists w post, s = w ++ post /\ lang r w.
Proof.
  revert r. induction s as [|c s IH]; intros r; simpl.
  - rewrite orb_false_r, nullable_lang. split.
    + intros H. now exists "", "".
    + intros (w & post & E & H). symmetry in E.
      apply append_eq_nil in E as [-> _]. assumption.
  - rewrite orb_true_iff, nullable_lang, IH. split.
    + intros [H | (w & post & -> & H)].
      * now exists "", (String c s).
      * exists (String c w), post. split; [reflexivity | now apply deriv_lang].
    + intros (w & post & E & H). destruct w as [|c' w]; [now left | right].
      simpl in E. injection E as <- ->.
      exists w, post. split; [reflexivity | now apply deriv_lang].
Qed.

(** [search] finds exactly the texts in which a word of the pattern
    occurs. *)
Lemma search_lang (r : regex) (s : string) :
  search r s = true <-> exists pre w post, s = pre ++ w ++ post /\ lang r w.
Proof.
  induction s as [|c s IH]; cbn [search].
  - rewrite orb_false_r, match_lang. split.
    + intros (w & post & E & H). now exists "", w, post.
    + intros (pre & w & post & E & H). symmetry in E.
      apply append_eq_nil in E as [-> E]. now exists w, post.
  - rewrite orb_true_iff, match_lang, IH. split.
    + intros [(w & post & E & H) | (pre & w & post & -> & H)].
      * now exists "", w, post.
      * now exists (String c pre), w, post.
    + intros (pre & w & post & E & H). destruct pre as [|c' pre]; simpl in E.
      * left. now exists w, post.
      * right. injection E as <- ->. now exists pre, w, post.
Qed.

End ReFacts.

(** ** What [money_pattern] finds *)

Module MoneyFacts.
Import Re ReFacts AlJazeeraCrawler.

Lemma lit_lang (w : string) : lang (Lit w) w.
Proof.
  induction w as [|c w IH]; simpl; [constructor |].
  apply (lang_cat _ _ (String c "") w); [| assumption].
  constructor. apply Ascii.eqb_refl.
Qed.

Lemma lit_inv (w0 w : string) : lang (Lit w0) w -> w = w0.
Proof.
  revert w. induction w0 as [|c w0 IH]; simpl; intros w H.
  - now inversion H.
  - apply cat_inv in H as (w1 & w2 & -> & H1 & H2).
    apply sym_inv in H1 as (c' & -> & E). apply Ascii.eqb_eq in E as <-.
    simpl. f_equal. now apply IH.
Qed.

Lemma forallb_str_app (p : ascii -> bool) (a b : string) :
  Text.forallb_str p (a ++ b) = Text.forallb_str p a && Text.forallb_str p b.
Proof.
  induction a as [|c a IH]; simpl; [reflexivity |].
  now rewrite IH, andb_assoc.
Qed.

Lemma star_sym_forall (p : ascii -> bool) (w : string) :
  lang (Star (Sym p)) w -> Text.forallb_str p w = true.
Proof.
  intros H. remember (Star (Sym p)) as r eqn:Er.
  induction H as [ | | | | | r0 | r0 w1 w2 H1 _ _ IH2]; try discriminate.
  - reflexivity.
  - injection Er as ->. apply sym_inv in H1 as (c & -> & Hc).
    simpl. rewrite Hc. now apply IH2.
Qed.

Lemma sym_plus (p : ascii -> bool) (c : ascii) :
  p c = true -> lang (Plus (Sym p)) (String c "").
Proof.
  intros Hc. apply (lang_cat _ _ (String c "") ""); now constructor.
Qed.

(** A word of [[...]+] is not empty and stays within the class. *)
Lemma plus_sym_inv (p : ascii -> bool) (w : string) :
  lang (Plus (Sym p)) w ->
  exists c w', w = String c w' /\ p c = true /\ Text.forallb_str p w' = true.
Proof.
  intros H. apply cat_inv in H as (w1 & w2 & -> & H1 & H2).
  apply sym_inv in H1 as (c & -> & Hc).
  exists c, w2. auto using star_sym_forall.
Qed.

Lemma last_char (p : ascii -> bool) (c : ascii) (w : string) :
  p c = true -> Text.forallb_str p w = true ->
  exists w' c', String c w = w' ++ String c' "" /\ p c' = true.
Proof.
  revert c. induction w as [|d w IH]; intros c Hc Hw.
  - now exists "", c.
  - simpl in Hw. apply andb_true_iff in Hw as [Hd Hw].
    destruct (IH d Hd Hw) as (w' & c' & E & Hc').
    exists (String c w'), c'. simpl. now rewrite <- E.
Qed.

(** The same, read from the right. *)
Lemma plus_sym_last (p : ascii -> bool) (w : string) :
  lang (Plus (Sym p)) w -> exists w' c, w = w' ++ String c "" /\ p c = true.
Proof.
  intros H. apply plus_sym_inv in H as (c & w' & -> & Hc & Hw).
  now apply last_char.
Qed.

Lemma digits_then_inv (unit_ : string) (w : string) :
  lang (Cat (Plus digit) (Lit unit_)) w ->
  exists w' c, w = w' ++ String c unit_ /\ Text.isdigit c = true.
Proof.
  intros H. apply cat_inv in H as (w1 & w2 & -> & H1 & H2).
  apply lit_inv in H2 as ->.
  apply plus_sym_last in H1 as (w' & c & -> & Hc).
  exists w', c. now rewrite append_assoc.
Qed.

Lemma digits_then_lang (unit_ : string) (c : ascii) :
  Text.isdigit c = true -> lang (Cat (Plus digit) (Lit unit_)) (String c unit_).
Proof.
  intros Hc. apply (lang_cat _ _ (String c "") unit_);
    [now apply sym_plus | apply lit_lang].
Qed.

Lemma money_pattern_inv (w : string) :
  lang money_pattern w ->
  (exists c w', w = String "$" (String c w') /\ digit_or_comma c = true)
  \/ (exists w' c, w = w' ++ String c " dollars" /\ Text.isdigit c = true)
  \/ (exists w' c, w = w' ++ String c " USD" /\ Text.isdigit c = true).
Proof.
  intros H. unfold money_pattern in H.
  apply alt_inv in H as [H | H]; [left | right; apply alt_inv in H as [H | H]].
  - apply cat_inv in H as (w1 & w2 & -> & H1 & H2).
    apply sym_inv in H1 as (d & -> & Hd). apply Ascii.eqb_eq in Hd as <-.
    apply cat_inv in H2 as (w3 & w4 & -> & H3 & _).
    apply plus_sym_inv in H3 as (c & w' & -> & Hc & _).
    now exists c, (w' ++ w4).
  - left. now apply digits_then_inv.
  - right. now apply digits_then_inv.
Qed.

Lemma search_money_pattern (s : string) :
  search money_pattern s = true <-> money_mark s.
Proof.
  rewrite search_lang. split.
  - intros (pre & w & post & -> & H).
    apply money_pattern_inv in H
      as [(c & w' & -> & Hc) | [(w' & c & -> & Hc) | (w' & c & -> & Hc)]].
    + left. now exists pre, c, (w' ++ post).
    + right; left. exists (pre ++ w'), c, post.
      now rewrite !append_assoc.
    + right; right. exists (pre ++ w'), c, post.
      now rewrite !append_assoc.
  - intros [(pre & c & post & -> & Hc) | [(pre & c & post & -> & Hc)
                                         | (pre & c & post & -> & Hc)]].
    + exists pre, (String "$" (String c "")), post. split; [reflexivity |].
      apply lang_alt_l.
      apply (lang_cat _ _ (String "$" "") (String c "")).
      * constructor. reflexivity.
      * apply (lang_cat _ _ (String c "") ""); [now apply sym_plus |].
        apply lang_alt_r. constructor.
    + exists pre, (String c " dollars"), post. split.
      * reflexivity.
      * apply lang_alt_r, lang_alt_l. now apply digits_then_lang.
    + exists pre, (String c " USD"), post. split.
      * reflexivity.
      * apply lang_alt_r, lang_alt_r. now apply digits_then_lang.
Qed.

End MoneyFacts.

(** ** One card *)

Module ScrapeFacts.
Import AlJazeeraCrawler.

#[local] Arguments Re.search : simpl never.
#[local] Arguments Text.count : simpl never.
#[local] Arguments Text.lower : simpl never.
#[local] Arguments Text.str_of_Z : simpl never.
#[local] Arguments PyHash.hash : simpl never.
#[local] Arguments Calendar.strptime : simpl never.
#[local] Arguments append : simpl never.

(** A card without a usable title gives no row, whatever else it holds. *)
Lemma scrape_untitled (e : env) (item : news_item) (search_term : string) :
  Text.truthy (title_link item) = false ->
  _scrape_news_item e item search_term
  = (match title_link item with None => [LogError title_xpath] | Some _ => [] end,
     Ok None).
Proof.
  unfold _scrape_news_item.
  destruct (title_link item) as [[|c t]|]; simpl; intros H;
    [reflexivity | discriminate | reflexivity].
Qed.

(** Everything a returned row says about its card. *)
Lemma scrape_row_inv (e : env) (item : news_item) (search_term : string)
      (tr : list event) (r : row) :
  _scrape_news_item e item search_term = (tr, Ok (Some r)) ->
  exists t,
    title_link item = Some t /\ t <> "" /\ title r = t
    /\ match date_span item with
       | Some text =>
           exists d, Calendar.strptime
                       (Text.strip (Text.removeprefix "Last update " text)) = Ok d
                     /\ date r = Some d
       | None => date r = None
       end
    /\ description r = excerpt item
    /\ picture_filename r
       = match img item with Some _ => Some (picture_name e t) | None => None end
    /\ search_phrase_count r
       = Text.count (Text.lower t) (Text.lower search_term)
         + occurrences (excerpt item) search_term
    /\ has_money r
       = Re.search money_pattern t
         || match excerpt item with
            | Some d => Re.search money_pattern d
            | None => false
            end.
Proof.
  unfold _scrape_news_item, urlretrieve, picture_name, occurrences.
  destruct (title_link item) as [[|c t]|]; simpl; try discriminate.
  intros H. exists (String c t).
  destruct (date_span item) as [text|]; simpl in H;
    [destruct (Calendar.strptime _) as [d|x]; simpl in H; [| discriminate] |];
    (destruct (excerpt item) as [[|c' desc]|]; simpl in H;
     destruct (img item) as [[[|c'' url]|]|]; simpl in H;
     try (destruct (fetch_ok e _); simpl in H; [| discriminate]);
     destruct (Re.search money_pattern (String c t)) eqn:Ht; simpl in H;
     try discriminate;
     injection H as <- <-; simpl; rewrite ?Ht;
     repeat split; try discriminate; try reflexivity; eauto;
     match goal with |- (if ?b then _ else _) = _ => now destruct b end).
Qed.

End ScrapeFacts.

(** ** The loop *)

Module LoopFacts.
Import AlJazeeraCrawler ScrapeFacts.
Local Open Scope crawl_scope.

Lemma bind_after {A B} (tr : list event) (a : A) (k : A -> M B) :
  bind (tr, Ok a) k = after tr (k a).
Proof. unfold bind, after, trace, result. now destruct (k a). Qed.

Lemma bind_ret {A B} (a : A) (k : A -> M B) : bind (ret a) k = k a.
Proof. unfold bind, ret. now destruct (k a). Qed.

Lemma after_nil {A} (m : M A) : after [] m = m.
Proof. now destruct m. Qed.

Lemma after_after {A} (t1 t2 : list event) (m : M A) :
  after t1 (after t2 m) = after (t1 ++ t2) m.
Proof. unfold after; simpl. now rewrite app_assoc. Qed.

(** The body of the [while] loop, as [scan] is written. *)
Lemma scan_unfold (e : env) (min_date : Calendar.date) (search_term : string)
      (d : dom) (item : news_item) (rest : list news_item) (curr_item : nat)
      (news_df : list row) :
  scan e min_date search_term d (item :: rest) curr_item news_df
  = (emit (ScrollIntoView (Article item)) ;;;
     new_row <- _scrape_news_item e item search_term ;;
     let next news_df :=
       match rest with
       | _ :: _ => scan e min_date search_term d rest (S curr_item) news_df
       | [] =>
           _find_element_by_xpath show_more_xpath (show_more d) ;;;
           match d with
           | More _ after_click =>
               emit (ScrollIntoView ShowMoreButton) ;;;
               emit (Click ShowMoreButton) ;;;
               emit (LogInfo "Loading more news items...") ;;;
               emit (Sleep 5) ;;;
               scan e min_date search_term after_click
                    (skipn (S curr_item) (articles after_click))
                    (S curr_item) news_df
           | Final _ => ret news_df
           end
       end in
     match new_row with
     | Some r =>
         if too_old min_date r
         then emit (LogInfo "Reached the minimum date.") ;;; ret news_df
         else next (news_df ++ [r])%list
     | None => next news_df
     end).
Proof. destruct d; reflexivity. Qed.

Ltac name_scans :=
  repeat match goal with
    | |- context [scan ?a ?b ?c ?d ?l ?n ?f] =>
        let m := fresh "m" in
        set (m := scan a b c d l n f); clearbody m; destruct m as [? ?]
    end.

(** One turn of the [while] loop. *)
Lemma scan_cons (e : env) (min_date : Calendar.date) (search_term : string)
      (d : dom) (item : news_item) (rest : list news_item) (curr_item : nat)
      (news_df : list row) :
  scan e min_date search_term d (item :: rest) curr_item news_df
  = match _scrape_news_item e item search_term with
    | (tr, Ok (Some r)) =>
        if too_old min_date r
        then (ScrollIntoView (Article item) :: tr
                ++ [LogInfo "Reached the minimum date."], Ok news_df)
        else after (ScrollIntoView (Article item) :: tr)
                   (after_item e min_date search_term d rest (S curr_item)
                               (news_df ++ [r]))
    | (tr, Ok None) =>
        after (ScrollIntoView (Article item) :: tr)
              (after_item e min_date search_term d rest (S curr_item) news_df)
    | (tr, Raise x) => (ScrollIntoView (Article item) :: tr, Raise x)
    end.
Proof.
  rewrite scan_unfold. cbv zeta. unfold after_item, after, trace, result.
  destruct (_scrape_news_item e item search_term) as [tr [[r|]|x]];
    cbn [bind emit ret app]; [destruct (too_old min_date r) | |];
    try reflexivity;
    (destruct rest as [|item' rest];
     [destruct d as [cards | cards next] |]);
    cbn [bind emit ret app show_more _find_element_by_xpath fst snd];
    name_scans; cbn [fst snd app]; rewrite ?app_nil_r; reflexivity.
Qed.

End LoopFacts.

(* ================================================================== *)
(** * The statements of the specification *)

Import AlJazeeraCrawler ScrapeFacts LoopFacts.

#[global] Arguments Re.search : simpl never.
#[global] Arguments Text.count : simpl never.
#[global] Arguments Text.lower : simpl never.
#[global] Arguments Text.str_of_Z : simpl never.
#[global] Arguments PyHash.hash : simpl never.
#[global] Arguments Calendar.strptime : simpl never.
#[global] Arguments append : simpl never.

(** Splits a scrape along what the card holds beside its title. *)
Ltac scrape_cases e item :=
  destruct (date_span item); simpl;
  try match goal with
    | |- context [Calendar.strptime ?a] => destruct (Calendar.strptime a); simpl
    end;
  destruct (excerpt item) as [[|? ?]|]; simpl;
  try (destruct (img item) as [[[|? ?]|]|]; simpl);
  try match goal with
    | |- context [fetch_ok e ?u] => destruct (fetch_ok e u); simpl
    end;
  repeat match goal with
    | |- context [Re.search money_pattern ?s] =>
        destruct (Re.search money_pattern s); simpl
    end.

(** C7. A card in which no title link is found (or whose title text is
    empty) gives no row at all, and the loop goes on: [curr_item] is
    incremented, [news_df] is left as it was, and the next card is
    scraped (or, after the last card, the "show more" button is looked
    for). *)
Theorem untitled_card_is_skipped
        (e : env) (min_date : Calendar.date) (search_term : string) (d : dom)
        (item : news_item) (rest : list news_item) (curr_item : nat)
        (news_df : list row) :
  Text.truthy (title_link item) = false ->
  result (_scrape_news_item e item search_term) = Ok None
  /\ scan e min_date search_term d (item :: rest) curr_item news_df
     = after (ScrollIntoView (Article item)
                :: trace (_scrape_news_item e item search_term))
             (after_item e min_date search_term d rest (S curr_item) news_df)
  /\ (rest <> [] ->
      after_item e min_date search_term d rest (S curr_item) news_df
      = scan e min_date search_term d rest (S curr_item) news_df).
Proof.
  intros Ht. rewrite scan_cons, (scrape_untitled e item search_term Ht).
  repeat split.
  destruct rest; [congruence | reflexivity].
Qed.

Lemma untitled_card_is_skipped_witness :
  result (_scrape_news_item Sample.env0 Sample.promo "Olympics") = Ok None
  /\ result (scan Sample.env0 (Calendar.mkdate 2024 3 1) "Olympics"
                  (Final [Sample.promo; Sample.undated])
                  [Sample.promo; Sample.undated] 0 [])
     = result (scan Sample.env0 (Calendar.mkdate 2024 3 1) "Olympics"
                    (Final [Sample.promo; Sample.undated])
                    [Sample.undated] 1 []).
Proof.
  destruct (untitled_card_is_skipped Sample.env0 (Calendar.mkdate 2024 3 1)
              "Olympics" (Final [Sample.promo; Sample.undated]) Sample.promo
              [Sample.undated] 0 [] eq_refl) as (H1 & H2 & H3).
  split; [exact H1 |].
  rewrite H2, H3; [reflexivity | discriminate].
Defined.

(** C10. When the card has a thumbnail element but the element has no
    [src] (or an empty one), nothing is downloaded, and yet every row the
    card yields names the file [<hash of the title>.png]: the row can
    name a file that was never written. *)
Theorem picture_named_without_download
        (e : env) (item : news_item) (search_term t : string)
        (src : option string) :
  title_link item = Some t -> t <> "" ->
  img item = Some src -> Text.truthy src = false ->
  (forall url path,
      ~ In (UrlRetrieve url path) (trace (_scrape_news_item e item search_term)))
  /\ (forall r,
         result (_scrape_news_item e item search_term) = Ok (Some r) ->
         picture_filename r = Some (Text.str_of_Z (hash e t) ++ ".png")).
Proof.
  intros Ht Hne Himg Hsrc. split.
  - intros url path. unfold _scrape_news_item, urlretrieve.
    rewrite Ht, Himg. destruct t as [|c t]; [congruence |].
    destruct src as [[|c' u]|]; try discriminate Hsrc;
      scrape_cases e item; intuition congruence.
  - intros r Hr.
    destruct (_scrape_news_item e item search_term) as [tr res] eqn:E.
    cbn in Hr. subst res.
    apply scrape_row_inv in E as (t' & Ht' & _ & _ & _ & _ & Hp & _).
    rewrite Ht in Ht'. injection Ht' as <-.
    now rewrite Hp, Himg.
Qed.

Lemma picture_named_without_download_witness :
  (forall url path,
      ~ In (UrlRetrieve url path)
           (trace (_scrape_news_item Sample.env0 Sample.lazy_image "Olympics")))
  /\ exists r,
      result (_scrape_news_item Sample.env0 Sample.lazy_image "Olympics")
      = Ok (Some r)
      /\ picture_filename r = Some "1630145518138156386.png".
Proof.
  assert (Hne : "Olympics" <> "") by discriminate.
  destruct (picture_named_without_download Sample.env0 Sample.lazy_image
              "Olympics" "Olympics" None eq_refl Hne eq_refl eq_refl)
    as [Hno Hname].
  split; [exact Hno |].
  eexists. split; [vm_compute; reflexivity |].
  rewrite (Hname _ ltac:(vm_compute; reflexivity)).
  vm_compute. reflexivity.
Defined.

(** A card with a title in which [money_pattern] finds nothing and
    without excerpt ends the scrape with the [TypeError] of
    [findall(None)], unless something raised before. *)
Lemma scrape_without_description
      (e : env) (item : news_item) (search_term t : string) :
  title_link item = Some t -> t <> "" ->
  excerpt item = None -> Re.search money_pattern t = false ->
  exists x, result (_scrape_news_item e item search_term) = Raise x.
Proof.
  intros Ht Hne Hd Hm. unfold _scrape_news_item, urlretrieve.
  rewrite Ht, Hd. destruct t as [|c t]; [congruence |].
  destruct (date_span item); cbn [_find_element_by_xpath bind ret emit lift app];
    try destruct (Calendar.strptime _);
    cbn [_find_element_by_xpath bind ret emit lift app];
    destruct (img item) as [[[|? ?]|]|];
    cbn [_find_element_by_xpath bind ret emit raise lift app];
    try destruct (fetch_ok e _);
    cbn [_find_element_by_xpath bind ret emit raise lift app findall_any];
    rewrite ?Hm; cbn; eauto.
Qed.

(** C3, at the input on which the code departs from it. The card
    [Sample.bare] has a title and a date and lacks only the excerpt: the
    scrape raises instead of leaving [description] empty, and the run
    over a page that holds it ends with that exception, nothing
    exported. *)
Theorem missing_description_aborts_run :
  result (_scrape_news_item Sample.env0 Sample.bare "Olympics")
  = Raise (TypeError "expected string or bytes-like object")
  /\ result (_save_news_to_excel Sample.env0
               (Some (Final [Sample.opening; Sample.bare; Sample.undated]))
               "Olympics" 1)
     = Raise (TypeError "expected string or bytes-like object")
  /\ forall path news_df,
      ~ In (ToExcel path news_df)
           (trace (_save_news_to_excel Sample.env0
                     (Some (Final [Sample.opening; Sample.bare; Sample.undated]))
                     "Olympics" 1)).
Proof.
  split; [vm_compute; reflexivity |].
  split; [vm_compute; reflexivity |].
  intros path news_df. vm_compute.
  intros H; repeat (destruct H as [H | H]; [discriminate H |]); exact H.
Qed.

(** *** Currency detection *)

(** C5 as stated fails: [[\d,]+] is satisfied by commas alone, so
    ["$,"] sets [has_money] although neither text holds a digit, let
    alone one of the three forms. *)
Lemma comma_after_dollar_sets_has_money :
  exists r,
    _scrape_news_item Sample.env0 no_figure "fees"
    = ([LogError date_xpath; LogError picture_xpath], Ok (Some r))
    /\ has_money r = true
    /\ Re.search spec_money_pattern (title r) = false
    /\ option_map (Re.search spec_money_pattern) (description r) = Some false
    /\ Text.existsb_str Text.isdigit (title r) = false
    /\ option_map (Text.existsb_str Text.isdigit) (description r) = Some false.
Proof. eexists. repeat split; vm_compute; reflexivity. Qed.

(** C5, amended. For every row, [has_money] is true if and only if the
    title or the description holds a dollar sign directly followed by a
    digit or a comma, or a digit directly followed by [" dollars"] or by
    [" USD"]. ["$1,200"] and ["50 dollars"] are found, and nothing is in
    ["no money here"]. *)
Theorem has_money_iff_money_mark
        (e : env) (item : news_item) (search_term : string)
        (tr : list event) (r : row) :
  _scrape_news_item e item search_term = (tr, Ok (Some r)) ->
  (has_money r = true
   <-> money_mark (title r)
       \/ exists d, description r = Some d /\ money_mark d)
  /\ Re.search money_pattern "$1,200" = true
  /\ Re.search money_pattern "50 dollars" = true
  /\ Re.search money_pattern "no money here" = false.
Proof.
  intros H.
  apply scrape_row_inv in H as (t & _ & _ & Ht & _ & Hd & _ & _ & Hm).
  split; [| repeat split; vm_compute; reflexivity].
  rewrite Hm, Ht, Hd, orb_true_iff, MoneyFacts.search_money_pattern.
  destruct (excerpt item) as [d|].
  - rewrite MoneyFacts.search_money_pattern. split.
    + intros [H | H]; [now left | right; now exists d].
    + intros [H | (d' & E & H)]; [now left | right].
      now injection E as ->.
  - split.
    + intros [H | H]; [now left | discriminate].
    + intros [H | (d' & E & _)]; [now left | discriminate].
Qed.

Lemma has_money_iff_money_mark_witness :
  exists r,
    result (_scrape_news_item Sample.env0 Sample.undated "Olympics") = Ok (Some r)
    /\ has_money r = true
    /\ exists d, description r = Some d /\ money_mark d.
Proof.
  destruct (_scrape_news_item Sample.env0 Sample.undated "Olympics")
    as [tr [[r|]|x]] eqn:E; try (vm_compute in E; discriminate E).
  exists r. split; [reflexivity |].
  destruct (has_money_iff_money_mark Sample.env0 Sample.undated "Olympics" tr r E)
    as [[_ Hback] _].
  assert (Hd : description r = Some "Follow the $1,200 race")
    by (vm_compute in E; injection E as _ <-; reflexivity).
  assert (Hmark : money_mark "Follow the $1,200 race").
  { left. exists "Follow the ", "1"%char, ",200 race". split; reflexivity. }
  split; [apply Hback; right | ]; now exists "Follow the $1,200 race".
Defined.

(** *** Keyword scoring *)

Module CountFacts.

Lemma placement_weaken (sub s : string) (from from' : nat) (ps : list nat) :
  from' <= from -> placement sub s from ps -> placement sub s from' ps.
Proof.
  destruct ps as [|p ps]; simpl; [trivial |].
  intros Hle (Hp & Ho & Hr). repeat split; [lia | assumption | assumption].
Qed.

Lemma prefix_nil_false (c : ascii) (sub : string) :
  prefix (String c sub) "" = false.
Proof. reflexivity. Qed.

Lemma skip_nil (p : nat) : Text.skip p "" = "".
Proof. now destruct p. Qed.

(** Dropping the first character moves every position down by one. *)
Lemma placement_tail (sub : string) (c : ascii) (s : string) (from : nat)
      (ps : list nat) :
  placement sub (String c s) (S from) ps ->
  exists ps', List.length ps' = List.length ps /\ placement sub s from ps'.
Proof.
  revert from. induction ps as [|p ps IH]; intros from H.
  - now exists [].
  - destruct H as (Hp & Ho & Hr). destruct p as [|p]; [lia |].
    destruct (IH (p + length sub) Hr) as (ps' & Hl & Hps').
    exists (p :: ps'). simpl. repeat split; [now rewrite Hl | lia | exact Ho | exact Hps'].
Qed.

Lemma placement_cons (sub : string) (c : ascii) (s : string) (from : nat)
      (ps : list nat) :
  placement sub s from ps -> placement sub (String c s) (S from) (map S ps).
Proof.
  revert from. induction ps as [|p ps IH]; intros from H; simpl; [trivial |].
  destruct H as (Hp & Ho & Hr). repeat split; [lia | exact Ho |].
  now apply IH.
Qed.

(** No placement is longer than what the scan counts. *)
Lemma count_scan_upper (sub : string) (s : string) :
  sub <> "" ->
  forall (pending : nat) (ps : list nat),
    placement sub s pending ps -> List.length ps <= Text.count_scan sub pending s.
Proof.
  intros Hsub. induction s as [|c s IH]; intros pending ps H.
  - destruct ps as [|p ps]; [simpl; lia |].
    destruct H as (_ & Ho & _). unfold occurs_at in Ho. rewrite skip_nil in Ho.
    destruct sub; [congruence | discriminate].
  - cbn [Text.count_scan]. destruct pending as [|k].
    + destruct (prefix sub (String c s)) eqn:Hpre.
      * destruct ps as [|p ps]; [simpl; lia |].
        destruct H as (_ & _ & Hr).
        assert (Hlen : length sub <> 0) by (destruct sub; [congruence | discriminate]).
        replace (p + length sub) with (S (p + length sub - 1)) in Hr by lia.
        apply placement_tail in Hr as (ps' & Hl & Hps').
        apply placement_weaken with (from' := length sub - 1) in Hps'; [| lia].
        apply IH in Hps'. simpl. lia.
      * destruct ps as [|p ps]; [simpl; lia |].
        assert (H1 : placement sub (String c s) 1 (p :: ps)).
        { destruct H as (Hp & Ho & Hr). repeat split; try assumption.
          destruct p; [| lia].
          change (prefix sub (String c s) = true) in Ho. congruence. }
        apply placement_tail in H1 as (ps' & Hl & Hps').
        apply IH in Hps'. lia.
    + apply placement_tail in H as (ps' & Hl & Hps').
      apply IH in Hps'. lia.
Qed.

(** The scan's count is reached by a placement. *)
Lemma count_scan_attained (sub : string) (s : string) :
  sub <> "" ->
  forall pending : nat,
    exists ps, placement sub s pending ps
               /\ List.length ps = Text.count_scan sub pending s.
Proof.
  intros Hsub. induction s as [|c s IH]; intros pending.
  - now exists [].
  - cbn [Text.count_scan]. destruct pending as [|k].
    + destruct (prefix sub (String c s)) eqn:Hpre.
      * destruct (IH (length sub - 1)) as (ps & Hps & Hl).
        exists (0 :: map S ps). split; [| simpl; now rewrite length_map, Hl].
        split; [lia |]. split; [exact Hpre |].
        assert (Hlen : length sub <> 0) by (destruct sub; [congruence | discriminate]).
        replace (0 + length sub) with (S (length sub - 1)) by lia.
        now apply placement_cons.
      * destruct (IH 0) as (ps & Hps & Hl).
        exists (map S ps). split; [| now rewrite length_map].
        apply placement_weaken with (from := 1); [lia |].
        now apply placement_cons.
    + destruct (IH k) as (ps & Hps & Hl).
      exists (map S ps). split; [now apply placement_cons | now rewrite length_map].
Qed.

(** [str.count] of a non-empty [sub] is the greatest number of
    occurrences that do not overlap. *)
Lemma count_max_disjoint (s sub : string) :
  sub <> "" -> max_disjoint sub s (Text.count s sub).
Proof.
  intros Hsub.
  assert (E : Text.count s sub = Text.count_scan sub 0 s)
    by (destruct sub; [congruence | reflexivity]).
  rewrite E. split.
  - apply count_scan_attained; assumption.
  - intros ps. now apply count_scan_upper.
Qed.

(** Counting without overlap never gives more than counting every
    occurrence. *)
Lemma count_scan_le_overlapping (sub : string) (s : string) (pending : nat) :
  Text.count_scan sub pending s <= Text.count_overlapping s sub.
Proof.
  revert pending. induction s as [|c s IH]; intros pending.
  - simpl. lia.
  - cbn [Text.count_scan Text.count_overlapping]. destruct pending as [|k].
    + destruct (prefix sub (String c s)).
      * specialize (IH (length sub - 1)). lia.
      * specialize (IH 0). lia.
    + specialize (IH k). lia.
Qed.

Lemma count_le_overlapping (s sub : string) :
  sub <> "" -> Text.count s sub <= Text.count_overlapping s sub.
Proof.
  intros Hsub. destruct sub; [congruence |]. apply count_scan_le_overlapping.
Qed.

Lemma lower_nonempty (s : string) : s <> "" -> Text.lower s <> "".
Proof. destruct s; [congruence | discriminate]. Qed.

End CountFacts.

(** C4 as stated fails: ["ana"] occurs twice in ["banana"], at
    overlapping places, and [str.count] counts it once. *)
Lemma overlapping_mentions_counted_once :
  exists r,
    result (_scrape_news_item Sample.env0 banana "Ana") = Ok (Some r)
    /\ search_phrase_count r = 1
    /\ spec_search_phrase_count (title r) (description r) "Ana" = 2.
Proof. eexists. repeat split; vm_compute; reflexivity. Qed.

(** C4, amended. The count of a row is [str.count] of the lower-cased
    term in the lower-cased title plus the same in the lower-cased
    description, 0 when the description is missing or empty. For a
    non-empty term each of the two is the greatest number of occurrences
    that do not overlap, and never more than the number of all
    occurrences. ["Olympics and olympics"] scores 2 for ["Olympics"]. *)
Theorem search_phrase_count_is_str_count
        (e : env) (item : news_item) (search_term : string)
        (tr : list event) (r : row) :
  _scrape_news_item e item search_term = (tr, Ok (Some r)) ->
  search_phrase_count r
  = Text.count (Text.lower (title r)) (Text.lower search_term)
    + occurrences (description r) search_term
  /\ (search_term <> "" ->
      exists n_title n_description,
        search_phrase_count r = n_title + n_description
        /\ max_disjoint (Text.lower search_term)
                                   (Text.lower (title r)) n_title
        /\ n_title <= Text.count_overlapping (Text.lower (title r))
                                             (Text.lower search_term)
        /\ match description r with
           | Some d =>
               max_disjoint (Text.lower search_term) (Text.lower d)
                                       n_description
               /\ n_description <= Text.count_overlapping
                                     (Text.lower d) (Text.lower search_term)
           | None => n_description = 0
           end)
  /\ Text.count (Text.lower "Olympics and olympics") (Text.lower "Olympics") = 2.
Proof.
  intros H.
  apply scrape_row_inv in H as (t & _ & _ & Ht & _ & Hd & _ & Hc & _).
  rewrite Ht, Hd, Hc. split; [reflexivity |]. split; [| reflexivity].
  intros Hterm. apply CountFacts.lower_nonempty in Hterm.
  exists (Text.count (Text.lower t) (Text.lower search_term)),
         (occurrences (excerpt item) search_term).
  split; [reflexivity |].
  split; [now apply CountFacts.count_max_disjoint |].
  split; [now apply CountFacts.count_le_overlapping |].
  unfold occurrences. destruct (excerpt item) as [[|c d]|]; [| | reflexivity].
  - split; [| cbn; lia]. split; [now exists [] |].
    intros [|p ps]; [simpl; lia |]. intros (_ & Ho & _).
    unfold occurs_at in Ho. rewrite CountFacts.skip_nil in Ho.
    destruct (Text.lower search_term); [congruence | discriminate].
  - split; [now apply CountFacts.count_max_disjoint
           | now apply CountFacts.count_le_overlapping].
Qed.

Lemma search_phrase_count_is_str_count_witness :
  exists r,
    result (_scrape_news_item Sample.env0 Sample.opening "Olympics") = Ok (Some r)
    /\ search_phrase_count r = 2.
Proof.
  destruct (_scrape_news_item Sample.env0 Sample.opening "Olympics")
    as [tr [[r|]|x]] eqn:E; try (vm_compute in E; discriminate E).
  exists r. split; [reflexivity |].
  destruct (search_phrase_count_is_str_count
              Sample.env0 Sample.opening "Olympics" tr r E) as (Hc & _).
  rewrite Hc.
  vm_compute in E. injection E as _ <-. vm_compute. reflexivity.
Defined.

(** *** The loop as a whole *)

Module RunFacts.

Local Open Scope crawl_scope.

Lemma scan_nil (e : env) (min_date : Calendar.date) (search_term : string)
      (d : dom) (curr_item : nat) (news_df : list row) :
  scan e min_date search_term d [] curr_item news_df = ([], Ok news_df).
Proof. destruct d; reflexivity. Qed.

(** Induction along the loop: a property of [scan] holds if it holds when
    no card is in hand and carries over one turn, the turns that may
    follow being the rest of the list in hand and, after a click on
    "show more", the cards beyond [curr_item] of the new list. *)
Lemma scan_induction (e : env) (min_date : Calendar.date) (search_term : string)
      (P : dom -> list news_item -> nat -> list row -> Prop) :
  (forall d curr_item news_df, P d [] curr_item news_df) ->
  (forall d item rest curr_item news_df,
      (forall news_df', P d rest (S curr_item) news_df') ->
      (forall news_df' cards next,
          d = More cards next ->
          P next (skipn (S curr_item) (articles next)) (S curr_item) news_df') ->
      P d (item :: rest) curr_item news_df) ->
  forall d news_items curr_item news_df, P d news_items curr_item news_df.
Proof.
  intros Hnil Hcons.
  induction d as [cards | cards next IHnext]; intros news_items;
    induction news_items as [|item rest IHrest]; intros curr_item news_df;
    try apply Hnil; apply Hcons; auto; intros news_df' cards' next' E;
    [discriminate | injection E as _ <-; apply IHnext].
Qed.

(** What the loop returns is [news_df] with rows added behind it, and no
    added row is older than the cutoff. *)
Lemma scan_appends (e : env) (min_date : Calendar.date) (search_term : string)
      (d : dom) (news_items : list news_item) (curr_item : nat)
      (news_df : list row) :
  forall out,
    result (scan e min_date search_term d news_items curr_item news_df) = Ok out ->
    exists added,
      out = (news_df ++ added)%list
      /\ Forall (fun r => too_old min_date r = false) added.
Proof.
  revert d news_items curr_item news_df.
  apply (scan_induction e min_date search_term
           (fun d news_items curr_item news_df =>
              forall out,
                result (scan e min_date search_term d news_items curr_item news_df)
                = Ok out ->
                exists added,
                  out = (news_df ++ added)%list
                  /\ Forall (fun r => too_old min_date r = false) added)).
  - intros d curr_item news_df out H. rewrite scan_nil in H.
    injection H as <-. exists []. now rewrite app_nil_r.
  - intros d item rest curr_item news_df IHrest IHnext out H.
    rewrite scan_cons in H.
    assert (Hafter : forall df' out',
               result (after_item e min_date search_term d rest (S curr_item) df')
               = Ok out' ->
               exists added,
                 out' = (df' ++ added)%list
                 /\ Forall (fun r => too_old min_date r = false) added).
    { intros df' out' H'. unfold after_item in H'.
      destruct rest as [|item' rest]; [| now apply IHrest].
      destruct d as [cards | cards next].
      - injection H' as <-. exists []. now rewrite app_nil_r.
      - now apply (IHnext df' cards next eq_refl). }
    destruct (_scrape_news_item e item search_term) as [tr [[r|]|x]];
      [destruct (too_old min_date r) eqn:Hold | |].
    + injection H as <-. exists []. now rewrite app_nil_r.
    + apply Hafter in H as (added & -> & Hall).
      exists (r :: added). rewrite <- app_assoc. split; [reflexivity |].
      now constructor.
    + now apply Hafter.
    + discriminate.
Qed.

(** A row that is not older than the cutoff is in what the loop returns,
    right behind the rows gathered before it. *)
Lemma kept_row_in_output (e : env) (min_date : Calendar.date)
      (search_term : string) (d : dom) (item : news_item)
      (rest : list news_item) (curr_item : nat) (news_df : list row)
      (tr : list event) (r : row) :
  _scrape_news_item e item search_term = (tr, Ok (Some r)) ->
  too_old min_date r = false ->
  forall out,
    result (scan e min_date search_term d (item :: rest) curr_item news_df)
    = Ok out ->
    exists added, out = (news_df ++ r :: added)%list.
Proof.
  intros Hrow Hkeep out Hout.
  rewrite scan_cons, Hrow, Hkeep in Hout. cbn [after result snd] in Hout.
  assert (Hin : exists added, out = ((news_df ++ [r]) ++ added)%list).
  { unfold after_item in Hout. destruct rest as [|item' rest].
    - destruct d as [cards | cards next].
      + injection Hout as <-. exists []. now rewrite app_nil_r.
      + cbn [after result snd] in Hout.
        apply scan_appends in Hout as (added & -> & _). now exists added.
    - apply scan_appends in Hout as (added & -> & _). now exists added. }
  destruct Hin as (added & ->). exists added. now rewrite <- app_assoc.
Qed.

(** A row older than the cutoff ends the loop with the rows gathered
    before it. *)
Lemma old_row_ends_scan (e : env) (min_date : Calendar.date)
      (search_term : string) (d : dom) (item : news_item)
      (rest : list news_item) (curr_item : nat) (news_df : list row)
      (tr : list event) (r : row) :
  _scrape_news_item e item search_term = (tr, Ok (Some r)) ->
  too_old min_date r = true ->
  scan e min_date search_term d (item :: rest) curr_item news_df
  = ((ScrollIntoView (Article item) :: tr
        ++ [LogInfo "Reached the minimum date."])%list, Ok news_df).
Proof. intros Hrow Hold. now rewrite scan_cons, Hrow, Hold. Qed.

(** Once the loop has ended normally the rows are handed over. *)
Lemma save_exports (e : env) (search_term : string) (number_of_months : Z)
      (d : dom) (min_date : Calendar.date) (tr : list event) (out : list row) :
  min_date_of e number_of_months = Ok min_date ->
  scan e min_date search_term d (articles d) 0 [] = (tr, Ok out) ->
  _save_news_to_excel e (Some d) search_term number_of_months
  = after tr (hand_over out).
Proof.
  intros Hmin Hscan. unfold _save_news_to_excel.
  rewrite Hmin. unfold lift at 1. rewrite bind_after, after_nil, bind_ret.
  rewrite Hscan, bind_after. reflexivity.
Qed.

(** How the hand-over ends. *)
Lemma hand_over_fits (news_df : list row) :
  to_excel_error news_df = None ->
  hand_over news_df
  = ([ToExcel (joinpath output_path "news.xlsx") news_df;
      LogInfo "News saved to Excel successfully."], Ok tt).
Proof. intros H. unfold hand_over, to_excel. now rewrite H. Qed.

Lemma hand_over_refused (news_df : list row) (x : exn) :
  to_excel_error news_df = Some x ->
  hand_over news_df
  = ([ToExcel (joinpath output_path "news.xlsx") news_df], Raise x).
Proof. intros H. unfold hand_over, to_excel. now rewrite H. Qed.

Lemma hand_over_exports (news_df : list row) :
  exports (trace (hand_over news_df))
  = [(joinpath output_path "news.xlsx", news_df)].
Proof.
  destruct (to_excel_error news_df) as [x |] eqn:E;
    [rewrite (hand_over_refused _ _ E) | rewrite (hand_over_fits _ E)];
    reflexivity.
Qed.

End RunFacts.

(** What is handed to [to_excel] in the loop: nothing. *)
Module TraceFacts.

Lemma exports_app (a b : list event) :
  exports (a ++ b) = (exports a ++ exports b)%list.
Proof.
  induction a as [|ev a IH]; [reflexivity |].
  destruct ev; cbn [app exports]; now rewrite IH.
Qed.

(** A scrape writes no spreadsheet. *)
Lemma scrape_exports_nothing (e : env) (item : news_item) (search_term : string) :
  exports (trace (_scrape_news_item e item search_term)) = [].
Proof.
  unfold _scrape_news_item, urlretrieve.
  destruct (title_link item) as [[|c t]|]; simpl; try reflexivity.
  destruct (date_span item) as [text|]; simpl;
    [destruct (Calendar.strptime _) as [d|x]; simpl |];
    destruct (excerpt item) as [[|c1 desc]|]; simpl;
    destruct (img item) as [[[|c2 url]|]|]; simpl;
    try (destruct (fetch_ok e _); simpl);
    destruct (Re.search money_pattern (String c t)); simpl; reflexivity.
Qed.

(** Nor does the loop. *)
Lemma scan_exports_nothing (e : env) (min_date : Calendar.date)
      (search_term : string) :
  forall d news_items curr_item news_df,
    exports (trace (scan e min_date search_term d news_items curr_item news_df))
    = [].
Proof.
  apply (RunFacts.scan_induction e min_date search_term
           (fun d news_items curr_item news_df =>
              exports (trace (scan e min_date search_term d news_items
                                   curr_item news_df)) = [])).
  - intros. now rewrite RunFacts.scan_nil.
  - intros d item rest curr_item news_df IHrest IHnext. rewrite scan_cons.
    pose proof (scrape_exports_nothing e item search_term) as Hs.
    assert (Hafter : forall df,
               exports (trace (after_item e min_date search_term d rest
                                          (S curr_item) df)) = []).
    { intros df. unfold after_item. destruct rest as [|item' rest]; [| apply IHrest].
      destruct d as [cards | cards next]; [reflexivity |].
      cbn [after trace fst]. rewrite exports_app.
      now rewrite (IHnext df cards next eq_refl). }
    destruct (_scrape_news_item e item search_term) as [tr [[r|]|x]];
      cbn [trace fst] in Hs;
      [destruct (too_old min_date r) | |];
      cbn [after trace fst exports app];
      rewrite ?exports_app, ?Hs, ?Hafter; reflexivity.
Qed.

End TraceFacts.

(** C2. When the scrape of the card in hand gives a row whose date is
    before the cutoff, the loop ends there: nothing is done after the log
    line, whatever cards and "show more" button remain, and [news_df] is
    returned without that row. A row without date is appended, the loop
    goes on after it, and the row is in whatever the loop returns. *)
Theorem old_row_stops_scan_and_undated_row_stays
        (e : env) (min_date : Calendar.date) (search_term : string) (d : dom)
        (item : news_item) (rest : list news_item) (curr_item : nat)
        (news_df : list row) (tr : list event) (r : row) :
  _scrape_news_item e item search_term = (tr, Ok (Some r)) ->
  (forall dt,
      date r = Some dt -> Calendar.ltb dt min_date = true ->
      scan e min_date search_term d (item :: rest) curr_item news_df
      = ((ScrollIntoView (Article item) :: tr
            ++ [LogInfo "Reached the minimum date."])%list, Ok news_df))
  /\ (date r = None ->
      scan e min_date search_term d (item :: rest) curr_item news_df
      = after (ScrollIntoView (Article item) :: tr)
              (after_item e min_date search_term d rest (S curr_item)
                          (news_df ++ [r]))
      /\ forall out,
          result (scan e min_date search_term d (item :: rest) curr_item news_df)
          = Ok out ->
          exists added, out = (news_df ++ r :: added)%list).
Proof.
  intros Hrow. split.
  - intros dt Hdate Hlt. apply (RunFacts.old_row_ends_scan _ _ _ _ _ _ _ _ _ _ Hrow).
    unfold too_old. now rewrite Hdate, Hlt.
  - intros Hdate.
    assert (Hkeep : too_old min_date r = false)
      by (unfold too_old; now rewrite Hdate).
    split; [now rewrite scan_cons, Hrow, Hkeep |].
    now apply (RunFacts.kept_row_in_output _ _ _ _ _ _ _ _ tr).
Qed.

Lemma old_row_stops_scan_and_undated_row_stays_witness :
  result (scan Sample.env0 (Calendar.mkdate 2024 3 1) "Olympics"
               (More [Sample.february; Sample.undated]
                     (Final [Sample.february; Sample.undated; Sample.opening]))
               [Sample.february; Sample.undated] 0 [])
  = Ok []
  /\ exists r added,
      date r = None
      /\ result (scan Sample.env0 (Calendar.mkdate 2024 3 1) "Olympics"
                      (Final [Sample.undated; Sample.february])
                      [Sample.undated; Sample.february] 0 [])
         = Ok (r :: added).
Proof.
  split.
  - destruct (_scrape_news_item Sample.env0 Sample.february "Olympics")
      as [tr [[r|]|x]] eqn:E; try (vm_compute in E; discriminate E).
    destruct (old_row_stops_scan_and_undated_row_stays
                Sample.env0 (Calendar.mkdate 2024 3 1) "Olympics"
                (More [Sample.february; Sample.undated]
                      (Final [Sample.february; Sample.undated; Sample.opening]))
                Sample.february [Sample.undated] 0 [] tr r E) as [Hstop _].
    rewrite (Hstop (Calendar.mkdate 2024 2 29));
      [reflexivity
      | vm_compute in E; injection E as _ <-; reflexivity
      | reflexivity].
  - destruct (_scrape_news_item Sample.env0 Sample.undated "Olympics")
      as [tr [[r|]|x]] eqn:E; try (vm_compute in E; discriminate E).
    assert (Hdate : date r = None)
      by (vm_compute in E; injection E as _ <-; reflexivity).
    destruct (old_row_stops_scan_and_undated_row_stays
                Sample.env0 (Calendar.mkdate 2024 3 1) "Olympics"
                (Final [Sample.undated; Sample.february])
                Sample.undated [Sample.february] 0 [] tr r E) as [_ Hstay].
    destruct (Hstay Hdate) as [_ Hin].
    destruct (result (scan Sample.env0 (Calendar.mkdate 2024 3 1) "Olympics"
                           (Final [Sample.undated; Sample.february])
                           [Sample.undated; Sample.february] 0 []))
      as [out|x] eqn:Eout; [| vm_compute in Eout; discriminate Eout].
    destruct (Hin out eq_refl) as (added & ->).
    now exists r, added.
Defined.

(** *** Pagination *)

(** The loop over a list that is not empty is a pass over that list and
    then, if the pass reached no cutoff, the look for "show more" with
    [curr_item] advanced by the length of the list. *)
Lemma scan_pass (e : env) (min_date : Calendar.date) (search_term : string)
      (d : dom) (news_items : list news_item) :
  news_items <> [] ->
  forall (curr_item : nat) (news_df : list row),
    scan e min_date search_term d news_items curr_item news_df
    = match visit e min_date search_term news_items news_df with
      | (tr, Ok (Cutoff df)) => (tr, Ok df)
      | (tr, Ok (Exhausted df)) =>
          after tr (after_item e min_date search_term d []
                               (curr_item + List.length news_items) df)
      | (tr, Raise x) => (tr, Raise x)
      end.
Proof.
  induction news_items as [|item rest IH]; [congruence |].
  intros _ curr_item news_df. rewrite scan_cons. cbn [visit].
  assert (Hrest : forall df tr,
             after (ScrollIntoView (Article item) :: tr)
                   (after_item e min_date search_term d rest (S curr_item) df)
             = match after (ScrollIntoView (Article item) :: tr)
                           (visit e min_date search_term rest df) with
               | (tr', Ok (Cutoff df')) => (tr', Ok df')
               | (tr', Ok (Exhausted df')) =>
                   after tr' (after_item e min_date search_term d []
                                (curr_item + List.length (item :: rest)) df')
               | (tr', Raise x) => (tr', Raise x)
               end).
  { intros df tr. destruct rest as [|item' rest].
    - cbn [visit after trace result fst snd List.length].
      rewrite app_nil_r, Nat.add_1_r. reflexivity.
    - change (after_item e min_date search_term d (item' :: rest) (S curr_item) df)
        with (scan e min_date search_term d (item' :: rest) (S curr_item) df).
      rewrite IH by discriminate.
      replace (S curr_item + List.length (item' :: rest))
        with (curr_item + List.length (item :: item' :: rest)) by (simpl; lia).
      destruct (visit e min_date search_term (item' :: rest) df)
        as [tr' [[df'|df']|x]]; cbn [after trace result fst snd];
        [reflexivity | | reflexivity].
      apply after_after. }
  destruct (_scrape_news_item e item search_term) as [tr [[r|]|x]];
    [destruct (too_old min_date r) | |]; try reflexivity; apply Hrest.
Qed.

(** C6 as stated fails in its last part: the records the loop ends with
    are handed to [to_excel], which refuses a control character in a
    title. On a page with one such card and no "show more" button the
    loop ends with its record and the run ends in [to_excel] with
    [IllegalCharacterError]; the success is never logged. *)
Lemma control_character_in_title_ends_run_in_to_excel :
  show_more (Final [tabbed]) = None
  /\ exists tr r,
      scan Sample.env0 (Calendar.mkdate 2024 3 1) "Olympics"
           (Final [tabbed]) [tabbed] 0 []
      = (tr, Ok [r])
      /\ _save_news_to_excel Sample.env0 (Some (Final [tabbed])) "Olympics" 1
         = ((tr ++ [ToExcel (joinpath output_path "news.xlsx") [r]])%list,
            Raise IllegalCharacterError).
Proof. split; [reflexivity |]. do 2 eexists. split; vm_compute; reflexivity. Qed.

(** C6, amended. When the pass over the cards in hand ends without the
    cutoff: with a "show more" button the loop scrolls to it, clicks it,
    logs, sleeps 5 seconds, and goes on with the cards of the new list
    beyond the [curr_item] cards already dealt with; without the button
    the loop ends with the rows gathered so far. Whenever the loop of a
    run ends normally, after however many clicks, the rows it ended with
    are handed to [to_excel]: the success is logged when [to_excel]
    takes the frame, and its exception ends the run when it does not. *)
Theorem show_more_then_cards_beyond_curr_item
        (e : env) (min_date : Calendar.date) (search_term : string) (d : dom)
        (news_items : list news_item) (curr_item : nat) (news_df : list row)
        (tr : list event) (df : list row) :
  news_items <> [] ->
  visit e min_date search_term news_items news_df = (tr, Ok (Exhausted df)) ->
  (forall cards next,
      d = More cards next ->
      scan e min_date search_term d news_items curr_item news_df
      = after (tr ++ [ScrollIntoView ShowMoreButton; Click ShowMoreButton;
                      LogInfo "Loading more news items..."; Sleep 5])
              (scan e min_date search_term next
                    (skipn (curr_item + List.length news_items) (articles next))
                    (curr_item + List.length news_items) df))
  /\ (forall cards,
         d = Final cards ->
         scan e min_date search_term d news_items curr_item news_df
         = ((tr ++ [LogError show_more_xpath])%list, Ok df))
  /\ (forall number_of_months page run rows,
         min_date_of e number_of_months = Ok min_date ->
         scan e min_date search_term page (articles page) 0 [] = (run, Ok rows) ->
         exports (trace (_save_news_to_excel e (Some page) search_term
                                             number_of_months))
         = [(joinpath output_path "news.xlsx", rows)]
         /\ (to_excel_error rows = None ->
             _save_news_to_excel e (Some page) search_term number_of_months
             = ((run ++ [ToExcel (joinpath output_path "news.xlsx") rows;
                         LogInfo "News saved to Excel successfully."])%list,
                Ok tt))
         /\ (forall x,
                to_excel_error rows = Some x ->
                _save_news_to_excel e (Some page) search_term number_of_months
                = ((run ++ [ToExcel (joinpath output_path "news.xlsx") rows])%list,
                   Raise x))).
Proof.
  intros Hne Hpass.
  assert (E : scan e min_date search_term d news_items curr_item news_df
              = after tr (after_item e min_date search_term d []
                            (curr_item + List.length news_items) df))
    by (now rewrite scan_pass, Hpass).
  split; [| split].
  - intros cards next ->. rewrite E. cbn [after_item]. apply after_after.
  - intros cards ->. rewrite E. cbn [after_item after trace result fst snd].
    reflexivity.
  - intros number_of_months page run rows Hmin Hscan.
    rewrite (RunFacts.save_exports e search_term number_of_months page
               min_date run rows Hmin Hscan).
    split; [| split].
    + pose proof (TraceFacts.scan_exports_nothing
                    e min_date search_term page (articles page) 0 []) as Hnone.
      rewrite Hscan in Hnone. cbn [trace fst] in Hnone.
      unfold after. cbn [trace fst].
      rewrite TraceFacts.exports_app, Hnone.
      apply RunFacts.hand_over_exports.
    + intros Hfits. now rewrite (RunFacts.hand_over_fits rows Hfits).
    + intros x Hx. now rewrite (RunFacts.hand_over_refused rows x Hx).
Qed.

Lemma show_more_then_cards_beyond_curr_item_witness :
  exists tr r1 r2 r3 run,
    visit Sample.env0 (Calendar.mkdate 2024 3 1) "Olympics"
          [Sample.promo; Sample.opening] []
    = (tr, Ok (Exhausted [r1]))
    /\ scan Sample.env0 (Calendar.mkdate 2024 3 1) "Olympics"
            (More [Sample.promo; Sample.opening]
                  (Final [Sample.promo; Sample.opening; Sample.lazy_image;
                          Sample.undated]))
            [Sample.promo; Sample.opening] 0 []
       = after (tr ++ [ScrollIntoView ShowMoreButton; Click ShowMoreButton;
                       LogInfo "Loading more news items..."; Sleep 5])
               (scan Sample.env0 (Calendar.mkdate 2024 3 1) "Olympics"
                     (Final [Sample.promo; Sample.opening; Sample.lazy_image;
                             Sample.undated])
                     [Sample.lazy_image; Sample.undated] 2 [r1])
    /\ scan Sample.env0 (Calendar.mkdate 2024 3 1) "Olympics"
            (More [Sample.promo; Sample.opening]
                  (Final [Sample.promo; Sample.opening; Sample.lazy_image;
                          Sample.undated]))
            [Sample.promo; Sample.opening] 0 []
       = (run, Ok [r1; r2; r3])
    /\ _save_news_to_excel
         Sample.env0
         (Some (More [Sample.promo; Sample.opening]
                     (Final [Sample.promo; Sample.opening; Sample.lazy_image;
                             Sample.undated])))
         "Olympics" 1
       = ((run ++ [ToExcel (joinpath output_path "news.xlsx") [r1; r2; r3];
                   LogInfo "News saved to Excel successfully."])%list,
          Ok tt).
Proof.
  destruct (visit Sample.env0 (Calendar.mkdate 2024 3 1) "Olympics"
                  [Sample.promo; Sample.opening] [])
    as [tr [[df|[|r1 [|r1' df]]]|x]] eqn:E;
    try (vm_compute in E; discriminate E).
  destruct (scan Sample.env0 (Calendar.mkdate 2024 3 1) "Olympics"
                 (More [Sample.promo; Sample.opening]
                       (Final [Sample.promo; Sample.opening; Sample.lazy_image;
                               Sample.undated]))
                 [Sample.promo; Sample.opening] 0 [])
    as [run [[|r1'' [|r2 [|r3 [|r4 out]]]]|x]] eqn:Hscan;
    try (vm_compute in Hscan; discriminate Hscan).
  assert (Hr1 : r1'' = r1).
  { vm_compute in E, Hscan. injection E as _ <-. now injection Hscan as _ <- _ _. }
  subst r1''.
  assert (Hne : [Sample.promo; Sample.opening] <> []) by discriminate.
  destruct (show_more_then_cards_beyond_curr_item
              Sample.env0 (Calendar.mkdate 2024 3 1) "Olympics"
              (More [Sample.promo; Sample.opening]
                    (Final [Sample.promo; Sample.opening; Sample.lazy_image;
                            Sample.undated]))
              [Sample.promo; Sample.opening] 0 [] tr [r1] Hne E)
    as (Hmore & _ & Hsave).
  specialize (Hmore _ _ eq_refl). rewrite Hscan in Hmore.
  destruct (Hsave 1%Z _ run [r1; r2; r3] eq_refl Hscan) as (_ & Hfits & _).
  exists tr, r1, r2, r3, run.
  split; [reflexivity |]. split; [exact Hmore |]. split; [reflexivity |].
  apply Hfits.
  vm_compute in E, Hscan. injection E as _ <-. injection Hscan as _ <- <-.
  vm_compute. reflexivity.
Defined.

(** *** The cutoff date *)

Module CalendarFacts.
Import Calendar.
Local Open Scope Z_scope.

Lemma validb_spec (d : date) :
  validb d = true
  <-> MINYEAR <= year d <= MAXYEAR /\ 1 <= month d <= 12
      /\ 1 <= day d <= days_in_month (year d) (month d).
Proof. unfold validb. rewrite !andb_true_iff, !Z.leb_le. tauto. Qed.

Lemma days_in_month_bounds (y m : Z) : 28 <= days_in_month y m <= 31.
Proof.
  unfold days_in_month.
  destruct (m =? 2); [destruct (isleap y); lia |].
  destruct ((m =? 4) || (m =? 6) || (m =? 9) || (m =? 11)); lia.
Qed.

(** [relativedelta(months=k)]: whole years and the months left. *)
Lemma delta_months (k : Z) :
  0 <= k -> delta 0 k = mkdelta (k / 12) (k mod 12).
Proof.
  intros Hk. unfold delta. destruct (11 <? Z.abs k) eqn:Hbig.
  - apply Z.ltb_lt in Hbig. replace (Z.sgn k) with 1 by lia.
    now rewrite !Z.mul_1_r, Z.add_0_l.
  - apply Z.ltb_ge in Hbig. now rewrite Z.div_small, Z.mod_small by lia.
Qed.

Lemma delta_neg_months (k : Z) :
  0 <= k -> delta_neg (delta 0 k) = mkdelta (- (k / 12)) (- (k mod 12)).
Proof.
  intros Hk. pose proof (Z.mod_pos_bound k 12 ltac:(lia)) as Hr.
  rewrite delta_months by assumption.
  unfold delta_neg, delta. cbn [years months].
  replace (11 <? Z.abs (- (k mod 12))) with false
    by (symmetry; apply Z.ltb_ge; lia).
  reflexivity.
Qed.

(** Adding the negated offset lands in the month whose index is [k]
    less, on the same day or on the last day of that month. *)
Lemma delta_add_months_back (dt : date) (k : Z) :
  valid dt -> 0 <= k -> 12 <= month_index dt - k ->
  delta_add (delta_neg (delta 0 k)) dt = Ok (shifted dt (month_index dt - k)).
Proof.
  intros Hv Hk Hlo. apply validb_spec in Hv as (Hy & Hm & Hd).
  unfold MINYEAR, MAXYEAR in Hy.
  rewrite delta_neg_months by assumption.
  pose proof (Z.mod_pos_bound k 12 ltac:(lia)) as Hr.
  pose proof (Z.div_mod k 12 ltac:(lia)) as Hdm.
  unfold month_index in *. unfold delta_add, shifted. cbn [years months].
  set (q := k / 12) in *. set (r := k mod 12) in *.
  assert (Hidx : forall Y M, 1 <= M <= 12 ->
                   12 * year dt + (month dt - 1) - k = 12 * Y + (M - 1) ->
                   (12 * year dt + (month dt - 1) - k) / 12 = Y
                   /\ (12 * year dt + (month dt - 1) - k) mod 12 + 1 = M).
  { intros Y M HM E. rewrite E. split.
    - symmetry. apply (Z.div_unique _ 12 Y (M - 1)); lia.
    - rewrite <- (Z.mod_unique (12 * Y + (M - 1)) 12 Y (M - 1)); lia. }
  assert (Hmake : forall Y M, 1 <= M <= 12 -> 1 <= Y <= year dt ->
                    make Y M (Z.min (days_in_month Y M) (day dt))
                    = Ok (mkdate Y M (Z.min (days_in_month Y M) (day dt)))).
  { intros Y M HM HY. unfold make.
    replace (validb _) with true; [reflexivity |].
    symmetry. apply validb_spec. cbn [year month day]. unfold MINYEAR, MAXYEAR.
    pose proof (days_in_month_bounds Y M). lia. }
  destruct (- r =? 0) eqn:Hr0.
  - apply Z.eqb_eq in Hr0.
    destruct (Hidx (year dt + - q) (month dt)) as [-> ->]; [lia | lia |].
    apply Hmake; lia.
  - destruct (12 <? month dt + - r) eqn:H12; [apply Z.ltb_lt in H12; lia |].
    destruct (month dt + - r <? 1) eqn:H1.
    + apply Z.ltb_lt in H1.
      destruct (Hidx (year dt + - q - 1) (month dt + - r + 12)) as [-> ->];
        [lia | lia |].
      apply Hmake; lia.
    + apply Z.ltb_ge in H1.
      destruct (Hidx (year dt + - q) (month dt + - r)) as [-> ->]; [lia | lia |].
      apply Hmake; lia.
Qed.

Lemma first_of_month_index_valid (i : Z) :
  12 <= i -> i / 12 <= MAXYEAR -> valid (first_of_month_index i).
Proof.
  intros Hlo Hhi. apply validb_spec. cbn [first_of_month_index year month day].
  pose proof (Z.mod_pos_bound i 12 ltac:(lia)).
  pose proof (days_in_month_bounds (i / 12) (i mod 12 + 1)).
  assert (1 <= i / 12) by (apply Z.div_le_lower_bound; lia).
  unfold MINYEAR. lia.
Qed.

Lemma first_of_own_month (dt : date) :
  1 <= month dt <= 12 ->
  first_of_month_index (month_index dt) = mkdate (year dt) (month dt) 1.
Proof.
  intros Hm. unfold first_of_month_index, month_index.
  rewrite <- (Z.div_unique (12 * year dt + (month dt - 1)) 12 (year dt) (month dt - 1))
    by lia.
  rewrite <- (Z.mod_unique (12 * year dt + (month dt - 1)) 12 (year dt) (month dt - 1))
    by lia.
  f_equal. lia.
Qed.

(** Dates compare as their months do, and within a month by the day. *)
Lemma ltb_month_index (a b : date) :
  1 <= month a <= 12 -> 1 <= month b <= 12 ->
  ltb a b = true
  <-> month_index a < month_index b
      \/ (month_index a = month_index b /\ day a < day b).
Proof.
  intros Ha Hb. unfold ltb, month_index.
  rewrite !orb_true_iff, !andb_true_iff, !Z.ltb_lt, !Z.eqb_eq. lia.
Qed.

Lemma month_index_first (i : Z) : month_index (first_of_month_index i) = i.
Proof.
  unfold month_index, first_of_month_index. cbn [year month].
  pose proof (Z.div_mod i 12 ltac:(lia)). lia.
Qed.

End CalendarFacts.

Module CutoffFacts.
Import Calendar CalendarFacts.
Local Open Scope Z_scope.

Lemma replace_day_first (dt : date) (i : Z) :
  12 <= i -> i / 12 <= MAXYEAR ->
  replace_day (shifted dt i) 1 = Ok (first_of_month_index i).
Proof.
  intros Hlo Hhi. unfold replace_day, shifted, make. cbn [year month].
  change (mkdate (i / 12) (i mod 12 + 1) 1) with (first_of_month_index i).
  now rewrite (first_of_month_index_valid i Hlo Hhi).
Qed.

Lemma index_year_bound (dt : date) (k : Z) :
  valid dt -> 0 <= k -> (month_index dt - k) / 12 <= MAXYEAR.
Proof.
  intros Hv Hk. apply validb_spec in Hv as (Hy & Hm & _).
  unfold month_index. apply Z.lt_succ_r, Z.div_lt_upper_bound; lia.
Qed.

(** [min_date] for a positive lookback. *)
Lemma min_date_positive (e : env) (n : Z) :
  valid (today e) -> 0 < n ->
  12 <= month_index (today e) - (n - 1) ->
  in_bounds e (today e) = true ->
  in_bounds e (shifted (today e) (month_index (today e) - (n - 1))) = true ->
  in_bounds e (first_of_month_index (month_index (today e) - (n - 1))) = true ->
  min_date_of e n = Ok (first_of_month_index (month_index (today e) - (n - 1))).
Proof.
  intros Hv Hn Hlo Hb0 Hb1 Hb2. unfold min_date_of, sub_months.
  replace (0 <? n) with true by (symmetry; apply Z.ltb_lt; lia).
  rewrite Hb0, delta_add_months_back, Hb1 by (assumption || lia).
  rewrite replace_day_first, Hb2; [reflexivity | assumption |].
  apply index_year_bound; [assumption | lia].
Qed.

(** [min_date] when the lookback is not positive. *)
Lemma min_date_nonpositive (e : env) (n : Z) :
  valid (today e) -> n <= 0 ->
  min_date_of e n = Ok (first_of_month_index (month_index (today e))).
Proof.
  intros Hv Hn. pose proof Hv as Hv'. apply validb_spec in Hv' as (Hy & Hm & Hd).
  unfold min_date_of.
  replace (0 <? n) with false by (symmetry; apply Z.ltb_ge; lia).
  rewrite first_of_own_month by assumption.
  unfold replace_day, make.
  replace (validb _) with true; [reflexivity |].
  symmetry. apply validb_spec. cbn [year month day].
  pose proof (days_in_month_bounds (year (today e)) (month (today e))). lia.
Qed.

(** With a lookback of at most one month the cutoff, when there is one,
    is the first day of the current month. *)
Lemma min_date_current_month (e : env) (n : Z) (min_date : date) :
  valid (today e) -> n <= 1 -> min_date_of e n = Ok min_date ->
  min_date = first_of_month_index (month_index (today e)).
Proof.
  intros Hv Hn Hmin. pose proof Hv as Hv'.
  apply validb_spec in Hv' as (Hy & Hm & Hd). unfold MINYEAR in Hy.
  destruct (Z.le_gt_cases n 0) as [H0 | H0].
  - rewrite min_date_nonpositive in Hmin by assumption. congruence.
  - assert (n = 1) by lia. subst n.
    unfold min_date_of, sub_months in Hmin. cbn [Z.ltb Z.compare Z.sub Z.add Z.opp Z.pos_sub] in Hmin.
    destruct (in_bounds e (today e)); [| discriminate].
    rewrite delta_add_months_back in Hmin;
      [| assumption | lia | unfold month_index; lia].
    destruct (in_bounds e (shifted _ _)); [| discriminate].
    rewrite replace_day_first in Hmin;
      [| unfold month_index; lia | apply index_year_bound; [assumption | lia]].
    destruct (in_bounds e (first_of_month_index _)); [| discriminate].
    injection Hmin as <-. now rewrite Z.sub_0_r.
Qed.

End CutoffFacts.

(** C1. For a lookback of [n > 0] months the cutoff is the first day of
    the month [n - 1] months before the current one (as long as the dates
    on the way are dates the libraries hold), and for [n <= 0] the first
    day of the current month. So with [n = 1] a row dated the first of
    the current month is kept, and a row dated in the month before is
    kept only if [n >= 2]. *)
Theorem cutoff_is_first_day_of_month (e : env) (n : Z) :
  Calendar.valid (today e) ->
  (0 < n ->
   (12 <= Calendar.month_index (today e) - (n - 1))%Z ->
   in_bounds e (today e) = true ->
   in_bounds e (shifted
                  (today e) (Calendar.month_index (today e) - (n - 1))) = true ->
   in_bounds e (Calendar.first_of_month_index
                  (Calendar.month_index (today e) - (n - 1))) = true ->
   min_date_of e n
   = Ok (Calendar.first_of_month_index
           (Calendar.month_index (today e) - (n - 1))))%Z
  /\ (n <= 0 ->
      min_date_of e n
      = Ok (Calendar.mkdate (Calendar.year (today e))
                            (Calendar.month (today e)) 1))%Z
  /\ (forall min_date search_term d item rest curr_item news_df tr r out,
         n = 1%Z -> min_date_of e n = Ok min_date ->
         _scrape_news_item e item search_term = (tr, Ok (Some r)) ->
         date r = Some (Calendar.mkdate (Calendar.year (today e))
                                        (Calendar.month (today e)) 1) ->
         result (scan e min_date search_term d (item :: rest) curr_item news_df)
         = Ok out ->
         exists added, out = (news_df ++ r :: added)%list)
  /\ (forall min_date search_term d item rest curr_item news_df tr r dt added,
         min_date_of e n = Ok min_date ->
         _scrape_news_item e item search_term = (tr, Ok (Some r)) ->
         date r = Some dt -> (1 <= Calendar.month dt <= 12)%Z ->
         Calendar.month_index dt = (Calendar.month_index (today e) - 1)%Z ->
         result (scan e min_date search_term d (item :: rest) curr_item news_df)
         = Ok (news_df ++ r :: added)%list ->
         (2 <= n)%Z).
Proof.
  intros Hv. pose proof Hv as Hv'.
  apply CalendarFacts.validb_spec in Hv' as (Hy & Hm & Hd).
  split; [| split; [| split]].
  - intros. now apply CutoffFacts.min_date_positive.
  - intros Hn. rewrite CutoffFacts.min_date_nonpositive by assumption.
    now rewrite CalendarFacts.first_of_own_month.
  - intros min_date search_term d item rest curr_item news_df tr r out
           -> Hmin Hrow Hdate Hout.
    apply CutoffFacts.min_date_current_month in Hmin; [| assumption | lia].
    rewrite CalendarFacts.first_of_own_month in Hmin by assumption. subst min_date.
    eapply RunFacts.kept_row_in_output; [exact Hrow | | exact Hout].
    unfold too_old. rewrite Hdate.
    destruct (Calendar.ltb _ _) eqn:Hlt; [| reflexivity].
    apply CalendarFacts.ltb_month_index in Hlt; cbn [Calendar.month] in *;
      [| assumption | assumption].
    cbn [Calendar.day] in Hlt. lia.
  - intros min_date search_term d item rest curr_item news_df tr r dt added
           Hmin Hrow Hdate Hmdt Hidx Hout.
    destruct (Z.le_gt_cases 2 n) as [H2 | H2]; [assumption | exfalso].
    apply CutoffFacts.min_date_current_month in Hmin; [| assumption | lia].
    assert (Hold : too_old min_date r = true).
    { unfold too_old. rewrite Hdate. subst min_date.
      apply CalendarFacts.ltb_month_index.
      - assumption.
      - rewrite CalendarFacts.first_of_own_month by assumption. assumption.
      - left. rewrite CalendarFacts.month_index_first. lia. }
    rewrite (RunFacts.old_row_ends_scan _ _ _ _ _ _ _ _ _ _ Hrow Hold) in Hout.
    cbn [result snd] in Hout. injection Hout as Hout.
    apply (f_equal (@List.length row)) in Hout.
    rewrite length_app in Hout. cbn [List.length] in Hout. lia.
Qed.

Lemma cutoff_is_first_day_of_month_witness :
  min_date_of Sample.env0 3 = Ok (Calendar.mkdate 2024 1 1)
  /\ min_date_of Sample.env0 0 = Ok (Calendar.mkdate 2024 3 1)
  /\ exists r,
      result (scan Sample.env0 (Calendar.mkdate 2024 3 1) "Olympics"
                   (Final [Sample.opening; Sample.february])
                   [Sample.opening; Sample.february] 0 [])
      = Ok [r]
      /\ date r = Some (Calendar.mkdate 2024 3 1).
Proof.
  assert (Hv : Calendar.valid (today Sample.env0)) by reflexivity.
  split; [| split].
  - destruct (cutoff_is_first_day_of_month Sample.env0 3 Hv) as (Hpos & _).
    rewrite Hpos; [reflexivity | lia | vm_compute; discriminate
                   | reflexivity | reflexivity | reflexivity].
  - destruct (cutoff_is_first_day_of_month Sample.env0 0 Hv) as (_ & Hzero & _).
    rewrite Hzero; [reflexivity | lia].
  - destruct (_scrape_news_item Sample.env0 Sample.opening "Olympics")
      as [tr [[r|]|x]] eqn:E; try (vm_compute in E; discriminate E).
    assert (Hdate : date r = Some (Calendar.mkdate 2024 3 1))
      by (vm_compute in E; injection E as _ <-; reflexivity).
    destruct (result (scan Sample.env0 (Calendar.mkdate 2024 3 1) "Olympics"
                           (Final [Sample.opening; Sample.february])
                           [Sample.opening; Sample.february] 0 []))
      as [out|x] eqn:Eout; [| vm_compute in Eout; discriminate Eout].
    destruct (cutoff_is_first_day_of_month Sample.env0 1 Hv) as (_ & _ & Hkeep & _).
    destruct (Hkeep (Calendar.mkdate 2024 3 1) "Olympics"
                (Final [Sample.opening; Sample.february]) Sample.opening
                [Sample.february] 0%nat [] tr r out eq_refl eq_refl E Hdate Eout)
      as (added & ->).
    exists r. split; [| exact Hdate].
    destruct added as [|r' added]; [reflexivity |].
    vm_compute in Eout. vm_compute in E. injection E as _ <-. discriminate Eout.
Defined.

(** *** Two runs on the same page *)

Module TwoRuns.

Lemma hash_same_process (e1 e2 : env) (s : string) :
  same_process e1 e2 -> hash e1 s = hash e2 s.
Proof. intros [Hr Hs]. unfold hash. now rewrite Hr, Hs. Qed.

Lemma scrape_same_process (e1 e2 : env) (item : news_item) (search_term : string) :
  same_process e1 e2 -> same_network e1 e2 ->
  _scrape_news_item e1 item search_term = _scrape_news_item e2 item search_term.
Proof.
  intros Hp Hn. unfold _scrape_news_item, urlretrieve.
  destruct (title_link item) as [[|c t]|]; simpl; try reflexivity.
  rewrite (hash_same_process e1 e2 _ Hp).
  destruct (date_span item); simpl;
    try (destruct (Calendar.strptime _); simpl);
    destruct (excerpt item) as [[|? ?]|]; simpl;
    destruct (img item) as [[[|? ?]|]|]; simpl;
    rewrite ?Hn; reflexivity.
Qed.

Lemma scrape_any_process (e1 e2 : env) (item : news_item) (search_term : string) :
  same_network e1 e2 ->
  outcome_rel (option_rel same_but_picture)
              (result (_scrape_news_item e1 item search_term))
              (result (_scrape_news_item e2 item search_term)).
Proof.
  intros Hn. unfold _scrape_news_item, urlretrieve.
  destruct (title_link item) as [[|c t]|]; simpl; try exact I.
  destruct (date_span item); simpl;
    try (destruct (Calendar.strptime _); simpl);
    destruct (excerpt item) as [[|? ?]|]; simpl;
    destruct (img item) as [[[|? ?]|]|]; simpl;
    rewrite ?Hn;
    try match goal with
      | |- context [fetch_ok e2 ?u] => destruct (fetch_ok e2 u); simpl
      end;
    repeat match goal with
      | |- context [Re.search money_pattern ?s] =>
          destruct (Re.search money_pattern s); simpl
      end;
    try reflexivity;
    unfold same_but_picture; simpl; intuition discriminate.
Qed.

Lemma too_old_same_date (min_date : Calendar.date) (r1 r2 : row) :
  same_but_picture r1 r2 -> too_old min_date r1 = too_old min_date r2.
Proof. intros (_ & Hd & _). unfold too_old. now rewrite Hd. Qed.

Lemma Forall2_snoc {A} (R : A -> A -> Prop) (l1 l2 : list A) (a b : A) :
  Forall2 R l1 l2 -> R a b -> Forall2 R (l1 ++ [a]) (l2 ++ [b]).
Proof. intros Hl Hab. apply Forall2_app; [assumption | now constructor]. Qed.

(** In one process the loop does the same and returns the same. *)
Lemma scan_same_process (e1 e2 : env) (min_date : Calendar.date)
      (search_term : string) :
  same_process e1 e2 -> same_network e1 e2 ->
  forall d news_items curr_item news_df,
    scan e1 min_date search_term d news_items curr_item news_df
    = scan e2 min_date search_term d news_items curr_item news_df.
Proof.
  intros Hp Hn.
  apply (RunFacts.scan_induction e1 min_date search_term
           (fun d news_items curr_item news_df =>
              scan e1 min_date search_term d news_items curr_item news_df
              = scan e2 min_date search_term d news_items curr_item news_df)).
  - intros. now rewrite !RunFacts.scan_nil.
  - intros d item rest curr_item news_df IHrest IHnext.
    rewrite !scan_cons, (scrape_same_process e1 e2 item search_term Hp Hn).
    assert (Hafter : forall df,
               after_item e1 min_date search_term d rest (S curr_item) df
               = after_item e2 min_date search_term d rest (S curr_item) df).
    { intros df. unfold after_item. destruct rest as [|item' rest]; [| apply IHrest].
      destruct d as [cards | cards next]; [reflexivity |].
      now rewrite (IHnext df cards next eq_refl). }
    destruct (_scrape_news_item e2 item search_term) as [tr [[r|]|x]];
      [destruct (too_old min_date r) | |]; now rewrite ?Hafter.
Qed.

(** In two processes the loop ends alike, and the rows agree but for the
    names of the pictures. *)
Lemma scan_any_process (e1 e2 : env) (min_date : Calendar.date)
      (search_term : string) :
  same_network e1 e2 ->
  forall d news_items curr_item news_df1 news_df2,
    Forall2 same_but_picture news_df1 news_df2 ->
    outcome_rel (Forall2 same_but_picture)
      (result (scan e1 min_date search_term d news_items curr_item news_df1))
      (result (scan e2 min_date search_term d news_items curr_item news_df2)).
Proof.
  intros Hn d news_items curr_item news_df1. revert news_df1.
  generalize (@nil row). revert d news_items curr_item.
  apply (RunFacts.scan_induction e1 min_date search_term
           (fun d news_items curr_item _ =>
              forall df1 df2,
                Forall2 same_but_picture df1 df2 ->
                outcome_rel (Forall2 same_but_picture)
                  (result (scan e1 min_date search_term d news_items curr_item df1))
                  (result (scan e2 min_date search_term d news_items curr_item df2)))).
  - intros d curr_item _ df1 df2 H. now rewrite !RunFacts.scan_nil.
  - intros d item rest curr_item df0 IHrest IHnext df1 df2 Hdf.
    rewrite !scan_cons.
    assert (Hafter : forall a b,
               Forall2 same_but_picture a b ->
               outcome_rel (Forall2 same_but_picture)
                 (result (after_item e1 min_date search_term d rest (S curr_item) a))
                 (result (after_item e2 min_date search_term d rest (S curr_item) b))).
    { intros a b Hab. unfold after_item.
      destruct rest as [|item' rest]; [| now apply (IHrest df0)].
      destruct d as [cards | cards next]; [exact Hab |].
      cbn [after result snd]. now apply (IHnext df0 cards next eq_refl). }
    pose proof (scrape_any_process e1 e2 item search_term Hn) as Hrow.
    destruct (_scrape_news_item e1 item search_term) as [tr1 [[r1|]|x1]];
      destruct (_scrape_news_item e2 item search_term) as [tr2 [[r2|]|x2]];
      cbn [result snd outcome_rel option_rel] in Hrow; try contradiction.
    + rewrite (too_old_same_date min_date r1 r2 Hrow).
      destruct (too_old min_date r2); [exact Hdf |].
      cbn [after result snd]. apply Hafter. now apply Forall2_snoc.
    + cbn [after result snd]. now apply Hafter.
    + exact Hrow.
Qed.

End TwoRuns.

(** C8 as stated fails: the file name is [hash(title)], and [hash] of a
    string is keyed by a secret each interpreter process draws for
    itself. The same card scraped in two processes gets two names. *)
Lemma picture_name_differs_between_processes :
  exists r0 r1,
    result (_scrape_news_item Sample.env0 Sample.opening "Olympics") = Ok (Some r0)
    /\ result (_scrape_news_item Sample.env1 Sample.opening "Olympics") = Ok (Some r1)
    /\ picture_filename r0 = Some "8974993137637572150.png"
    /\ picture_filename r1 = Some "5915831827001912385.png".
Proof. do 2 eexists. repeat split; vm_compute; reflexivity. Qed.

(** C8, amended. Two runs of the extraction on the same page, with the
    same downloads succeeding: within one interpreter process they do the
    same and return the same rows, picture names included; in two
    processes they still end alike (the same exception, or as many rows
    in the same order) and the rows agree in every field but the text of
    the picture name. *)
Theorem extraction_repeatable_up_to_hash_secret
        (e1 e2 : env) (min_date : Calendar.date) (search_term : string)
        (d : dom) (item : news_item) :
  same_network e1 e2 ->
  (same_process e1 e2 ->
   _scrape_news_item e1 item search_term = _scrape_news_item e2 item search_term
   /\ scan e1 min_date search_term d (articles d) 0 []
      = scan e2 min_date search_term d (articles d) 0 [])
  /\ outcome_rel (option_rel same_but_picture)
                 (result (_scrape_news_item e1 item search_term))
                 (result (_scrape_news_item e2 item search_term))
  /\ outcome_rel (Forall2 same_but_picture)
                 (result (scan e1 min_date search_term d (articles d) 0 []))
                 (result (scan e2 min_date search_term d (articles d) 0 [])).
Proof.
  intros Hn. split; [| split].
  - intros Hp. split.
    + now apply TwoRuns.scrape_same_process.
    + now apply TwoRuns.scan_same_process.
  - now apply TwoRuns.scrape_any_process.
  - apply TwoRuns.scan_any_process; [assumption | constructor].
Qed.

Lemma extraction_repeatable_up_to_hash_secret_witness :
  outcome_rel (Forall2 same_but_picture)
    (result (scan Sample.env0 (Calendar.mkdate 2024 3 1) "Olympics"
                  (More [Sample.promo; Sample.opening]
                        (Final [Sample.promo; Sample.opening; Sample.lazy_image;
                                Sample.february]))
                  [Sample.promo; Sample.opening] 0 []))
    (result (scan Sample.env1 (Calendar.mkdate 2024 3 1) "Olympics"
                  (More [Sample.promo; Sample.opening]
                        (Final [Sample.promo; Sample.opening; Sample.lazy_image;
                                Sample.february]))
                  [Sample.promo; Sample.opening] 0 [])).
Proof.
  assert (Hn : same_network Sample.env0 Sample.env1) by (intros url; reflexivity).
  exact (proj2 (proj2 (extraction_repeatable_up_to_hash_secret
                         Sample.env0 Sample.env1 (Calendar.mkdate 2024 3 1)
                         "Olympics"
                         (More [Sample.promo; Sample.opening]
                               (Final [Sample.promo; Sample.opening;
                                       Sample.lazy_image; Sample.february]))
                         Sample.promo Hn))).
Defined.

(** *** Driver set-up *)

Module DriverFacts.

Section Library.

Variable WebDriver : Type.
Variable start : string -> Options -> outcome WebDriver.
Variable implicitly_wait : WebDriver -> Z -> outcome unit.
Variable execute_script : WebDriver -> string -> outcome unit.

(** The run of [set_webdriver] for an accepted browser, by the answers of
    the driver library. *)
Lemma set_webdriver_supported (self : CustomSelenium.state WebDriver)
      (browser : string) :
  supported browser ->
  CustomSelenium.set_webdriver WebDriver start implicitly_wait execute_script
                               self browser
  = match start browser (options_for browser) with
    | Raise x => ([Start browser (options_for browser)], Raise x)
    | Ok driver =>
        match implicitly_wait driver 20%Z with
        | Raise x =>
            ([Start browser (options_for browser); ImplicitlyWait 20], Raise x)
        | Ok _ =>
            match execute_script driver CustomSelenium.hide_webdriver with
            | Raise x =>
                ([Start browser (options_for browser); ImplicitlyWait 20;
                  ExecuteScript CustomSelenium.hide_webdriver], Raise x)
            | Ok _ =>
                ([Start browser (options_for browser); ImplicitlyWait 20;
                  ExecuteScript CustomSelenium.hide_webdriver],
                 Ok (Some driver))
            end
        end
    end.
Proof.
  intros Hs.
  assert (Hopt : (if String.eqb (Text.lower browser) "chrome"
                  then ret CustomSelenium._set_chrome_options
                  else if String.eqb (Text.lower browser) "firefox"
                       then ret CustomSelenium._set_firefox_options
                       else raise (CustomSelenium.not_supported browser))
                 = ret (options_for browser)).
  { unfold options_for.
    destruct (String.eqb_spec (Text.lower browser) "chrome") as [Hc | Hc];
      [reflexivity |].
    destruct (String.eqb_spec (Text.lower browser) "firefox") as [Hf | Hf];
      [reflexivity | destruct Hs; contradiction]. }
  unfold CustomSelenium.set_webdriver. rewrite Hopt, bind_ret.
  unfold bind, emit, lift, ret.
  destruct (start browser (options_for browser)) as [driver | x];
    [| reflexivity].
  destruct (implicitly_wait driver 20%Z) as [[] | x]; [| reflexivity].
  destruct (execute_script driver CustomSelenium.hide_webdriver) as [[] | x];
    reflexivity.
Qed.

Lemma set_webdriver_unsupported (self : CustomSelenium.state WebDriver)
      (browser : string) :
  ~ supported browser ->
  CustomSelenium.set_webdriver WebDriver start implicitly_wait execute_script
                               self browser
  = ([], Raise (CustomSelenium.not_supported browser)).
Proof.
  intros Hno. unfold CustomSelenium.set_webdriver, supported in *.
  destruct (String.eqb_spec (Text.lower browser) "chrome") as [Hc | Hc];
    [tauto |].
  destruct (String.eqb_spec (Text.lower browser) "firefox") as [Hf | Hf];
    [tauto | reflexivity].
Qed.

End Library.

Lemma supported_dec (browser : string) : supported browser \/ ~ supported browser.
Proof.
  unfold supported.
  destruct (String.eqb_spec (Text.lower browser) "chrome");
    destruct (String.eqb_spec (Text.lower browser) "firefox"); tauto.
Qed.

(** Assigning to a key of the dict. *)
Lemma get_set_same (k : string) (v : option_value)
      (d : list (string * option_value)) :
  dict_get k (CustomSelenium.set_key k v d) = Some v.
Proof.
  induction d as [| [k' v'] d IH]; cbn [CustomSelenium.set_key dict_get].
  - now rewrite String.eqb_refl.
  - destruct (String.eqb k k') eqn:E; cbn [dict_get].
    + now rewrite String.eqb_refl.
    + now rewrite E.
Qed.

Lemma get_set_other (k k' : string) (v : option_value)
      (d : list (string * option_value)) :
  k' <> k ->
  dict_get k' (CustomSelenium.set_key k v d) = dict_get k' d.
Proof.
  intros Hk.
  induction d as [| [k0 v0] d IH]; cbn [CustomSelenium.set_key dict_get].
  - destruct (String.eqb_spec k' k); [contradiction | reflexivity].
  - destruct (String.eqb_spec k k0) as [-> | Hk0]; cbn [dict_get].
    + destruct (String.eqb_spec k' k0); [contradiction | reflexivity].
    + destruct (String.eqb k' k0); [reflexivity | exact IH].
Qed.

Lemma set_set_same (k : string) (v v' : option_value)
      (d : list (string * option_value)) :
  CustomSelenium.set_key k v' (CustomSelenium.set_key k v d)
  = CustomSelenium.set_key k v' d.
Proof.
  induction d as [| [k0 v0] d IH]; cbn [CustomSelenium.set_key].
  - now rewrite String.eqb_refl.
  - destruct (String.eqb k k0) eqn:E; cbn [CustomSelenium.set_key].
    + now rewrite String.eqb_refl.
    + now rewrite E, IH.
Qed.

End DriverFacts.

(** C9 as stated fails in its second half: the name is checked
    lower-cased and handed to the library as given, and what the library
    raises is not caught. With a library that knows the browsers by their
    capitalised names, ["chrome"] passes the check and no driver is
    started. *)
Lemma lower_case_name_passes_check_and_library_fails :
  supported "chrome"
  /\ CustomSelenium.set_webdriver string sample_start sample_command
                                  sample_command None "chrome"
     = ([Start "chrome" CustomSelenium._set_chrome_options],
        Raise (WebDriverException "no such browser")).
Proof. split; [left |]; reflexivity. Qed.

(** C9, amended. [set_webdriver] raises its [ValueError], before anything
    is done with the driver library, if and only if the browser name,
    lower-cased, is neither ["chrome"] nor ["firefox"]. For these two it
    raises no error of its own: it asks the library to start the browser,
    as named, with the options of its family; it returns, keeping the
    driver the library gave, exactly when the library starts the browser
    and the session takes the two commands, and what the library raises
    ends the call. *)
Theorem unsupported_browser_raises_at_once
        (WebDriver : Type)
        (start : string -> Options -> outcome WebDriver)
        (implicitly_wait : WebDriver -> Z -> outcome unit)
        (execute_script : WebDriver -> string -> outcome unit)
        (self : CustomSelenium.state WebDriver) (browser : string) :
  (CustomSelenium.set_webdriver WebDriver start implicitly_wait execute_script
                                self browser
   = ([], Raise (CustomSelenium.not_supported browser))
   <-> ~ supported browser)
  /\ (supported browser ->
      (exists tr res,
          CustomSelenium.set_webdriver WebDriver start implicitly_wait
                                       execute_script self browser
          = (Start browser (options_for browser) :: tr, res))
      /\ (forall driver,
             start browser (options_for browser) = Ok driver ->
             implicitly_wait driver 20%Z = Ok tt ->
             execute_script driver CustomSelenium.hide_webdriver = Ok tt ->
             CustomSelenium.set_webdriver WebDriver start implicitly_wait
                                          execute_script self browser
             = ([Start browser (options_for browser); ImplicitlyWait 20;
                 ExecuteScript CustomSelenium.hide_webdriver],
                Ok (Some driver)))
      /\ (forall s,
             result (CustomSelenium.set_webdriver WebDriver start implicitly_wait
                                                  execute_script self browser)
             = Ok s ->
             exists driver,
               s = Some driver
               /\ start browser (options_for browser) = Ok driver
               /\ implicitly_wait driver 20%Z = Ok tt
               /\ execute_script driver CustomSelenium.hide_webdriver = Ok tt)
      /\ (forall x,
             start browser (options_for browser) = Raise x ->
             CustomSelenium.set_webdriver WebDriver start implicitly_wait
                                          execute_script self browser
             = ([Start browser (options_for browser)], Raise x))).
Proof.
  split; [split |].
  - intros Hraise Hs.
    rewrite (DriverFacts.set_webdriver_supported _ _ _ _ _ _ Hs) in Hraise.
    destruct (start browser (options_for browser)) as [driver | x];
      [| discriminate Hraise].
    destruct (implicitly_wait driver 20%Z) as [[] | x]; [| discriminate Hraise].
    destruct (execute_script driver CustomSelenium.hide_webdriver)
      as [[] | x]; discriminate Hraise.
  - apply DriverFacts.set_webdriver_unsupported.
  - intros Hs. rewrite (DriverFacts.set_webdriver_supported _ _ _ _ _ _ Hs).
    split; [| split; [| split]].
    + destruct (start browser (options_for browser)) as [driver | x];
        [| eauto].
      destruct (implicitly_wait driver 20%Z) as [[] | x]; [| eauto].
      destruct (execute_script driver CustomSelenium.hide_webdriver)
        as [[] | x]; eauto.
    + intros driver -> -> ->. reflexivity.
    + intros s.
      destruct (start browser (options_for browser)) as [driver | x];
        [| discriminate].
      destruct (implicitly_wait driver 20%Z) as [[] | x] eqn:Hwait;
        [| discriminate].
      destruct (execute_script driver CustomSelenium.hide_webdriver)
        as [[] | x] eqn:Hscript; [| discriminate].
      cbn [result snd]. intros [= <-]. eauto.
    + intros x ->. reflexivity.
Qed.

Lemma unsupported_browser_raises_at_once_witness :
  CustomSelenium.set_webdriver string sample_start sample_command sample_command
                               None "Safari"
  = ([], Raise (ValueError "Browser 'Safari' is not supported"))
  /\ CustomSelenium.set_webdriver string sample_start sample_command sample_command
                                  None "Firefox"
     = ([Start "Firefox" CustomSelenium._set_firefox_options; ImplicitlyWait 20;
         ExecuteScript CustomSelenium.hide_webdriver],
        Ok (Some "session of Firefox")).
Proof.
  split.
  - apply (unsupported_browser_raises_at_once
             string sample_start sample_command sample_command None "Safari").
    intros [H | H]; discriminate H.
  - destruct (unsupported_browser_raises_at_once
                string sample_start sample_command sample_command None "Firefox")
      as [_ Hok].
    destruct (Hok (or_intror eq_refl)) as (_ & Hrun & _).
    exact (Hrun "session of Firefox" eq_refl eq_refl eq_refl).
Defined.

(* ================================================================== *)
(** * Further properties of the code *)

(** ** [_scrape_news_item] *)

Module CardFacts.

Lemma lower_char_idem (c : ascii) :
  Text.lower_char (Text.lower_char c) = Text.lower_char c.
Proof.
  destruct c as [b0 b1 b2 b3 b4 b5 b6 b7].
  destruct b0, b1, b2, b3, b4, b5, b6, b7; reflexivity.
Qed.

Lemma lower_cons (c : ascii) (s : string) :
  Text.lower (String c s) = String (Text.lower_char c) (Text.lower s).
Proof. reflexivity. Qed.

Lemma lower_idem (s : string) : Text.lower (Text.lower s) = Text.lower s.
Proof.
  induction s as [|c s IH]; [reflexivity |].
  now rewrite !lower_cons, lower_char_idem, IH.
Qed.

Lemma prefix_append (p t : string) : prefix p (p ++ t) = true.
Proof.
  induction p as [|c p IH]; [now destruct t |].
  change (String c p ++ t) with (String c (p ++ t)). cbn [prefix].
  destruct (ascii_dec c c); [exact IH | congruence].
Qed.

Lemma skip_append (p t : string) : Text.skip (length p) (p ++ t) = t.
Proof.
  induction p as [|c p IH]; [reflexivity |].
  change (String c p ++ t) with (String c (p ++ t)). exact IH.
Qed.

(** [removeprefix] takes a prefix off that is there. *)
Lemma removeprefix_append (p t : string) : Text.removeprefix p (p ++ t) = t.
Proof. unfold Text.removeprefix. now rewrite prefix_append, skip_append. Qed.

Lemma downloads_app (a b : list event) :
  downloads (a ++ b) = (downloads a ++ downloads b)%list.
Proof.
  induction a as [|ev a IH]; [reflexivity |].
  destruct ev; cbn [app downloads]; now rewrite IH.
Qed.

End CardFacts.

(** X1. A card with a title gives a row exactly when the text of its
    date element (if any) is a date, the picture (if it has a [src]) can
    be downloaded, and the title holds a money mention or the excerpt is
    there; otherwise the scrape raises. It never returns [None] for such
    a card. *)
Theorem scrape_returns_row_iff
        (e : env) (item : news_item) (search_term t : string) :
  title_link item = Some t -> t <> "" ->
  ((exists r, result (_scrape_news_item e item search_term) = Ok (Some r))
   <-> date_readable item /\ picture_fetchable e item
       /\ (Re.search money_pattern t = true \/ excerpt item <> None))
  /\ ((exists x, result (_scrape_news_item e item search_term) = Raise x)
      \/ exists r, result (_scrape_news_item e item search_term) = Ok (Some r)).
Proof.
  intros Ht Hne. unfold _scrape_news_item, urlretrieve, date_readable,
                   picture_fetchable.
  rewrite Ht. destruct t as [|c t]; [congruence |]. simpl.
  destruct (date_span item) as [text|]; simpl;
    [destruct (Calendar.strptime _) as [d|x]; simpl |];
    destruct (excerpt item) as [[|c1 desc]|]; simpl;
    destruct (img item) as [[[|c2 url]|]|]; simpl;
    try (destruct (fetch_ok e _); simpl);
    destruct (Re.search money_pattern (String c t)); simpl;
    (split; [split | eauto]).
  all: try (intros [r Hr];
            first [ discriminate Hr
                  | repeat split; eauto; first [now left | right; discriminate] ]).
  all: intros (Hd & Hf & Hm);
    first [ eexists; reflexivity
          | match type of Hd with
            | ex _ => destruct Hd as [d' Hd]; discriminate Hd
            end
          | discriminate Hf
          | destruct Hm as [Hm | Hm]; [discriminate Hm | now contradiction Hm] ].
Qed.

Lemma scrape_returns_row_iff_witness :
  exists r, result (_scrape_news_item Sample.env0 Sample.lazy_image "Olympics")
            = Ok (Some r).
Proof.
  assert (Hne : "Olympics" <> "") by discriminate.
  apply (proj1 (scrape_returns_row_iff Sample.env0 Sample.lazy_image
                  "Olympics" "Olympics" eq_refl Hne)).
  split; [| split].
  - exists (Calendar.mkdate 2024 3 28). reflexivity.
  - exact I.
  - right. discriminate.
Defined.

(** X2. When the scrape downloads the picture it downloads it once, to
    the file in the output directory that the row names; a picture
    without usable [src] and a card without picture cause no download. *)
Theorem download_goes_to_named_file
        (e : env) (item : news_item) (search_term : string)
        (tr : list event) (r : row) :
  _scrape_news_item e item search_term = (tr, Ok (Some r)) ->
  match img item with
  | Some (Some (String c u)) =>
      downloads tr
      = [(String c u, joinpath output_path (picture_name e (title r)))]
      /\ picture_filename r = Some (picture_name e (title r))
  | Some _ =>
      downloads tr = [] /\ picture_filename r = Some (picture_name e (title r))
  | None => downloads tr = [] /\ picture_filename r = None
  end.
Proof.
  unfold _scrape_news_item, urlretrieve, picture_name.
  destruct (title_link item) as [[|c t]|]; simpl; try discriminate.
  destruct (date_span item) as [text|]; simpl;
    [destruct (Calendar.strptime _) as [d|x]; simpl |];
    destruct (excerpt item) as [[|c1 desc]|]; simpl;
    destruct (img item) as [[[|c2 url]|]|]; simpl;
    try (destruct (fetch_ok e _); simpl);
    destruct (Re.search money_pattern (String c t)); simpl;
    intros H; try discriminate H;
    injection H as <- <-; split; reflexivity.
Qed.

Lemma download_goes_to_named_file_witness :
  exists tr r,
    _scrape_news_item Sample.env0 Sample.opening "Olympics" = (tr, Ok (Some r))
    /\ downloads tr
       = [("https://cdn.example/a.jpg",
           "output/AlJazeeraCrawler/8974993137637572150.png")]
    /\ picture_filename r = Some "8974993137637572150.png".
Proof.
  destruct (_scrape_news_item Sample.env0 Sample.opening "Olympics")
    as [tr [[r|]|x]] eqn:E; try (vm_compute in E; discriminate E).
  exists tr, r. split; [reflexivity |].
  pose proof (download_goes_to_named_file
                Sample.env0 Sample.opening "Olympics" tr r E) as [Hd Hp].
  rewrite Hd, Hp.
  assert (Ht : title r = "Olympics and olympics")
    by (vm_compute in E; injection E as _ <-; reflexivity).
  rewrite Ht. split; vm_compute; reflexivity.
Defined.

(** X3. The case of the search term does not matter: two terms that are
    equal once lower-cased give the same scrape, and so does a term and
    its lower-cased form. *)
Theorem scrape_ignores_case_of_term
        (e : env) (item : news_item) (term1 term2 : string) :
  Text.lower term1 = Text.lower term2 ->
  _scrape_news_item e item term1 = _scrape_news_item e item term2
  /\ _scrape_news_item e item (Text.lower term1) = _scrape_news_item e item term1.
Proof.
  intros H. unfold _scrape_news_item.
  rewrite CardFacts.lower_idem, H. split; reflexivity.
Qed.

Lemma scrape_ignores_case_of_term_witness :
  _scrape_news_item Sample.env0 Sample.opening "OLYMPICS"
  = _scrape_news_item Sample.env0 Sample.opening "olympics".
Proof.
  apply (scrape_ignores_case_of_term Sample.env0 Sample.opening
           "OLYMPICS" "olympics").
  reflexivity.
Defined.

(** X4. The prefix ["Last update "] of the date text is dropped before
    the date is read: a card gives the same scrape with and without it
    (the text after the prefix not starting with the prefix again). *)
Theorem last_update_prefix_is_ignored
        (e : env) (item : news_item) (search_term text : string) :
  prefix "Last update " text = false ->
  _scrape_news_item e (with_date_text item (Some ("Last update " ++ text)))
                    search_term
  = _scrape_news_item e (with_date_text item (Some text)) search_term.
Proof.
  intros H.
  assert (E : Text.removeprefix "Last update " ("Last update " ++ text)
              = Text.removeprefix "Last update " text).
  { rewrite CardFacts.removeprefix_append. unfold Text.removeprefix.
    now rewrite H. }
  unfold _scrape_news_item, with_date_text.
  cbn [title_link date_span excerpt img].
  destruct (title_link item) as [[|c t]|]; try reflexivity.
  cbn [_find_element_by_xpath]. rewrite !bind_ret, E. reflexivity.
Qed.

Lemma last_update_prefix_is_ignored_witness :
  exists r,
    result (_scrape_news_item Sample.env0
              (with_date_text Sample.opening (Some "Last update 1 Mar 2024"))
              "Olympics") = Ok (Some r)
    /\ result (_scrape_news_item Sample.env0
                 (with_date_text Sample.opening (Some "1 Mar 2024"))
                 "Olympics") = Ok (Some r)
    /\ date r = Some (Calendar.mkdate 2024 3 1).
Proof.
  change "Last update 1 Mar 2024" with ("Last update " ++ "1 Mar 2024").
  rewrite (last_update_prefix_is_ignored Sample.env0 Sample.opening
             "Olympics" "1 Mar 2024" eq_refl).
  eexists. repeat split; vm_compute; reflexivity.
Defined.

(** ** The loop of [_save_news_to_excel] *)

Module PaginationFacts.

(** A pass over two lists in a row is a pass over the first and, if it
    reached no cutoff, a pass over the second. *)
Lemma visit_app (e : env) (min_date : Calendar.date) (search_term : string)
      (a b : list news_item) :
  forall news_df,
    visit e min_date search_term (a ++ b) news_df
    = match visit e min_date search_term a news_df with
      | (tr, Ok (Exhausted df)) => after tr (visit e min_date search_term b df)
      | other => other
      end.
Proof.
  induction a as [|item a IH]; intros news_df.
  - cbn [app visit]. now rewrite after_nil.
  - cbn [app visit].
    destruct (_scrape_news_item e item search_term) as [tr [[r|]|x]];
      [destruct (too_old min_date r) | |]; try reflexivity;
      rewrite IH;
      match goal with
      | |- context [visit e min_date search_term a ?df] =>
          destruct (visit e min_date search_term a df) as [tr' [[df'|df']|x']]
      end; cbn [after trace result fst snd]; try reflexivity;
      apply after_after.
Qed.

(** The rows of the loop are the rows of one pass over its feed. *)
Lemma scan_feed (e : env) (min_date : Calendar.date) (search_term : string) :
  forall d news_items curr_item news_df,
    result (scan e min_date search_term d news_items curr_item news_df)
    = pass_rows (result (visit e min_date search_term
                               (feed d curr_item news_items) news_df)).
Proof.
  induction d as [cards | cards next IH]; intros news_items curr_item news_df;
    (destruct news_items as [|item rest];
     [now rewrite RunFacts.scan_nil |]);
    rewrite scan_pass by discriminate; cbn [feed].
  - rewrite app_nil_r.
    destruct (visit e min_date search_term (item :: rest) news_df)
      as [tr [[df|df]|x]]; reflexivity.
  - rewrite visit_app.
    destruct (visit e min_date search_term (item :: rest) news_df)
      as [tr [[df|df]|x]]; try reflexivity.
    cbn [after_item after trace result fst snd]. apply IH.
Qed.

Lemma articles_prefix_of_last (d : dom) :
  grows d -> exists rest, last_cards d = (articles d ++ rest)%list.
Proof.
  induction d as [cards | cards next IH]; cbn [grows last_cards articles].
  - intros _. exists []. now rewrite app_nil_r.
  - intros [[more Hmore] Hg]. destruct (IH Hg) as [rest Hrest].
    exists (more ++ rest)%list. now rewrite Hrest, Hmore, app_assoc.
Qed.

Lemma grows_strictly_grows (d : dom) : grows_strictly d -> grows d.
Proof.
  induction d as [cards | cards next IH]; cbn [grows grows_strictly]; [trivial |].
  intros [(c & more & H) Hg]. split; [now exists (c :: more) | now apply IH].
Qed.

Lemma skipn_app_exact {A} (a b : list A) : skipn (List.length a) (a ++ b) = b.
Proof. induction a as [|x a IH]; [reflexivity | exact IH]. Qed.

(** On a list that grows, what was counted and what the loop gets in
    hand make up the beginning of the final list. *)
Lemma feed_prefix_of_last (d : dom) :
  grows d ->
  forall before news_items,
    articles d = (before ++ news_items)%list ->
    exists rest,
      last_cards d
      = ((before ++ feed d (List.length before) news_items) ++ rest)%list.
Proof.
  induction d as [cards | cards next IH]; intros Hg before news_items Hart.
  - cbn [articles] in Hart. cbn [last_cards]. subst cards.
    destruct news_items as [|item rest]; cbn [feed].
    + exists []. now rewrite !app_nil_r.
    + exists []. now rewrite !app_nil_r.
  - cbn [articles] in Hart. subst cards.
    destruct Hg as [[more Hmore] Hg]. cbn [last_cards].
    destruct news_items as [|item rest]; cbn [feed].
    + destruct (articles_prefix_of_last next Hg) as [rest' Hrest'].
      exists (more ++ rest')%list.
      now rewrite Hrest', Hmore, !app_nil_r, app_assoc.
    + set (items := item :: rest) in *.
      assert (Hlen : List.length before + List.length items
                     = List.length (before ++ items)) by now rewrite length_app.
      rewrite Hlen, Hmore, skipn_app_exact.
      destruct (IH Hg (before ++ items)%list more Hmore) as [rest' Hrest'].
      exists rest'. now rewrite Hrest', !app_assoc.
Qed.

(** When each click adds a card, they make up the whole final list. *)
Lemma feed_is_last (d : dom) :
  grows_strictly d ->
  forall before news_items,
    news_items <> [] ->
    articles d = (before ++ news_items)%list ->
    last_cards d = (before ++ feed d (List.length before) news_items)%list.
Proof.
  induction d as [cards | cards next IH]; intros Hg before news_items Hne Hart;
    cbn [articles] in Hart; subst cards; cbn [last_cards];
    (destruct news_items as [|item rest]; [congruence |]); cbn [feed].
  - now rewrite app_nil_r.
  - destruct Hg as [(c & more & Hmore) Hg].
    set (items := item :: rest) in *.
    assert (Hlen : List.length before + List.length items
                   = List.length (before ++ items)) by now rewrite length_app.
    rewrite Hlen, Hmore, skipn_app_exact.
    rewrite (IH Hg (before ++ items)%list (c :: more)); [| discriminate | exact Hmore].
    now rewrite !app_assoc.
Qed.

End PaginationFacts.

(** X5. Pagination does not change what the rows are: the rows the loop
    ends with are those of a single pass, with the same cutoff rule, over
    the cards in hand followed, click after click, by the cards of each
    new list beyond the count of those already dealt with. *)
Theorem rows_are_those_of_one_pass_over_feed
        (e : env) (min_date : Calendar.date) (search_term : string) (d : dom)
        (news_items : list news_item) (curr_item : nat) (news_df : list row) :
  result (scan e min_date search_term d news_items curr_item news_df)
  = pass_rows (result (visit e min_date search_term
                             (feed d curr_item news_items) news_df))
  /\ result (scan e min_date search_term d (articles d) 0 [])
     = pass_rows (result (visit e min_date search_term
                                (feed d 0 (articles d)) [])).
Proof. split; apply PaginationFacts.scan_feed. Qed.

(** X6. When every click on "show more" keeps the cards that were listed
    and adds cards behind them, the rows the loop ends with are those of
    one pass over the cards of the fully loaded list, in their order, as
    far as the loop got hold of them; and when each click adds at least
    one card and the first list is not empty, those of one pass over the
    whole of that list: no card is scanned twice and none is left out. *)
Theorem growing_list_is_scanned_in_order
        (e : env) (min_date : Calendar.date) (search_term : string) (d : dom) :
  grows d ->
  (exists cards rest,
      last_cards d = (cards ++ rest)%list
      /\ result (scan e min_date search_term d (articles d) 0 [])
         = pass_rows (result (visit e min_date search_term cards [])))
  /\ (grows_strictly d -> articles d <> [] ->
      result (scan e min_date search_term d (articles d) 0 [])
      = pass_rows (result (visit e min_date search_term (last_cards d) []))).
Proof.
  intros Hg. split.
  - destruct (PaginationFacts.feed_prefix_of_last d Hg [] (articles d) eq_refl)
      as [rest Hrest].
    exists (feed d 0 (articles d)), rest. split; [exact Hrest |].
    apply PaginationFacts.scan_feed.
  - intros Hs Hne.
    rewrite (PaginationFacts.feed_is_last d Hs [] (articles d) Hne eq_refl).
    apply PaginationFacts.scan_feed.
Qed.

Lemma growing_list_is_scanned_in_order_witness :
  result (scan Sample.env0 (Calendar.mkdate 2024 3 1) "Olympics"
               (More [Sample.promo; Sample.opening]
                     (More [Sample.promo; Sample.opening; Sample.lazy_image]
                           (Final [Sample.promo; Sample.opening;
                                   Sample.lazy_image; Sample.undated;
                                   Sample.february])))
               [Sample.promo; Sample.opening] 0 [])
  = pass_rows (result (visit Sample.env0 (Calendar.mkdate 2024 3 1) "Olympics"
                             [Sample.promo; Sample.opening; Sample.lazy_image;
                              Sample.undated; Sample.february] [])).
Proof.
  apply (growing_list_is_scanned_in_order
           Sample.env0 (Calendar.mkdate 2024 3 1) "Olympics"
           (More [Sample.promo; Sample.opening]
                 (More [Sample.promo; Sample.opening; Sample.lazy_image]
                       (Final [Sample.promo; Sample.opening; Sample.lazy_image;
                               Sample.undated; Sample.february])))).
  - split; [now exists [Sample.lazy_image] |].
    split; [now exists [Sample.undated; Sample.february] | exact I].
  - split; [now exists Sample.lazy_image, [] |].
    split; [now exists Sample.undated, [Sample.february] | exact I].
  - discriminate.
Defined.

Module ExportFacts.

(** How [_save_news_to_excel] can end: with an exception before the loop
    has ended and nothing handed over, or with the rows of the loop
    handed over. *)
Lemma save_cases (e : env) (page : option dom) (search_term : string)
      (number_of_months : Z) :
  (exists tr x,
      _save_news_to_excel e page search_term number_of_months = (tr, Raise x)
      /\ exports tr = []
      /\ forall d min_date tr' df,
          page = Some d -> min_date_of e number_of_months = Ok min_date ->
          scan e min_date search_term d (articles d) 0 [] <> (tr', Ok df))
  \/ (exists d min_date tr df,
         page = Some d
         /\ min_date_of e number_of_months = Ok min_date
         /\ scan e min_date search_term d (articles d) 0 [] = (tr, Ok df)
         /\ _save_news_to_excel e page search_term number_of_months
            = after tr (hand_over df)
         /\ exports (trace (_save_news_to_excel e page search_term
                                                number_of_months))
            = [(joinpath output_path "news.xlsx", df)]).
Proof.
  destruct (min_date_of e number_of_months) as [min_date | x] eqn:Hmin.
  2: { left. exists [], x. unfold _save_news_to_excel. rewrite Hmin.
       split; [reflexivity | split; [reflexivity | discriminate]]. }
  destruct page as [d |].
  2: { left. exists [], (NoSuchElementException "search-result__list").
       unfold _save_news_to_excel. rewrite Hmin.
       split; [reflexivity | split; [reflexivity | discriminate]]. }
  pose proof (TraceFacts.scan_exports_nothing
                e min_date search_term d (articles d) 0 []) as Hex.
  destruct (scan e min_date search_term d (articles d) 0 []) as [tr [df | x]]
    eqn:Hscan; cbn [trace fst] in Hex.
  - right. exists d, min_date, tr, df.
    pose proof (RunFacts.save_exports e search_term number_of_months d
                  min_date tr df Hmin Hscan) as E.
    repeat split; try assumption. rewrite E. unfold after. cbn [trace fst].
    rewrite TraceFacts.exports_app, Hex. apply RunFacts.hand_over_exports.
  - left. exists tr, x. split; [| split; [exact Hex |]].
    + unfold _save_news_to_excel. rewrite Hmin.
      unfold lift at 1. rewrite bind_after, after_nil, bind_ret. now rewrite Hscan.
    + intros d' min_date' tr' df [= <-] [= <-]. rewrite Hscan. discriminate.
Qed.

Lemma skipn_incl {A} (n : nat) (l : list A) : incl (skipn n l) l.
Proof.
  intros c Hc. rewrite <- (firstn_skipn n l). apply in_or_app. now right.
Qed.

(** The rows the loop adds are rows of cards of the list, in one of its
    snapshots, that are not older than the cutoff. *)
Lemma scan_rows_from_cards (e : env) (min_date : Calendar.date)
      (search_term : string) :
  forall d news_items curr_item news_df,
    incl news_items (all_cards d) ->
    forall out,
      result (scan e min_date search_term d news_items curr_item news_df)
      = Ok out ->
      exists added,
        out = (news_df ++ added)%list
        /\ Forall (fun r =>
                     too_old min_date r = false
                     /\ exists item tr,
                         In item (all_cards d)
                         /\ _scrape_news_item e item search_term
                            = (tr, Ok (Some r)))
                  added.
Proof.
  apply (RunFacts.scan_induction e min_date search_term
           (fun d news_items curr_item news_df =>
              incl news_items (all_cards d) ->
              forall out,
                result (scan e min_date search_term d news_items curr_item news_df)
                = Ok out ->
                exists added,
                  out = (news_df ++ added)%list
                  /\ Forall (fun r =>
                               too_old min_date r = false
                               /\ exists item tr,
                                   In item (all_cards d)
                                   /\ _scrape_news_item e item search_term
                                      = (tr, Ok (Some r)))
                            added)).
  - intros d curr_item news_df _ out H. rewrite RunFacts.scan_nil in H.
    injection H as <-. exists []. now rewrite app_nil_r.
  - intros d item rest curr_item news_df IHrest IHnext Hincl out H.
    assert (Hitem : In item (all_cards d)) by (apply Hincl; now left).
    assert (Hrest : incl rest (all_cards d))
      by (intros c Hc; apply Hincl; now right).
    rewrite scan_cons in H.
    assert (Hafter : forall df' out',
               result (after_item e min_date search_term d rest (S curr_item) df')
               = Ok out' ->
               exists added,
                 out' = (df' ++ added)%list
                 /\ Forall (fun r =>
                              too_old min_date r = false
                              /\ exists item tr,
                                  In item (all_cards d)
                                  /\ _scrape_news_item e item search_term
                                     = (tr, Ok (Some r)))
                           added).
    { intros df' out' H'. unfold after_item in H'.
      destruct rest as [|item' rest]; [| now apply IHrest].
      destruct d as [cards | cards next].
      - injection H' as <-. exists []. now rewrite app_nil_r.
      - cbn [after result snd] in H'.
        assert (Hskip : incl (skipn (S curr_item) (articles next)) (all_cards next)).
        { intros c Hc. apply skipn_incl in Hc.
          destruct next; cbn [articles all_cards] in *;
            [assumption | apply in_or_app; now left]. }
        destruct (IHnext df' cards next eq_refl Hskip out' H')
          as (added & -> & Hall).
        exists added. split; [reflexivity |].
        apply Forall_impl with (2 := Hall).
        intros r (Hold & c & tr & Hc & Hs). split; [assumption |].
        exists c, tr. split; [| assumption].
        cbn [all_cards]. apply in_or_app. now right. }
    destruct (_scrape_news_item e item search_term) as [tr [[r|]|x]] eqn:Hs;
      [destruct (too_old min_date r) eqn:Hold | |].
    + injection H as <-. exists []. now rewrite app_nil_r.
    + apply Hafter in H as (added & -> & Hall).
      exists (r :: added). rewrite <- app_assoc. split; [reflexivity |].
      constructor; [| assumption]. split; [assumption |]. now exists item, tr.
    + now apply Hafter.
    + discriminate.
Qed.

Lemma articles_in_all_cards (d : dom) : incl (articles d) (all_cards d).
Proof.
  destruct d as [cards | cards next]; cbn [articles all_cards];
    [apply incl_refl | apply incl_appl, incl_refl].
Qed.

End ExportFacts.

(** X7. [_save_news_to_excel] hands a frame to [to_excel] exactly when
    the cutoff was computed, the result list found and the loop ended
    without exception: then once, right after the loop, with the rows the
    loop ended with. It ends normally exactly when, moreover, [to_excel]
    takes the frame, the success line being its last step; when
    [to_excel] refuses, its exception ends the run. A run that raises
    before the loop has ended hands over nothing. *)
Theorem rows_are_handed_over_once_after_the_loop
        (e : env) (page : option dom) (search_term : string)
        (number_of_months : Z) :
  (forall path rows,
      In (path, rows)
         (exports (trace (_save_news_to_excel e page search_term
                                              number_of_months)))
      <-> path = joinpath output_path "news.xlsx"
          /\ exists d min_date tr,
              page = Some d
              /\ min_date_of e number_of_months = Ok min_date
              /\ scan e min_date search_term d (articles d) 0 [] = (tr, Ok rows))
  /\ (List.length
        (exports (trace (_save_news_to_excel e page search_term
                                             number_of_months))) <= 1)%nat
  /\ (result (_save_news_to_excel e page search_term number_of_months) = Ok tt
      <-> exists d min_date tr df,
          page = Some d
          /\ min_date_of e number_of_months = Ok min_date
          /\ scan e min_date search_term d (articles d) 0 [] = (tr, Ok df)
          /\ to_excel_error df = None)
  /\ (forall d min_date tr df,
         page = Some d ->
         min_date_of e number_of_months = Ok min_date ->
         scan e min_date search_term d (articles d) 0 [] = (tr, Ok df) ->
         _save_news_to_excel e page search_term number_of_months
         = match to_excel_error df with
           | None =>
               ((tr ++ [ToExcel (joinpath output_path "news.xlsx") df;
                        LogInfo "News saved to Excel successfully."])%list,
                Ok tt)
           | Some x =>
               ((tr ++ [ToExcel (joinpath output_path "news.xlsx") df])%list,
                Raise x)
           end).
Proof.
  assert (Hrun : forall d min_date tr df,
             page = Some d ->
             min_date_of e number_of_months = Ok min_date ->
             scan e min_date search_term d (articles d) 0 [] = (tr, Ok df) ->
             _save_news_to_excel e page search_term number_of_months
             = match to_excel_error df with
               | None =>
                   ((tr ++ [ToExcel (joinpath output_path "news.xlsx") df;
                            LogInfo "News saved to Excel successfully."])%list,
                    Ok tt)
               | Some x =>
                   ((tr ++ [ToExcel (joinpath output_path "news.xlsx") df])%list,
                    Raise x)
               end).
  { intros d min_date tr df -> Hmin Hscan.
    rewrite (RunFacts.save_exports e search_term number_of_months d min_date
               tr df Hmin Hscan).
    destruct (to_excel_error df) as [x |] eqn:Herr;
      [rewrite (RunFacts.hand_over_refused df x Herr)
      | rewrite (RunFacts.hand_over_fits df Herr)]; reflexivity. }
  destruct (ExportFacts.save_cases e page search_term number_of_months)
    as [(tr & x & E & Hex & Hnot)
       | (d & min_date & tr & df & Hp & Hm & Hs & E & Hex)].
  - rewrite E. cbn [trace result fst snd]. rewrite Hex.
    split; [| split; [| split]].
    + intros path rows. split; [intros [] |].
      intros (_ & d & min_date & tr' & Hp & Hm & Hs).
      exact (Hnot d min_date tr' rows Hp Hm Hs).
    + cbn [List.length]. lia.
    + split; [discriminate |].
      intros (d & min_date & tr' & df & Hp & Hm & Hs & _).
      destruct (Hnot d min_date tr' df Hp Hm Hs).
    + intros d min_date tr' df Hp Hm Hs.
      destruct (Hnot d min_date tr' df Hp Hm Hs).
  - rewrite Hex. split; [| split; [| split]].
    + intros path rows. split.
      * intros [[= <- <-] | []]. split; [reflexivity |].
        now exists d, min_date, tr.
      * intros (-> & d' & min_date' & tr' & Hp' & Hm' & Hs').
        rewrite Hp in Hp'. injection Hp' as <-.
        rewrite Hm in Hm'. injection Hm' as <-.
        rewrite Hs in Hs'. injection Hs' as _ <-. now left.
    + cbn [List.length]. lia.
    + rewrite (Hrun d min_date tr df Hp Hm Hs). split.
      * intros Hok. exists d, min_date, tr, df.
        repeat split; try assumption.
        destruct (to_excel_error df); [discriminate Hok | reflexivity].
      * intros (d' & min_date' & tr' & df' & Hp' & Hm' & Hs' & Hfit).
        rewrite Hp in Hp'. injection Hp' as <-.
        rewrite Hm in Hm'. injection Hm' as <-.
        rewrite Hs in Hs'. injection Hs' as _ <-. now rewrite Hfit.
    + exact Hrun.
Qed.

(** X8. Every row of a frame handed to [to_excel] has a title that is not
    empty, is not older than the cutoff of the run, and is the row the
    scrape gave for a card of the result list. *)
Theorem exported_rows_are_kept_scrapes
        (e : env) (d : dom) (search_term : string) (number_of_months : Z)
        (path : string) (news_df : list row) :
  In (path, news_df)
     (exports (trace (_save_news_to_excel e (Some d) search_term number_of_months))) ->
  exists min_date,
    min_date_of e number_of_months = Ok min_date
    /\ Forall (fun r =>
                 title r <> ""
                 /\ too_old min_date r = false
                 /\ exists item tr,
                     In item (all_cards d)
                     /\ _scrape_news_item e item search_term = (tr, Ok (Some r)))
              news_df.
Proof.
  intros Hin.
  destruct (ExportFacts.save_cases e (Some d) search_term number_of_months)
    as [(tr & x & E & Hex & _)
       | (d' & min_date & tr & df & Hp & Hm & Hs & _ & Hex)].
  - rewrite E in Hin. cbn [trace fst] in Hin.
    rewrite Hex in Hin. contradiction.
  - injection Hp as <-. rewrite Hex in Hin.
    destruct Hin as [Hin | []]. injection Hin as _ <-.
    exists min_date. split; [assumption |].
    destruct (ExportFacts.scan_rows_from_cards
                e min_date search_term d (articles d) 0 []
                (ExportFacts.articles_in_all_cards d) df)
      as (added & -> & Hall); [now rewrite Hs |].
    cbn [app]. apply Forall_impl with (2 := Hall).
    intros r (Hold & item & tr' & Hitem & Hscrape).
    split; [| split; [assumption | now exists item, tr']].
    apply scrape_row_inv in Hscrape as (t & _ & Hne & Ht & _). congruence.
Qed.

Lemma exported_rows_are_kept_scrapes_witness :
  exists path news_df,
    exports (trace (_save_news_to_excel
                      Sample.env0
                      (Some (Final [Sample.promo; Sample.opening; Sample.february]))
                      "Olympics" 1))
    = [(path, news_df)]
    /\ Forall (fun r => title r <> "" /\ too_old (Calendar.mkdate 2024 3 1) r = false)
              news_df.
Proof.
  destruct (exports (trace (_save_news_to_excel
                      Sample.env0
                      (Some (Final [Sample.promo; Sample.opening; Sample.february]))
                      "Olympics" 1)))
    as [|[path news_df] [|other rest]] eqn:E;
    try (vm_compute in E; discriminate E).
  exists path, news_df. split; [reflexivity |].
  destruct (exported_rows_are_kept_scrapes
              Sample.env0 (Final [Sample.promo; Sample.opening; Sample.february])
              "Olympics" 1 path news_df) as (min_date & Hmin & Hall).
  - rewrite E. now left.
  - assert (Hm : min_date = Calendar.mkdate 2024 3 1)
      by (vm_compute in Hmin; now injection Hmin as <-).
    subst min_date.
    apply Forall_impl with (2 := Hall). intros r (H1 & H2 & _). now split.
Defined.

(** X9. The loop ends as soon as no card is in hand. A result list
    without cards is written out empty and the "show more" button, even
    if it is there, is not looked for; and when a click on "show more"
    reveals no card beyond those already counted, the loop ends with the
    rows it has, whatever the new list offers to click. *)
Theorem loop_ends_when_no_card_is_in_hand
        (e : env) (min_date : Calendar.date) (search_term : string) :
  (forall d number_of_months,
      articles d = [] ->
      min_date_of e number_of_months = Ok min_date ->
      _save_news_to_excel e (Some d) search_term number_of_months
      = ([ToExcel (joinpath output_path "news.xlsx") [];
          LogInfo "News saved to Excel successfully."], Ok tt))
  /\ (forall cards next news_items curr_item news_df tr df,
         news_items <> [] ->
         visit e min_date search_term news_items news_df = (tr, Ok (Exhausted df)) ->
         skipn (curr_item + List.length news_items) (articles next) = [] ->
         scan e min_date search_term (More cards next) news_items curr_item news_df
         = ((tr ++ [ScrollIntoView ShowMoreButton; Click ShowMoreButton;
                    LogInfo "Loading more news items..."; Sleep 5])%list,
            Ok df)).
Proof.
  split.
  - intros d number_of_months Hart Hmin.
    rewrite (RunFacts.save_exports e search_term number_of_months d min_date [] []
               Hmin); [now rewrite (RunFacts.hand_over_fits [] eq_refl) |].
    rewrite Hart. apply RunFacts.scan_nil.
  - intros cards next news_items curr_item news_df tr df Hne Hpass Hskip.
    rewrite scan_pass, Hpass by assumption.
    cbn [after_item]. rewrite Hskip, RunFacts.scan_nil.
    unfold after. cbn [trace result fst snd]. now rewrite !app_nil_r.
Qed.

Lemma loop_ends_when_no_card_is_in_hand_witness :
  _save_news_to_excel Sample.env0
    (Some (More [] (Final [Sample.opening]))) "Olympics" 1
  = ([ToExcel "output/AlJazeeraCrawler/news.xlsx" [];
      LogInfo "News saved to Excel successfully."], Ok tt)
  /\ exists tr r,
      scan Sample.env0 (Calendar.mkdate 2024 3 1) "Olympics"
           (More [Sample.opening] (More [Sample.opening] (Final [Sample.undated])))
           [Sample.opening] 0 []
      = ((tr ++ [ScrollIntoView ShowMoreButton; Click ShowMoreButton;
                 LogInfo "Loading more news items..."; Sleep 5])%list,
         Ok [r]).
Proof.
  destruct (loop_ends_when_no_card_is_in_hand
              Sample.env0 (Calendar.mkdate 2024 3 1) "Olympics") as [Hempty Hstale].
  split.
  - apply Hempty; reflexivity.
  - destruct (visit Sample.env0 (Calendar.mkdate 2024 3 1) "Olympics"
                    [Sample.opening] [])
      as [tr [[df|[|r [|r' df]]]|x]] eqn:E;
      try (vm_compute in E; discriminate E).
    exists tr, r. apply Hstale; [discriminate | exact E | reflexivity].
Defined.

(** ** The cutoff of [_save_news_to_excel] *)

Module CutoffInv.
Import Calendar CalendarFacts.
Local Open Scope Z_scope.

(** Where adding the negated offset of [k] months leads, whether or not
    [datetime] can hold the date. *)
Lemma delta_add_make (dt : date) (k : Z) :
  valid dt -> 0 <= k ->
  delta_add (delta_neg (delta 0 k)) dt
  = make ((month_index dt - k) / 12) ((month_index dt - k) mod 12 + 1)
         (Z.min (days_in_month ((month_index dt - k) / 12)
                               ((month_index dt - k) mod 12 + 1))
                (day dt)).
Proof.
  intros Hv Hk. apply validb_spec in Hv as (Hy & Hm & Hd).
  rewrite delta_neg_months by assumption.
  pose proof (Z.mod_pos_bound k 12 ltac:(lia)) as Hr.
  pose proof (Z.div_mod k 12 ltac:(lia)) as Hdm.
  unfold month_index, delta_add. cbn [years months].
  set (q := k / 12) in *. set (r := k mod 12) in *.
  assert (Hidx : forall Y M, 1 <= M <= 12 ->
                   12 * year dt + (month dt - 1) - k = 12 * Y + (M - 1) ->
                   (12 * year dt + (month dt - 1) - k) / 12 = Y
                   /\ (12 * year dt + (month dt - 1) - k) mod 12 + 1 = M).
  { intros Y M HM E. rewrite E. split.
    - symmetry. apply (Z.div_unique _ 12 Y (M - 1)); lia.
    - rewrite <- (Z.mod_unique (12 * Y + (M - 1)) 12 Y (M - 1)); lia. }
  destruct (- r =? 0) eqn:Hr0.
  - apply Z.eqb_eq in Hr0.
    now destruct (Hidx (year dt + - q) (month dt)) as [-> ->]; [lia | lia |].
  - destruct (12 <? month dt + - r) eqn:H12; [apply Z.ltb_lt in H12; lia |].
    destruct (month dt + - r <? 1) eqn:H1.
    + apply Z.ltb_lt in H1.
      now destruct (Hidx (year dt + - q - 1) (month dt + - r + 12)) as [-> ->];
        [lia | lia |].
    + apply Z.ltb_ge in H1.
      now destruct (Hidx (year dt + - q) (month dt + - r)) as [-> ->];
        [lia | lia |].
Qed.

Lemma make_inv (y m d : Z) (r : date) : make y m d = Ok r -> r = mkdate y m d.
Proof. unfold make. destruct (validb _); [now injection 1 as <- | discriminate]. Qed.

(** Whenever there is a cutoff, it is the first day of the month that
    lies [max 0 (n - 1)] months before the current one. *)
Lemma min_date_inv (e : env) (n : Z) (min_date : date) :
  valid (today e) -> min_date_of e n = Ok min_date ->
  min_date
  = first_of_month_index (month_index (today e) - Z.max 0 (n - 1)).
Proof.
  intros Hv Hmin. destruct (Z.le_gt_cases n 0) as [Hn | Hn].
  - rewrite CutoffFacts.min_date_nonpositive in Hmin by assumption.
    replace (Z.max 0 (n - 1)) with 0 by lia. rewrite Z.sub_0_r. congruence.
  - replace (Z.max 0 (n - 1)) with (n - 1) by lia.
    unfold min_date_of, sub_months in Hmin.
    replace (0 <? n) with true in Hmin by (symmetry; apply Z.ltb_lt; lia).
    destruct (in_bounds e (today e)); [| discriminate].
    rewrite delta_add_make in Hmin by (assumption || lia).
    destruct (make _ _ _) as [r | x] eqn:Hr in Hmin; [| discriminate].
    apply make_inv in Hr. subst r.
    destruct (in_bounds e _); [| discriminate].
    unfold replace_day in Hmin. cbn [year month] in Hmin.
    destruct (make _ _ 1) as [r | x] eqn:Hr in Hmin; [| discriminate].
    apply make_inv in Hr. subst r.
    destruct (in_bounds e _); [| discriminate].
    now injection Hmin as <-.
Qed.

(** [ltb] is the strict order of dates read as year, month, day. *)
Lemma ltb_lex (a b : date) :
  ltb a b = true
  <-> year a < year b
      \/ (year a = year b
          /\ (month a < month b \/ (month a = month b /\ day a < day b))).
Proof.
  unfold ltb.
  destruct (Z.ltb_spec (year a) (year b)), (Z.eqb_spec (year a) (year b)),
    (Z.ltb_spec (month a) (month b)), (Z.eqb_spec (month a) (month b)),
    (Z.ltb_spec (day a) (day b));
    cbn [orb andb]; split; intros Hlt;
    try reflexivity; try discriminate Hlt; lia.
Qed.

Lemma ltb_false_lex (a b : date) :
  ltb a b = false
  <-> year b < year a
      \/ (year a = year b
          /\ (month b < month a \/ (month a = month b /\ day b <= day a))).
Proof.
  rewrite <- not_true_iff_false, ltb_lex. lia.
Qed.

Lemma first_fields (i : Z) :
  year (first_of_month_index i) = i / 12
  /\ month (first_of_month_index i) = i mod 12 + 1
  /\ day (first_of_month_index i) = 1.
Proof. repeat split. Qed.

(** Later months have later first days. *)
Lemma first_of_month_index_mono (i j : Z) :
  i <= j -> ltb (first_of_month_index j) (first_of_month_index i) = false.
Proof.
  intros Hij. apply ltb_false_lex.
  destruct (first_fields i) as (-> & -> & ->).
  destruct (first_fields j) as (-> & -> & ->).
  pose proof (Z.div_mod i 12 ltac:(lia)).
  pose proof (Z.div_mod j 12 ltac:(lia)).
  pose proof (Z.mod_pos_bound i 12 ltac:(lia)).
  pose proof (Z.mod_pos_bound j 12 ltac:(lia)).
  lia.
Qed.

End CutoffInv.

(** X10. Whenever the cutoff can be computed it is the first day of a
    month, the month [max 0 (n - 1)] months before the current one, and
    never after today: a row dated today or later is not cut, whatever
    the lookback. *)
Theorem cutoff_is_never_after_today
        (e : env) (n : Z) (min_date : Calendar.date) :
  Calendar.valid (today e) ->
  min_date_of e n = Ok min_date ->
  Calendar.day min_date = 1%Z
  /\ Calendar.month_index min_date
     = (Calendar.month_index (today e) - Z.max 0 (n - 1))%Z
  /\ Calendar.ltb (today e) min_date = false
  /\ forall r dt,
      date r = Some dt -> Calendar.ltb dt (today e) = false ->
      too_old min_date r = false.
Proof.
  intros Hv Hmin. pose proof Hv as Hv'.
  apply CalendarFacts.validb_spec in Hv' as (Hy & Hm & Hd).
  apply CutoffInv.min_date_inv in Hmin; [| assumption]. subst min_date.
  assert (Hnot : Calendar.ltb (today e)
                   (Calendar.first_of_month_index
                      (Calendar.month_index (today e) - Z.max 0 (n - 1)))
                 = false).
  { apply CutoffInv.ltb_false_lex.
    destruct (CutoffInv.first_fields
                (Calendar.month_index (today e) - Z.max 0 (n - 1)))
      as (-> & -> & ->).
    unfold Calendar.month_index.
    pose proof (Z.div_mod (12 * Calendar.year (today e)
                           + (Calendar.month (today e) - 1) - Z.max 0 (n - 1))
                          12 ltac:(lia)).
    pose proof (Z.mod_pos_bound (12 * Calendar.year (today e)
                                 + (Calendar.month (today e) - 1) - Z.max 0 (n - 1))
                                12 ltac:(lia)).
    lia. }
  split; [reflexivity |].
  split; [apply CalendarFacts.month_index_first |].
  split; [exact Hnot |].
  intros r dt Hdate Hdt. unfold too_old. rewrite Hdate.
  apply CutoffInv.ltb_false_lex in Hnot, Hdt.
  apply CutoffInv.ltb_false_lex. lia.
Qed.

Lemma cutoff_is_never_after_today_witness :
  Calendar.ltb (today Sample.env0) (Calendar.mkdate 2023 10 1) = false
  /\ Calendar.month_index (Calendar.mkdate 2023 10 1)
     = (Calendar.month_index (today Sample.env0) - 5)%Z.
Proof.
  assert (Hv : Calendar.valid (today Sample.env0)) by reflexivity.
  assert (Hmin : min_date_of Sample.env0 6 = Ok (Calendar.mkdate 2023 10 1))
    by reflexivity.
  destruct (cutoff_is_never_after_today Sample.env0 6 _ Hv Hmin)
    as (_ & Hidx & Hnot & _).
  split; [exact Hnot | exact Hidx].
Defined.

(** X11. A longer lookback never cuts more: with [n <= m] the cutoff for
    [m] is not after the cutoff for [n], and every row that is kept with
    [n] is kept with [m]. *)
Theorem longer_lookback_keeps_more
        (e : env) (n m : Z) (cutoff_n cutoff_m : Calendar.date) :
  Calendar.valid (today e) -> (n <= m)%Z ->
  min_date_of e n = Ok cutoff_n -> min_date_of e m = Ok cutoff_m ->
  Calendar.ltb cutoff_n cutoff_m = false
  /\ forall r, too_old cutoff_n r = false -> too_old cutoff_m r = false.
Proof.
  intros Hv Hnm Hn Hm.
  apply CutoffInv.min_date_inv in Hn, Hm; try assumption. subst.
  assert (Hle : Calendar.ltb
                  (Calendar.first_of_month_index
                     (Calendar.month_index (today e) - Z.max 0 (n - 1)))
                  (Calendar.first_of_month_index
                     (Calendar.month_index (today e) - Z.max 0 (m - 1)))
                = false)
    by (apply CutoffInv.first_of_month_index_mono; lia).
  split; [exact Hle |].
  intros r. unfold too_old. destruct (date r) as [dt |]; [| trivial].
  intros Hkeep. apply CutoffInv.ltb_false_lex in Hle, Hkeep.
  apply CutoffInv.ltb_false_lex. lia.
Qed.

Lemma longer_lookback_keeps_more_witness :
  Calendar.ltb (Calendar.mkdate 2024 3 1) (Calendar.mkdate 2024 1 1) = false
  /\ min_date_of Sample.env0 1 = Ok (Calendar.mkdate 2024 3 1)
  /\ min_date_of Sample.env0 3 = Ok (Calendar.mkdate 2024 1 1).
Proof.
  assert (Hv : Calendar.valid (today Sample.env0)) by reflexivity.
  assert (H1 : min_date_of Sample.env0 1 = Ok (Calendar.mkdate 2024 3 1))
    by reflexivity.
  assert (H3 : min_date_of Sample.env0 3 = Ok (Calendar.mkdate 2024 1 1))
    by reflexivity.
  assert (Hle : (1 <= 3)%Z) by lia.
  destruct (longer_lookback_keeps_more Sample.env0 1 3 _ _ Hv Hle H1 H3)
    as [Hcut _].
  split; [exact Hcut | split; assumption].
Defined.

(** ** [set_webdriver] and the options *)

(** X12. For an accepted browser [set_webdriver] swallows no error of
    the driver library and stops at the first one: when the browser
    cannot be started no command is sent to any session, when the wait
    cannot be set the script is not run, and it returns, with the session
    the library gave, only if all three calls went through. *)
Theorem driver_errors_pass_through_set_webdriver
        (WebDriver : Type)
        (start : string -> Options -> outcome WebDriver)
        (implicitly_wait : WebDriver -> Z -> outcome unit)
        (execute_script : WebDriver -> string -> outcome unit)
        (self : CustomSelenium.state WebDriver) (browser : string) :
  supported browser ->
  let run := CustomSelenium.set_webdriver WebDriver start implicitly_wait
                                          execute_script self browser in
  let options := options_for browser in
  (forall x, start browser options = Raise x ->
             run = ([Start browser options], Raise x))
  /\ (forall driver x,
         start browser options = Ok driver ->
         implicitly_wait driver 20%Z = Raise x ->
         run = ([Start browser options; ImplicitlyWait 20], Raise x))
  /\ (forall driver x,
         start browser options = Ok driver ->
         implicitly_wait driver 20%Z = Ok tt ->
         execute_script driver CustomSelenium.hide_webdriver = Raise x ->
         run = ([Start browser options; ImplicitlyWait 20;
                 ExecuteScript CustomSelenium.hide_webdriver], Raise x))
  /\ (forall s, result run = Ok s ->
                exists driver,
                  s = Some driver
                  /\ start browser options = Ok driver
                  /\ implicitly_wait driver 20%Z = Ok tt
                  /\ execute_script driver CustomSelenium.hide_webdriver = Ok tt).
Proof.
  intros Hs run options. subst run options.
  rewrite (DriverFacts.set_webdriver_supported _ _ _ _ _ _ Hs).
  split; [| split; [| split]].
  - intros x ->. reflexivity.
  - intros driver x -> ->. reflexivity.
  - intros driver x -> -> ->. reflexivity.
  - intros s.
    destruct (start browser (options_for browser)) as [driver | x];
      [| discriminate].
    destruct (implicitly_wait driver 20%Z) as [[] | x] eqn:Hwait;
      [| discriminate].
    destruct (execute_script driver CustomSelenium.hide_webdriver)
      as [[] | x] eqn:Hscript; [| discriminate].
    cbn [result snd]. intros [= <-]. eauto.
Qed.

Lemma driver_errors_pass_through_set_webdriver_witness :
  CustomSelenium.set_webdriver string sample_start sample_command sample_command
                               None "chrome"
  = ([Start "chrome" CustomSelenium._set_chrome_options],
     Raise (WebDriverException "no such browser")).
Proof.
  assert (Hs : supported "chrome") by (left; reflexivity).
  destruct (driver_errors_pass_through_set_webdriver
              string sample_start sample_command sample_command None "chrome" Hs)
    as [Hstart _].
  exact (Hstart (WebDriverException "no such browser") eq_refl).
Defined.

(** X13. An experimental option is a dict entry: setting it makes it the
    value read back, leaves the other options alone, and replaces what the
    key held before. So every browser [set_webdriver] asks for is asked for
    under the name given, headless and with the fixed user agent; a Chrome
    is asked for with [excludeSwitches] holding ["enable-logging"] alone,
    the earlier ["enable-automation"] being overwritten, and a Firefox
    with no experimental option. *)
Theorem last_experimental_option_wins
        (WebDriver : Type)
        (start : string -> Options -> outcome WebDriver)
        (implicitly_wait : WebDriver -> Z -> outcome unit)
        (execute_script : WebDriver -> string -> outcome unit)
        (self : CustomSelenium.state WebDriver) (browser : string) :
  (forall k v v' o,
      experimental_option k (CustomSelenium.add_experimental_option k v o)
      = Some v
      /\ (forall k', k' <> k ->
            experimental_option k' (CustomSelenium.add_experimental_option k v o)
            = experimental_option k' o)
      /\ CustomSelenium.add_experimental_option k v'
           (CustomSelenium.add_experimental_option k v o)
         = CustomSelenium.add_experimental_option k v' o)
  /\ forall b o,
      In (b, o) (started (trace (CustomSelenium.set_webdriver
                                   WebDriver start implicitly_wait
                                   execute_script self browser))) ->
      b = browser
      /\ In "--headless" (arguments o)
      /\ In ("--user-agent=" ++ CustomSelenium.user_agent) (arguments o)
      /\ (Text.lower browser = "chrome" ->
          experimental_option "excludeSwitches" o
          = Some (Switches ["enable-logging"])
          /\ experimental_option "useAutomationExtension" o = Some (Flag false))
      /\ (Text.lower browser <> "chrome" -> experimental o = []).
Proof.
  split.
  - intros k v v' o. unfold experimental_option, CustomSelenium.add_experimental_option.
    cbn [experimental kind arguments]. repeat split.
    + apply DriverFacts.get_set_same.
    + intros k' Hk. now apply DriverFacts.get_set_other.
    + now rewrite DriverFacts.set_set_same.
  - intros b o Hin.
    destruct (DriverFacts.supported_dec browser) as [Hs | Hno].
    + rewrite (DriverFacts.set_webdriver_supported _ _ _ _ _ _ Hs) in Hin.
      assert (Hbo : (b, o) = (browser, options_for browser)).
      { destruct (start browser (options_for browser)) as [driver | x];
          [destruct (implicitly_wait driver 20%Z) as [[] | x];
           [destruct (execute_script driver CustomSelenium.hide_webdriver)
              as [[] | x] |] |];
          cbn [trace fst started In] in Hin;
          destruct Hin as [Hin | []]; now symmetry. }
      injection Hbo as -> ->. unfold options_for.
      destruct (String.eqb_spec (Text.lower browser) "chrome") as [Hc | Hc].
      * repeat split; try reflexivity; try contradiction;
          cbn; repeat (try (left; reflexivity); right).
      * destruct Hs as [Hc' | Hf]; [contradiction |].
        repeat split; try reflexivity; try contradiction;
          cbn; repeat (try (left; reflexivity); right).
    + rewrite (DriverFacts.set_webdriver_unsupported _ _ _ _ _ _ Hno) in Hin.
      destruct Hin.
Qed.

(** ** The search: [_search_by_term], [_sort_results], [search_news] *)

Module SessionFacts.

Import Session.

Lemma bindP_done {A B} (tr : list step) (a : A) (k : A -> P B) :
  bindP (tr, Done a) k = afterP tr (k a).
Proof. unfold bindP, afterP. now destruct (k a). Qed.

Lemma bindP_failed {A B} (tr : list step) (f : failure) (k : A -> P B) :
  bindP (tr, Failed f) k = (tr, Failed f).
Proof. reflexivity. Qed.

Lemma bindP_ret {A B} (a : A) (k : A -> P B) : bindP (retP a) k = k a.
Proof. unfold bindP, retP. now destruct (k a). Qed.

Lemma afterP_nil {A} (m : P A) : afterP [] m = m.
Proof. now destruct m. Qed.

Lemma afterP_afterP {A} (t1 t2 : list step) (m : P A) :
  afterP t1 (afterP t2 m) = afterP (t1 ++ t2) m.
Proof. unfold afterP; cbn [fst snd]. now rewrite app_assoc. Qed.

Lemma bindP_afterP {A B} (tr : list step) (m : P A) (k : A -> P B) :
  bindP (afterP tr m) k = afterP tr (bindP m k).
Proof.
  destruct m as [tr' [a | f]]; unfold afterP, bindP; cbn [fst snd].
  - destruct (k a) as [tr'' r]. cbn [fst snd]. now rewrite app_assoc.
  - reflexivity.
Qed.

Lemma crawled_app (t1 t2 : list step) :
  crawled (t1 ++ t2) = (crawled t1 ++ crawled t2)%list.
Proof.
  induction t1 as [| s t1 IH]; [reflexivity |].
  destruct s; cbn [app crawled]; now rewrite IH.
Qed.

Lemma crawled_map (tr : list event) : crawled (map Crawled tr) = tr.
Proof. induction tr as [| ev tr IH]; [reflexivity |]. cbn. now rewrite IH. Qed.

Lemma crawled_commands (l : list (control * command)) :
  crawled (commands l) = [].
Proof. induction l as [| cc l IH]; [reflexivity | exact IH]. Qed.

(** One element of the search: looked up, then sent its command. *)
Lemma found_and_taken {B} (p : page) (c : control) (cmd : command)
      (k : unit -> P B) :
  answers p (c, cmd) ->
  bindP (_find_element_by_xpath p c)
        (fun el => bindP (call p el cmd) k)
  = afterP [Command c cmd] (k tt).
Proof.
  intros [Hhas Htakes]. cbn [fst snd] in Hhas, Htakes.
  unfold _find_element_by_xpath, call. rewrite Hhas, bindP_ret, Htakes.
  unfold emitP, liftP, of_outcome, bindP, afterP.
  now destruct (k tt).
Qed.

Lemma found_and_refused {B} (p : page) (c : control) (cmd : command)
      (x : exn) (k : unit -> P B) :
  has p c = true -> takes p c cmd = Raise x ->
  bindP (_find_element_by_xpath p c)
        (fun el => bindP (call p el cmd) k)
  = ([Command c cmd], Failed (Crawl x)).
Proof.
  intros Hhas Htakes.
  unfold _find_element_by_xpath, call. rewrite Hhas, bindP_ret, Htakes.
  reflexivity.
Qed.

Lemma not_found {B} (p : page) (c : control) (cmd : command)
      (k : unit -> P B) :
  has p c = false ->
  bindP (_find_element_by_xpath p c)
        (fun el => bindP (call p el cmd) k)
  = ([NotFound c],
     Failed (AttributeError
               ("'NoneType' object has no attribute '" ++ method cmd ++ "'"))).
Proof.
  intros Hhas. unfold _find_element_by_xpath, call. rewrite Hhas.
  reflexivity.
Qed.

(** Either every element of a list answers, or there is a first one
    that does not: it is missing, or it refuses what it is sent. *)
Lemma first_silent (p : page) (l : list (control * command)) :
  Forall (answers p) l
  \/ exists before c cmd rest,
      l = (before ++ (c, cmd) :: rest)%list
      /\ Forall (answers p) before
      /\ (has p c = false
          \/ exists x, has p c = true /\ takes p c cmd = Raise x).
Proof.
  induction l as [| [c cmd] l IH]; [left; constructor |].
  destruct (has p c) eqn:Hhas.
  - destruct (takes p c cmd) as [[] | x] eqn:Htakes.
    + destruct IH as [Hall | (before & c' & cmd' & rest & -> & Hb & Hc)].
      * left. constructor; [now split | exact Hall].
      * right. exists ((c, cmd) :: before), c', cmd', rest.
        split; [reflexivity | split; [| exact Hc]].
        constructor; [now split | exact Hb].
    + right. exists [], c, cmd, l.
      split; [reflexivity | split; [constructor | eauto]].
  - right. exists [], c, cmd, l.
    split; [reflexivity | split; [constructor | now left]].
Qed.

(** Runs [search_news] as far as the hypotheses on the page tell how the
    lookups and the calls end. *)
Ltac run_search :=
  unfold search_news, _search_by_term, _sort_results,
    _find_element_by_xpath, call;
  change (Text.lower "Date") with "date";
  repeat (cbv [bindP retP emitP raiseP liftP of_outcome app];
          match goal with
          | H : has _ _ = _ |- _ => rewrite H
          | H : takes _ _ _ = _ |- _ => rewrite H
          end).

(** The answers of the elements at the head of a list, as equations. *)
Ltac answers_of_heads :=
  repeat match goal with
         | H : Forall _ (_ :: _) |- _ =>
             let Ha := fresh "Ha" in
             let Hb := fresh "Hb" in
             apply Forall_cons_iff in H as [[Ha Hb] H];
             cbn [fst snd] in Ha, Hb
         end.

End SessionFacts.

(** X14. When an element of the search is not on the page, the ones
    before it having answered, [search_news] stops there: the missing
    element is logged and the call on [None] raises [AttributeError], but
    for the sort box, whose lookup is unguarded and raises
    [NoSuchElementException] unlogged. An element that refuses what it is
    sent ends the search with its own error. Nothing is scanned. *)
Theorem missing_element_fails_the_search
        (e : env) (p : Session.page) (search_term : string) (n : Z)
        (before rest : list (Session.control * Session.command))
        (c : Session.control) (cmd : Session.command) :
  script search_term = (before ++ (c, cmd) :: rest)%list ->
  Forall (answers p) before ->
  (Session.has p c = false ->
   Session.search_news e p search_term n
   = ((announcement search_term n
         :: commands before
         ++ match c with
            | Session.sort_by_container => []
            | _ => [Session.NotFound c]
            end)%list,
      Session.Failed
        match c with
        | Session.sort_by_container =>
            Session.Crawl (NoSuchElementException "search-sort-option")
        | _ =>
            Session.AttributeError
              ("'NoneType' object has no attribute '" ++ Session.method cmd
                 ++ "'")
        end))
  /\ (forall x,
         Session.has p c = true -> Session.takes p c cmd = Raise x ->
         Session.search_news e p search_term n
         = ((announcement search_term n
               :: commands before ++ [Session.Command c cmd])%list,
            Session.Failed (Session.Crawl x))).
Proof.
  intros Hscript Hbefore. unfold script in Hscript.
  destruct before as [| b1 [| b2 [| b3 [| b4 [| b5 more]]]]];
    cbn [app] in Hscript; injection Hscript as <-; subst;
    SessionFacts.answers_of_heads.
  6: { destruct more; discriminate. }
  all: split; [intros Hhas | intros x Hhas Htakes];
    SessionFacts.run_search; reflexivity.
Qed.

Lemma missing_element_fails_the_search_witness :
  Session.search_news Sample.env0 no_input_page "Olympics" 1
  = ([announcement "Olympics" 1;
      Session.Command Session.search_trigger Session.click;
      Session.NotFound Session.search_input],
     Session.Failed
       (Session.AttributeError "'NoneType' object has no attribute 'send_keys'"))
  /\ Session.search_news Sample.env0 no_sort_page "Olympics" 1
     = ([announcement "Olympics" 1;
         Session.Command Session.search_trigger Session.click;
         Session.Command Session.search_input (Session.send_keys "Olympics");
         Session.Command Session.search_bar_button Session.click],
        Session.Failed
          (Session.Crawl (NoSuchElementException "search-sort-option"))).
Proof.
  split.
  - assert (Hb : Forall (answers no_input_page)
                   [(Session.search_trigger, Session.click)])
      by (repeat constructor).
    exact (proj1 (missing_element_fails_the_search
                    Sample.env0 no_input_page "Olympics" 1
                    [(Session.search_trigger, Session.click)]
                    [(Session.search_bar_button, Session.click);
                     (Session.sort_by_container, Session.click);
                     (Session.sort_by_element "date", Session.click)]
                    Session.search_input (Session.send_keys "Olympics")
                    eq_refl Hb)
                 eq_refl).
  - assert (Hb : Forall (answers no_sort_page)
                   [(Session.search_trigger, Session.click);
                    (Session.search_input, Session.send_keys "Olympics");
                    (Session.search_bar_button, Session.click)])
      by (repeat constructor).
    exact (proj1 (missing_element_fails_the_search
                    Sample.env0 no_sort_page "Olympics" 1
                    [(Session.search_trigger, Session.click);
                     (Session.search_input, Session.send_keys "Olympics");
                     (Session.search_bar_button, Session.click)]
                    [(Session.sort_by_element "date", Session.click)]
                    Session.sort_by_container Session.click
                    eq_refl Hb)
                 eq_refl).
Defined.

(** X15. [search_news] scans the results only after the search and the
    sort went through: when every element answers, it is the opening log
    line and the five calls, in order, and then [_save_news_to_excel] on
    the list of results, whose outcome is its own; otherwise it fails and
    writes no spreadsheet. *)
Theorem sheet_is_written_only_after_search_and_sort
        (e : env) (p : Session.page) (search_term : string) (n : Z) :
  (Forall (answers p) (script search_term) ->
   Session.search_news e p search_term n
   = afterP (announcement search_term n :: commands (script search_term))
       (Session.crawl
          (_save_news_to_excel e (Session.results p) search_term n)))
  /\ (~ Forall (answers p) (script search_term) ->
      exports (crawled (fst (Session.search_news e p search_term n))) = []
      /\ exists f, snd (Session.search_news e p search_term n)
                   = Session.Failed f).
Proof.
  split.
  - intros Hall. unfold script in Hall. SessionFacts.answers_of_heads.
    SessionFacts.run_search. unfold afterP.
    destruct (Session.crawl _) as [tr r]. reflexivity.
  - intros Hnot.
    destruct (SessionFacts.first_silent p (script search_term))
      as [Hall | (before & c & cmd & rest & Hscript & Hbefore & Hc)];
      [contradiction |].
    unfold script in Hscript.
    destruct before as [| b1 [| b2 [| b3 [| b4 [| b5 more]]]]];
      cbn [app] in Hscript; injection Hscript as <-; subst;
      SessionFacts.answers_of_heads.
    6: { destruct more; discriminate. }
    all: destruct Hc as [Hhas | (x & Hhas & Htakes)];
      SessionFacts.run_search; (split; [| eexists]; reflexivity).
Qed.

(** ** The set-up and the task *)

Module TaskFacts.

Import Session.

Lemma bindP_assoc {A B C} (m : P A) (k : A -> P B) (h : B -> P C) :
  bindP (bindP m k) h = bindP m (fun a => bindP (k a) h).
Proof.
  destruct m as [tr [a | f]]; [| reflexivity].
  unfold bindP at 2 3. destruct (k a) as [tr' [b | f]].
  - unfold bindP. destruct (h b) as [tr'' r]. now rewrite app_assoc.
  - reflexivity.
Qed.

Lemma for_inputs_cons (i : input) (l : list input) :
  for_inputs (i :: l) = bindP (turn i) (fun _ => for_inputs l).
Proof. unfold turn. now rewrite bindP_assoc. Qed.

Lemma turn_cases (i : input) :
  completes i \/ exists f, snd (turn i) = Failed f.
Proof.
  unfold completes. destruct (snd (turn i)) as [[] | f]; [now left | eauto].
Qed.

Lemma for_inputs_all (l : list input) :
  Forall completes l -> for_inputs l = (steps_of l, Done tt).
Proof.
  induction 1 as [| i l Hi _ IH]; [reflexivity |].
  rewrite for_inputs_cons. unfold completes in Hi.
  unfold steps_of. cbn [map List.concat]. fold (steps_of l).
  destruct (turn i) as [tr r]. cbn [fst snd] in *. subst r.
  now rewrite SessionFacts.bindP_done, IH.
Qed.

Lemma for_inputs_stops (before : list input) (i : input) (rest : list input)
      (f : failure) :
  Forall completes before -> snd (turn i) = Failed f ->
  for_inputs (before ++ i :: rest)
  = ((steps_of before ++ fst (turn i))%list, Failed f).
Proof.
  intros Hb Hi. induction Hb as [| j before Hj _ IH].
  - cbn [app]. rewrite for_inputs_cons.
    destruct (turn i) as [tr r]. cbn [fst snd] in *. now subst r.
  - cbn [app]. rewrite for_inputs_cons, IH. unfold completes in Hj.
    unfold steps_of. cbn [map List.concat]. fold (steps_of before).
    destruct (turn j) as [tr r]. cbn [fst snd] in *. subst r.
    rewrite SessionFacts.bindP_done. unfold afterP. cbn [fst snd].
    now rewrite app_assoc.
Qed.

(** Either every input completes, or there is a first one that fails. *)
Lemma first_failing (l : list input) :
  Forall completes l
  \/ exists before i rest f,
      l = (before ++ i :: rest)%list
      /\ Forall completes before /\ snd (turn i) = Failed f.
Proof.
  induction l as [| i l IH]; [left; constructor |].
  destruct (turn_cases i) as [Hi | [f Hf]].
  - destruct IH as [Hall | (before & j & rest & f & -> & Hb & Hj)].
    + left. now constructor.
    + right. exists (i :: before), j, rest, f.
      split; [reflexivity | split; [now constructor | exact Hj]].
  - right. exists [], i, l, f.
    split; [reflexivity | split; [constructor | exact Hf]].
Qed.

(** *** Where the browser is not quit *)

Lemma no_quit_bind {A B} (m : P A) (k : A -> P B) :
  ~ In Quit (fst m) -> (forall a, ~ In Quit (fst (k a))) ->
  ~ In Quit (fst (bindP m k)).
Proof.
  intros Hm Hk. destruct m as [tr [a | f]]; cbn [fst] in Hm; [| exact Hm].
  specialize (Hk a). unfold bindP. destruct (k a) as [tr' r].
  cbn [fst] in *. intros Hin. apply in_app_or in Hin. tauto.
Qed.

Lemma no_quit_crawl {A} (m : M A) : ~ In Quit (fst (crawl m)).
Proof.
  unfold crawl. cbn [fst]. intros Hin. apply in_map_iff in Hin.
  destruct Hin as (ev & Hev & _). discriminate Hev.
Qed.

Lemma no_quit_silent {A} (r : ending A) : ~ In Quit (fst (([] : list step), r)).
Proof. intros []. Qed.

Lemma no_quit_one {A} (s : step) (r : ending A) :
  s <> Quit -> ~ In Quit (fst ([s], r)).
Proof. intros Hs [H | []]. now apply Hs. Qed.

Ltac no_quit :=
  repeat first
    [ apply no_quit_crawl
    | apply no_quit_silent
    | apply no_quit_one; discriminate
    | apply no_quit_bind; [| intros ?]
    | match goal with
      | |- context [if ?b then _ else _] => destruct b
      | |- context [match ?x with _ => _ end] => destruct x
      end ].

Lemma no_quit_search_news (e : env) (p : page) (search_term : string) (n : Z) :
  ~ In Quit (fst (search_news e p search_term n)).
Proof.
  unfold search_news, _search_by_term, _sort_results, _find_element_by_xpath,
    call, emitP, liftP, retP, raiseP.
  no_quit.
Qed.

Lemma no_quit_zip_files (f : folder) (files : list (string * bool)) :
  ~ In Quit (fst (zip_files f files)).
Proof.
  induction files as [| [name is_file] files IH]; [intros [] |].
  cbn [zip_files]. apply no_quit_bind; [| intros _; exact IH].
  unfold emitP, liftE, retP. no_quit.
Qed.

Lemma no_quit_turn (i : input) : ~ In Quit (fst (turn i)).
Proof.
  unfold turn. apply no_quit_bind; [apply no_quit_search_news | intros _].
  unfold zip_output, emitP, liftE.
  apply no_quit_bind; [apply no_quit_one; discriminate | intros _].
  apply no_quit_bind; [apply no_quit_silent | intros _].
  apply no_quit_bind; [apply no_quit_silent | intros files].
  apply no_quit_bind; [apply no_quit_zip_files | intros _].
  apply no_quit_one; discriminate.
Qed.

Lemma no_quit_steps_of (l : list input) : ~ In Quit (steps_of l).
Proof.
  induction l as [| i l IH]; [intros [] |].
  unfold steps_of. cbn [map List.concat]. fold (steps_of l).
  intros Hin. apply in_app_or in Hin as [Hin | Hin];
    [exact (no_quit_turn i Hin) | exact (IH Hin)].
Qed.

(** *** How a completed computation was made *)

Lemma bindP_done_inv {A B} (m : P A) (k : A -> P B) (tr : list step) (b : B) :
  bindP m k = (tr, Done b) ->
  exists tr1 a tr2,
    m = (tr1, Done a) /\ k a = (tr2, Done b) /\ tr = (tr1 ++ tr2)%list.
Proof.
  destruct m as [tr1 [a | f]]; [| discriminate].
  unfold bindP. destruct (k a) as [tr2 r] eqn:Hk.
  intros [= <- ->]. now exists tr1, a, tr2.
Qed.

Lemma liftP_done_inv {A} (o : outcome A) (tr : list step) (a : A) :
  liftP o = (tr, Done a) -> tr = [] /\ o = Ok a.
Proof. destruct o; unfold liftP, of_outcome; now intros [= <- <-]. Qed.

Lemma crawl_done_inv {A} (m : M A) (tr : list step) (a : A) :
  crawl m = (tr, Done a) -> m = (trace m, Ok a) /\ tr = map Crawled (trace m).
Proof.
  destruct m as [t [a' | x]]; unfold crawl, of_outcome; cbn [trace result fst snd];
    [now intros [= <- <-] | discriminate].
Qed.

(** *** The set-up as [task] makes it *)

Lemma setup_keeps_driver (lib : library) (self : state lib)
      (browser url : string) (screenshot : option string)
      (tr : list step) (s : state lib) :
  setup_home_page lib self browser url screenshot = (tr, Done s) ->
  exists driver, s = Some driver.
Proof.
  intros Hrun. unfold setup_home_page in Hrun.
  apply bindP_done_inv in Hrun as (t1 & s1 & t2 & Hcrawler & Hrun & ->).
  apply bindP_done_inv in Hrun as (t3 & [] & t4 & _ & Hrun & ->).
  apply bindP_done_inv in Hrun as (t5 & [] & t6 & _ & Hrun & ->).
  apply bindP_done_inv in Hrun as (t7 & [] & t8 & _ & Hrun & ->).
  injection Hrun as _ <-.
  unfold setup_crawler in Hcrawler.
  apply bindP_done_inv in Hcrawler as (u1 & [] & u2 & _ & Hcrawler & ->).
  apply bindP_done_inv in Hcrawler as (u3 & [] & u4 & _ & Hcrawler & ->).
  apply bindP_done_inv in Hcrawler as (u5 & s2 & u6 & Hweb & Hcrawler & ->).
  apply bindP_done_inv in Hcrawler as (u7 & [] & u8 & _ & Hcrawler & ->).
  injection Hcrawler as _ <-.
  apply crawl_done_inv in Hweb as [Hweb _].
  destruct (DriverFacts.supported_dec browser) as [Hs | Hno];
    [| rewrite (DriverFacts.set_webdriver_unsupported _ _ _ _ _ _ Hno) in Hweb;
       discriminate].
  rewrite (DriverFacts.set_webdriver_supported _ _ _ _ _ _ Hs) in Hweb.
  destruct (start lib browser (options_for browser)) as [driver | x];
    [| discriminate].
  destruct (implicitly_wait lib driver 20%Z) as [[] | x]; [| discriminate].
  destruct (execute_script lib driver CustomSelenium.hide_webdriver)
    as [[] | x]; [| discriminate].
  injection Hweb as <-. now exists driver.
Qed.

Lemma no_quit_setup (lib : library) (self : state lib)
      (browser url : string) (screenshot : option string) :
  ~ In Quit (fst (setup_home_page lib self browser url screenshot)).
Proof.
  unfold setup_home_page, setup_crawler, _setup_custom_logger, open_url,
    set_page_size, emitP, liftP, liftE, retP, raiseP.
  no_quit.
Qed.

End TaskFacts.

(** X16. [setup_home_page] makes the output directory before it looks at
    the browser name, so an unsupported name raises its [ValueError] with
    the directory made and nothing else done. When the set-up completes
    it has, in this order, made the directory, started the browser and
    sent it the wait and the script, added the log file, loaded the page,
    taken the screenshot if a non-empty name was given, and only then
    resized the window, to the size asked for plus the frame it read,
    keeping the session the library gave. *)
Theorem setup_home_page_resizes_last
        (lib : Session.library) (self : Session.state lib)
        (browser url : string) (screenshot : option string) :
  (~ supported browser ->
   Session.mkdir lib output_path = Session.Done tt ->
   Session.setup_home_page lib self browser url screenshot
   = ([Session.Mkdir output_path],
      Session.Failed (Session.Crawl (CustomSelenium.not_supported browser))))
  /\ (forall tr s,
         Session.setup_home_page lib self browser url screenshot
         = (tr, Session.Done s) ->
         exists driver html outer inner_width inner_height,
           s = Some driver
           /\ Session.start lib browser (options_for browser) = Ok driver
           /\ Session.get_window_size lib driver = Ok outer
           /\ Session.find_html lib driver = Ok html
           /\ (exists text, Session.get_attribute lib html "clientWidth" = Ok text
                            /\ Session.int lib text = Ok inner_width)
           /\ (exists text, Session.get_attribute lib html "clientHeight" = Ok text
                            /\ Session.int lib text = Ok inner_height)
           /\ tr = (Session.Mkdir output_path
                    :: Session.Crawled (Start browser (options_for browser))
                    :: Session.Crawled (ImplicitlyWait 20)
                    :: Session.Crawled (ExecuteScript CustomSelenium.hide_webdriver)
                    :: Session.AddFileHandler (joinpath output_path "custom.log")
                    :: Session.Get url
                    :: match screenshot with
                       | Some (String _ _ as name) =>
                           [Session.Screenshot output_path name]
                       | _ => []
                       end
                    ++ [Session.SetWindowRect
                          (1920 + (fst outer - inner_width))
                          (1080 + (snd outer - inner_height));
                        Session.Crawled
                          (LogInfo "Al Jazeera News page opened successfully.")])%list).
Proof.
  split.
  - intros Hno Hmkdir.
    unfold Session.setup_home_page, Session.setup_crawler.
    rewrite Hmkdir, (DriverFacts.set_webdriver_unsupported _ _ _ _ _ _ Hno).
    reflexivity.
  - intros tr s Hrun.
    unfold Session.setup_home_page in Hrun.
    apply TaskFacts.bindP_done_inv in Hrun as (t1 & s1 & t2 & Hcrawler & Hrun & ->).
    apply TaskFacts.bindP_done_inv in Hrun as (t3 & [] & t4 & Hopen & Hrun & ->).
    apply TaskFacts.bindP_done_inv in Hrun as (t5 & [] & t6 & Hsize & Hrun & ->).
    apply TaskFacts.bindP_done_inv in Hrun as (t7 & [] & t8 & Hlog & Hrun & ->).
    injection Hlog as <-. injection Hrun as <- <-.
    (* setup_crawler *)
    unfold Session.setup_crawler, Session._setup_custom_logger in Hcrawler.
    apply TaskFacts.bindP_done_inv in Hcrawler as (u1 & [] & u2 & Hmk & Hcrawler & ->).
    injection Hmk as <-.
    apply TaskFacts.bindP_done_inv in Hcrawler as (u3 & [] & u4 & Hmk & Hcrawler & ->).
    injection Hmk as <- _.
    apply TaskFacts.bindP_done_inv in Hcrawler as (u5 & s2 & u6 & Hweb & Hcrawler & ->).
    apply TaskFacts.bindP_done_inv in Hcrawler as (u7 & [] & u8 & Hlog & Hcrawler & ->).
    injection Hcrawler as <- <-.
    apply TaskFacts.bindP_done_inv in Hlog as (u9 & [] & u10 & Hadd & Hfile & ->).
    injection Hadd as <-. injection Hfile as <- _.
    apply TaskFacts.crawl_done_inv in Hweb as [Hweb ->].
    destruct (DriverFacts.supported_dec browser) as [Hs | Hno];
      [| rewrite (DriverFacts.set_webdriver_unsupported _ _ _ _ _ _ Hno) in Hweb;
         discriminate].
    rewrite (DriverFacts.set_webdriver_supported _ _ _ _ _ _ Hs) in Hweb |- *.
    destruct (Session.start lib browser (options_for browser))
      as [driver | x] eqn:Hstart; [| discriminate].
    destruct (Session.implicitly_wait lib driver 20%Z) as [[] | x];
      [| discriminate].
    destruct (Session.execute_script lib driver CustomSelenium.hide_webdriver)
      as [[] | x]; [| discriminate].
    cbn [trace fst] in Hweb |- *. injection Hweb as <-.
    (* open_url *)
    unfold Session.open_url in Hopen.
    apply TaskFacts.bindP_done_inv in Hopen as (v1 & [] & v2 & Hget & Hopen & ->).
    injection Hget as <-.
    apply TaskFacts.bindP_done_inv in Hopen as (v3 & [] & v4 & Hget & Hshot & ->).
    apply TaskFacts.liftP_done_inv in Hget as [-> _].
    assert (Hv4 : v4 = match screenshot with
                       | Some (String _ _ as name) =>
                           [Session.Screenshot output_path name]
                       | _ => []
                       end).
    { destruct screenshot as [[| c name] |]; try now injection Hshot as <-.
      apply TaskFacts.bindP_done_inv in Hshot as (w1 & [] & w2 & Hs1 & Hshot & ->).
      injection Hs1 as <-.
      apply TaskFacts.bindP_done_inv in Hshot as (w3 & b & w4 & Hs1 & Hshot & ->).
      apply TaskFacts.liftP_done_inv in Hs1 as [-> _].
      now injection Hshot as <-. }
    subst v4. clear Hshot.
    (* set_page_size *)
    unfold Session.set_page_size in Hsize.
    apply TaskFacts.bindP_done_inv in Hsize as (x1 & outer & x2 & Hws & Hsize & ->).
    apply TaskFacts.liftP_done_inv in Hws as [-> Hws].
    apply TaskFacts.bindP_done_inv in Hsize as (x3 & html & x4 & Hhtml & Hsize & ->).
    apply TaskFacts.liftP_done_inv in Hhtml as [-> Hhtml].
    apply TaskFacts.bindP_done_inv in Hsize as (x5 & cw & x6 & Hcw & Hsize & ->).
    apply TaskFacts.liftP_done_inv in Hcw as [-> Hcw].
    apply TaskFacts.bindP_done_inv in Hsize as (x7 & iw & x8 & Hiw & Hsize & ->).
    apply TaskFacts.liftP_done_inv in Hiw as [-> Hiw].
    apply TaskFacts.bindP_done_inv in Hsize as (x9 & ch & x10 & Hch & Hsize & ->).
    apply TaskFacts.liftP_done_inv in Hch as [-> Hch].
    apply TaskFacts.bindP_done_inv in Hsize as (x11 & ih & x12 & Hih & Hsize & ->).
    apply TaskFacts.liftP_done_inv in Hih as [-> Hih].
    apply TaskFacts.bindP_done_inv in Hsize as (x13 & [] & x14 & Hrect & Hsize & ->).
    injection Hrect as <-.
    apply TaskFacts.liftP_done_inv in Hsize as [-> _].
    exists driver, html, outer, iw, ih.
    split; [reflexivity |]. split; [reflexivity |].
    split; [exact Hws |]. split; [exact Hhtml |].
    split; [eauto |]. split; [eauto |].
    cbn [map app]. rewrite ?app_nil_r. reflexivity.
Qed.

Lemma setup_home_page_resizes_last_witness :
  Session.setup_home_page sample_library None "Safari"
                          "https://www.aljazeera.com/" (Some "home.png")
  = ([Session.Mkdir output_path],
     Session.Failed
       (Session.Crawl (ValueError "Browser 'Safari' is not supported")))
  /\ exists outer,
      Session.get_window_size sample_library "session of Chrome" = Ok outer
      /\ fst (Session.setup_home_page sample_library None "Chrome"
                                      "https://www.aljazeera.com/"
                                      (Some "home.png"))
         = [Session.Mkdir output_path;
            Session.Crawled (Start "Chrome" CustomSelenium._set_chrome_options);
            Session.Crawled (ImplicitlyWait 20);
            Session.Crawled (ExecuteScript CustomSelenium.hide_webdriver);
            Session.AddFileHandler (joinpath output_path "custom.log");
            Session.Get "https://www.aljazeera.com/";
            Session.Screenshot output_path "home.png";
            Session.SetWindowRect (1920 + (fst outer - 1034))
                                  (1080 + (snd outer - 717));
            Session.Crawled
              (LogInfo "Al Jazeera News page opened successfully.")].
Proof.
  split.
  - apply (proj1 (setup_home_page_resizes_last
                    sample_library None "Safari" "https://www.aljazeera.com/"
                    (Some "home.png"))).
    + intros [H | H]; discriminate H.
    + reflexivity.
  - destruct (proj2 (setup_home_page_resizes_last
                       sample_library None "Chrome"
                       "https://www.aljazeera.com/" (Some "home.png"))
                    (fst (Session.setup_home_page
                            sample_library None "Chrome"
                            "https://www.aljazeera.com/" (Some "home.png")))
                    (Some "session of Chrome") eq_refl)
      as (driver & html & outer & iw & ih & Hd & _ & Hws & _
          & (tw & Htw & Hiw) & (th & Hth & Hih) & Htr).
    injection Hd as <-. injection Htw as <-. injection Hth as <-.
    injection Hiw as <-. injection Hih as <-.
    exists outer. split; [exact Hws | exact Htr].
Defined.

(** X17. [task] quits the browser exactly when the set-up and the turn of
    every work item completed, and then as its last step. A set-up that
    fails ends the task before any item is looked at. The first item
    whose search or archive fails ends it with that error: the steps are
    those of the set-up, of the turns before and of the failing turn up
    to the error; later items are not handled and the browser is left
    open. *)
Theorem browser_is_quit_only_after_every_item
        (lib : Session.library) (inputs : list Session.input) :
  (In Session.Quit (fst (Session.task lib inputs))
   <-> (exists tr s, home_page lib = (tr, Session.Done s))
       /\ Forall completes inputs)
  /\ (forall tr f,
         home_page lib = (tr, Session.Failed f) ->
         Session.task lib inputs = (tr, Session.Failed f))
  /\ (forall tr s before i rest f,
         home_page lib = (tr, Session.Done s) ->
         inputs = (before ++ i :: rest)%list ->
         Forall completes before ->
         snd (turn i) = Session.Failed f ->
         Session.task lib inputs
         = ((tr ++ steps_of before ++ fst (turn i))%list, Session.Failed f))
  /\ (forall tr s,
         home_page lib = (tr, Session.Done s) ->
         Forall completes inputs ->
         exists driver,
           s = Some driver
           /\ Session.task lib inputs
              = ((tr ++ steps_of inputs ++ [Session.Quit])%list,
                 Session.of_outcome (Session.quit lib driver))).
Proof.
  assert (Hfail : forall tr f,
             home_page lib = (tr, Session.Failed f) ->
             Session.task lib inputs = (tr, Session.Failed f)).
  { intros tr f Hhome. unfold Session.task. fold (home_page lib).
    now rewrite Hhome. }
  assert (Hstop : forall tr s before i rest f,
             home_page lib = (tr, Session.Done s) ->
             inputs = (before ++ i :: rest)%list ->
             Forall completes before ->
             snd (turn i) = Session.Failed f ->
             Session.task lib inputs
             = ((tr ++ steps_of before ++ fst (turn i))%list, Session.Failed f)).
  { intros tr s before i rest f Hhome -> Hb Hi.
    unfold Session.task. fold (home_page lib).
    rewrite Hhome, SessionFacts.bindP_done.
    now rewrite (TaskFacts.for_inputs_stops before i rest f Hb Hi). }
  assert (Hall : forall tr s,
             home_page lib = (tr, Session.Done s) ->
             Forall completes inputs ->
             exists driver,
               s = Some driver
               /\ Session.task lib inputs
                  = ((tr ++ steps_of inputs ++ [Session.Quit])%list,
                     Session.of_outcome (Session.quit lib driver))).
  { intros tr s Hhome Hin.
    destruct (TaskFacts.setup_keeps_driver lib _ _ _ _ tr s Hhome) as [driver ->].
    exists driver. split; [reflexivity |].
    unfold Session.task. fold (home_page lib).
    rewrite Hhome, SessionFacts.bindP_done.
    rewrite (TaskFacts.for_inputs_all inputs Hin).
    rewrite SessionFacts.bindP_done. unfold afterP, Session.driver_quit.
    reflexivity. }
  split; [| split; [exact Hfail | split; [exact Hstop | exact Hall]]].
  split.
  - intros Hquit.
    pose proof (TaskFacts.no_quit_setup
                  lib None "Chrome" "https://www.aljazeera.com/" None) as Hq.
    fold (home_page lib) in Hq.
    destruct (home_page lib) as [tr [s | f]] eqn:Hhome; cbn [fst] in Hq.
    + destruct (TaskFacts.first_failing inputs)
        as [Hin | (before & i & rest & f & Hsplit & Hb & Hi)].
      * split; [eauto | exact Hin].
      * rewrite (Hstop tr s before i rest f eq_refl Hsplit Hb Hi) in Hquit.
        cbn [fst] in Hquit.
        apply in_app_or in Hquit as [Hquit | Hquit]; [contradiction |].
        apply in_app_or in Hquit as [Hquit | Hquit];
          [exact (False_ind _ (TaskFacts.no_quit_steps_of before Hquit))
          | exact (False_ind _ (TaskFacts.no_quit_turn i Hquit))].
    + rewrite (Hfail tr f eq_refl) in Hquit. cbn [fst] in Hquit.
      contradiction.
  - intros [(tr & s & Hhome) Hin].
    destruct (Hall tr s Hhome Hin) as (driver & _ & ->). cbn [fst].
    apply in_or_app. right. apply in_or_app. right. now left.
Qed.

Lemma browser_is_quit_only_after_every_item_witness :
  completes first_input
  /\ Session.task sample_library [first_input; second_input]
     = ((fst (home_page sample_library) ++ steps_of [first_input]
           ++ [announcement "Budget" 3;
               Session.Command Session.search_trigger Session.click;
               Session.NotFound Session.search_input])%list,
        Session.Failed
          (Session.AttributeError
             "'NoneType' object has no attribute 'send_keys'")).
Proof.
  assert (Hfirst : completes first_input) by (vm_compute; reflexivity).
  split; [exact Hfirst |].
  destruct (browser_is_quit_only_after_every_item
              sample_library [first_input; second_input])
    as (_ & _ & Hstop & _).
  exact (Hstop (fst (home_page sample_library)) (Some "session of Chrome")
               [first_input] second_input []
               (Session.AttributeError
                  "'NoneType' object has no attribute 'send_keys'")
               eq_refl eq_refl (Forall_cons _ Hfirst (Forall_nil _)) eq_refl).
Defined.
